(** * Voltage-drop propagation of the APWRLINK / APWRHUB calculator

    A shallow embedding of the two Streamlit scripts of the repository:

    - [Main2] is [src/main2.py], the link-aware tool (one APWRLINK source
      per link, 48 V, one-way resistivity [R = rho * L / A]);
    - [Main] is [src/main.py], the earlier single-chain variant
      (round-trip form [R = 2 * L / (kappa * A)]);
    - [Binary64] re-evaluates the arithmetic core of [src/main2.py] in
      IEEE 754 binary64, the arithmetic of a Python [float].

    Conventions.  A Python [int] is a [Z].  A Python [float] is an exact
    rational [Q] in [Main2] and [Main]: statements there are statements
    about the formulas, free of binary rounding error.  The script
    computes in binary64, whose results differ from the exact ones by a
    relative 1e-16 or so, which is enough to move a displayed digit
    where the exact value is a decimal tie (328.125 mV is shown as
    328.13, not 328.12).  Where a statement relates numbers it is
    therefore made up to a [margin], so that it holds of both
    arithmetics, and [Binary64] gives the outcome of the floating-point
    evaluation on the inputs where the two part.
    A [dict] iterated in insertion order is an association list.  Widgets
    ([st.number_input], [st.multiselect], ...) are read-only inputs,
    gathered in a record; presentation (markdown, drawing with
    matplotlib, writing the PDF) is left out, the data handed to it is
    kept: [Chart] holds the threshold line of a link's chart and [Pdf]
    what [create_pdf_download_link] computes before it draws. *)

From Stdlib Require Import ZArith QArith Qround Qabs Lqa Lia List String Ascii Bool.
From Stdlib Require Import DecimalString DecimalNat Floats Sorting.Sorted FinFun.
Import ListNotations.

Set Warnings "-inexact-float".

(** ** Python prelude *)

Module Py.

(** What running a piece of the script ends in: it runs to its end, the
    page is halted by [st.stop()] after an [st.error], or an exception
    is raised: one of Python's, or the [StreamlitAPIException] a widget
    raises when it is created with a default outside its bounds. *)
Inductive exn : Type := ValueError | IndexError | StreamlitAPIException.

Inductive outcome (A : Type) : Type :=
| Done (a : A)
| Stopped (shown : string)
| Raised (e : exn).

Arguments Done {A} a.
Arguments Stopped {A} shown.
Arguments Raised {A} e.

Definition bind {A B : Type} (c : outcome A) (k : A -> outcome B) : outcome B :=
  match c with
  | Done a => k a
  | Stopped m => Stopped m
  | Raised e => Raised e
  end.

Fixpoint mapM {A B : Type} (f : A -> outcome B) (l : list A) : outcome (list B) :=
  match l with
  | [] => Done []
  | a :: l' =>
      bind (f a) (fun b => bind (mapM f l') (fun bs => Done (b :: bs)))
  end.

(** [range(n)] *)
Definition range (n : nat) : list nat := seq 0 n.

(** [sum(xs)] over ints: left to right from 0. *)
Definition sum (xs : list Z) : Z := fold_left Z.add xs 0%Z.

(** [math.ceil(a / b)] for ints [a], [b]. *)
Definition ceil_div (a b : Z) : Z := Qceiling (inject_Z a / inject_Z b).

(** [str(n)] for a natural number. *)
Definition str (n : nat) : string := NilEmpty.string_of_uint (Nat.to_uint n).

(** [x < y] on floats. *)
Definition ltb (x y : Q) : bool := negb (Qle_bool y x).

(** [min(xs)] and [max(xs)]: the first smallest (largest) element;
    [ValueError] on an empty list. *)
Definition min (xs : list Q) : outcome Q :=
  match xs with
  | [] => Raised ValueError
  | x :: xs' => Done (fold_left (fun m y => if ltb y m then y else m) xs' x)
  end.

Definition max (xs : list Q) : outcome Q :=
  match xs with
  | [] => Raised ValueError
  | x :: xs' => Done (fold_left (fun m y => if ltb m y then y else m) xs' x)
  end.

(** [xs.index(x)]: position of the first occurrence, [ValueError] if none. *)
Fixpoint index (xs : list string) (x : string) : outcome nat :=
  match xs with
  | [] => Raised ValueError
  | y :: xs' => if String.eqb y x then Done O else bind (index xs' x) (fun i => Done (S i))
  end.

(** [sorted(xs)] on indices. *)
Fixpoint insert_sorted (x : nat) (xs : list nat) : list nat :=
  match xs with
  | [] => [x]
  | y :: xs' => if Nat.leb x y then x :: xs else y :: insert_sorted x xs'
  end.

Definition sorted (xs : list nat) : list nat := fold_right insert_sorted [] xs.

(** Rounding of a rational to the nearest integer, ties to the even one. *)
Definition round_half_even (q : Q) : Z :=
  let f := Qfloor q in
  match Qcompare (q - inject_Z f) (1 # 2) with
  | Lt => f
  | Gt => (f + 1)%Z
  | Eq => if Z.even f then f else (f + 1)%Z
  end.

(** [round(x, ndigits)] for [ndigits >= 0]: the decimal with [ndigits]
    places nearest to [x], ties to even.  Python rounds the binary value
    of its [float], which at a decimal tie of the exact value lies on one
    side of it: there [Binary64.round] tells the digit the script shows. *)
Definition round (x : Q) (ndigits : nat) : Q :=
  inject_Z (round_half_even (x * inject_Z (10 ^ Z.of_nat ndigits)))
  / inject_Z (10 ^ Z.of_nat ndigits).

End Py.

Notation "x <- c ;; k" := (Py.bind c (fun x => k))
  (at level 61, c at next level, right associativity).

(** ** [src/main2.py] *)

Module Main2.
Import Py.

Open Scope Q_scope.

(** Technical constants (lines 20-28). *)
Definition COPPER_RESISTIVITY : Q := 0.0175.
Definition ANODES_PER_HUB : Z := 8.
Definition DEFAULT_ANODES : Z := 24.
Definition DEFAULT_CURRENT_PER_ANODE : Z := 625.
Definition DEFAULT_CABLE_AREA : Q := 4.0.
Definition DEFAULT_DISTANCE : Q := 10.0.
Definition LINK_VOLTAGE : Q := 48.0.
Definition DEFAULT_MIN_VOLTAGE : Q := 36.0.
Definition DEFAULT_MAX_LINK_CURRENT : Q := 10.0.

(** The widgets the script reads.  [distance i], [manual_config i] and
    [curr i a] are the widgets keyed [dist_i], [manual_i] and [curr_i_a];
    [link_input_length l] is the widget keyed [input_len_l]. *)
Record widgets : Type := {
  total_anodes : Z;
  current_per_anode : Z;
  cable_area : Q;
  reference_voltage : Q;
  min_voltage : Q;
  max_link_current : Q;
  selected_link_starts : list string;
  distance_input : nat -> Q;
  manual_config : nat -> bool;
  curr : nat -> nat -> Z;
  link_input_length : string -> Q
}.

(** An entry of [hub_data] (lines 514-519). *)
Record hub : Type := {
  hub_name : string;
  link_id : string;
  distance : Q;
  current_mA : Z
}.

(** A [result_row] (lines 568-579), one field per key of the dict. *)
Record result_row : Type := {
  APWRLINK : string;
  From : string;
  To : string;
  Distance_m : Q;
  Resistance_ohm : Q;
  Current_A : Q;
  dVoltage_mV : Q;
  Cumulative_dVoltage_mV : Q;
  Remaining_Voltage_V : Q;
  dVoltage_percent : Q
}.

(** *** Calculation functions (lines 239-243)

    Exact quotients; [Binary64.calculate_resistance] and
    [Binary64.calculate_current] are the floats the script computes. *)

Definition calculate_resistance (length_m area_mm2 : Q) : Q :=
  (COPPER_RESISTIVITY * length_m) / area_mm2.

Definition calculate_current (hub_list : list hub) (start_index : nat) : Q :=
  inject_Z (sum (map current_mA (skipn start_index hub_list))) / 1000.

(** *** Topology (lines 433, 456-474) *)

Definition num_hubs (w : widgets) : Z := ceil_div (total_anodes w) ANODES_PER_HUB.

Definition hub_names (w : widgets) : list string :=
  map (fun i => ("APWRHUB " ++ str (i + 1))%string) (range (Z.to_nat (num_hubs w))).

Definition link_body (start_indices : list nat) (s : nat * list string) (i : nat)
  : nat * list string :=
  let '(current_link, link_assignments) := s in
  let current_link :=
    if existsb (Nat.eqb i) start_indices && negb (Nat.eqb i 0)
    then S current_link else current_link in
  (current_link, link_assignments ++ [("APWRLINK " ++ str current_link)%string]).

Definition link_assignments (w : widgets) (start_indices : list nat) : list string :=
  snd (fold_left (link_body start_indices) (range (Z.to_nat (num_hubs w))) (1%nat, [])).

(** *** Hub configuration (lines 478-521) *)

(** State of the loop; [anodes_log] records [anodes_here] of each pass
    (a local of the loop body, kept to state what each hub receives). *)
Record hub_loop : Type := {
  remaining_anodes : Z;
  hub_data : list hub;
  anodes_log : list Z
}.

(** Body of [for i in range(num_hubs)] (lines 481-521) when its widgets
    are created without an exception; [hub_pass] below is the body with
    the exception of lines 499-506. *)
Definition hub_body (w : widgets) (link_assignments : list string)
  (s : hub_loop) (i : nat) : hub_loop :=
  let hub_name := ("APWRHUB " ++ str (i + 1))%string in
  let link := nth i link_assignments EmptyString in
  let distance := distance_input w i in
  let anodes_here := Z.min ANODES_PER_HUB (remaining_anodes s) in
  let anode_currents :=
    if manual_config w i
    then map (curr w i) (range (Z.to_nat anodes_here))
    else repeat (current_per_anode w) (Z.to_nat anodes_here) in
  let total_current := sum anode_currents in
  {| remaining_anodes := (remaining_anodes s - anodes_here)%Z;
     hub_data := hub_data s ++
       [{| hub_name := hub_name; link_id := link;
           distance := distance; current_mA := total_current |}];
     anodes_log := anodes_log s ++ [anodes_here] |}.

Definition configure_hubs (w : widgets) (link_assignments : list string) : hub_loop :=
  fold_left (hub_body w link_assignments) (range (Z.to_nat (num_hubs w)))
    {| remaining_anodes := total_anodes w; hub_data := []; anodes_log := [] |}.

(** The widget of lines 499-506,
    [st.number_input(..., min_value=0, max_value=625, value=current_per_anode, step=5)]:
    Streamlit raises [StreamlitAPIException] when the default [value]
    lies outside [min_value .. max_value]; otherwise the widget returns
    the number entered, [curr w i a]. *)
Definition curr_input (w : widgets) (i a : nat) : outcome Z :=
  if ((current_per_anode w <? 0) || (625 <? current_per_anode w))%Z
  then Raised StreamlitAPIException
  else Done (curr w i a).

(** [anode_currents] of pass [i] (lines 495-509). *)
Definition anode_currents (w : widgets) (i : nat) (anodes_here : Z) : outcome (list Z) :=
  if manual_config w i
  then mapM (curr_input w i) (range (Z.to_nat anodes_here))
  else Done (repeat (current_per_anode w) (Z.to_nat anodes_here)).

(** Body of [for i in range(num_hubs)] (lines 481-521) with the
    exception its widgets may raise; [hub_body] is the state the pass
    leaves when they raise none. *)
Definition hub_pass (w : widgets) (link_assignments : list string)
  (acc : outcome hub_loop) (i : nat) : outcome hub_loop :=
  s <- acc ;;
  let hub_name := ("APWRHUB " ++ str (i + 1))%string in
  let link := nth i link_assignments EmptyString in
  let distance := distance_input w i in
  let anodes_here := Z.min ANODES_PER_HUB (remaining_anodes s) in
  anode_currents <- anode_currents w i anodes_here ;;
  let total_current := sum anode_currents in
  Done {| remaining_anodes := (remaining_anodes s - anodes_here)%Z;
          hub_data := hub_data s ++
            [{| hub_name := hub_name; link_id := link;
                distance := distance; current_mA := total_current |}];
          anodes_log := anodes_log s ++ [anodes_here] |}.

Definition hub_configuration (w : widgets) (link_assignments : list string)
  : outcome hub_loop :=
  fold_left (hub_pass w link_assignments) (range (Z.to_nat (num_hubs w)))
    (Done {| remaining_anodes := total_anodes w; hub_data := []; anodes_log := [] |}).

(** *** Link groups (lines 525-532)

    [link_groups] is a dict from link id to the hubs of the link, in
    insertion order. *)

Fixpoint append_hub (link : string) (h : hub) (link_groups : list (string * list hub))
  : list (string * list hub) :=
  match link_groups with
  | [] => [(link, [h])]
  | (k, hs) :: rest =>
      if String.eqb k link then (k, hs ++ [h]) :: rest
      else (k, hs) :: append_hub link h rest
  end.

Definition group_hubs (hub_data : list hub) : list (string * list hub) :=
  fold_left (fun link_groups h => append_hub (link_id h) h link_groups) hub_data [].

(** *** Calculation (lines 545-621) *)

(** What the pass over one link builds: the running [cumulative_drop_mV],
    the rows appended to [results] and [link_results[link_id]], and the
    unrounded series handed to the chart. *)
Record link_trace : Type := {
  cumulative_drop_mV : Q;
  rows : list result_row;
  segment_labels : list string;
  voltage_values : list Q;
  voltage_drop_mV_values : list Q;
  percent_values : list Q
}.

(** One segment: lines 562-587, and again lines 596-621.  The fields are
    rounded from the exact values; [Binary64.segment] rounds the values
    binary64 computes, which at a decimal tie can give another last
    digit. *)
Definition segment (w : widgets) (link_id from to : string) (L I_A R : Q)
  (t : link_trace) : link_trace :=
  let U_drop_mV := I_A * R * 1000 in
  let cumulative_drop_mV := cumulative_drop_mV t + U_drop_mV in
  let remaining_voltage := LINK_VOLTAGE - (cumulative_drop_mV / 1000) in
  let percent_drop := (cumulative_drop_mV / (reference_voltage w * 1000)) * 100 in
  let result_row :=
    {| APWRLINK := link_id;
       From := from;
       To := to;
       Distance_m := L;
       Resistance_ohm := round R 4;
       Current_A := round I_A 3;
       dVoltage_mV := round U_drop_mV 2;
       Cumulative_dVoltage_mV := round cumulative_drop_mV 2;
       Remaining_Voltage_V := round remaining_voltage 2;
       dVoltage_percent := round percent_drop 2 |} in
  {| cumulative_drop_mV := cumulative_drop_mV;
     rows := rows t ++ [result_row];
     segment_labels := segment_labels t ++ [to];
     voltage_values := voltage_values t ++ [remaining_voltage];
     voltage_drop_mV_values := voltage_drop_mV_values t ++ [cumulative_drop_mV];
     percent_values := percent_values t ++ [percent_drop] |}.

(** Body of [for i in range(len(hubs))] (lines 590-621); [hubs[i]] and
    [hubs[i-1]] are in range there, [d] is never read. *)
Definition hub_to_hub (w : widgets) (link_id : string) (hubs : list hub) (d : hub)
  (t : link_trace) (i : nat) : link_trace :=
  if (0 <? i)%nat then
    let L := distance (nth i hubs d) in
    let I_A := calculate_current hubs i in
    let R := calculate_resistance L (cable_area w) in
    segment w link_id (hub_name (nth (i - 1) hubs d)) (hub_name (nth i hubs d)) L I_A R t
  else t.

(** Body of [for link_id, hubs in link_groups.items()]; [hubs[0]] raises
    [IndexError] on an empty list. *)
Definition propagate_link (w : widgets) (link_id : string) (hubs : list hub)
  : outcome link_trace :=
  match hubs with
  | [] => Raised IndexError
  | hub0 :: _ =>
      let t0 :=
        {| cumulative_drop_mV := 0.0;
           rows := [];
           segment_labels := [(link_id ++ " Source")%string];
           voltage_values := [LINK_VOLTAGE];
           voltage_drop_mV_values := [0];
           percent_values := [0] |} in
      let L := link_input_length w link_id in
      let I_A := calculate_current hubs 0 in
      let R := calculate_resistance L (cable_area w) in
      let t1 := segment w link_id "APWRLINK" (hub_name hub0) L I_A R t0 in
      Done (fold_left (hub_to_hub w link_id hubs hub0) (range (List.length hubs)) t1)
  end.

(** [results], [link_results] and the chart series after the loop. *)
Record propagation : Type := {
  results : list result_row;
  link_results : list (string * list result_row);
  link_traces : list (string * link_trace)
}.

Definition link_pass (w : widgets) (acc : outcome propagation) (g : string * list hub)
  : outcome propagation :=
  p <- acc ;;
  t <- propagate_link w (fst g) (snd g) ;;
  Done {| results := results p ++ rows t;
          link_results := link_results p ++ [(fst g, rows t)];
          link_traces := link_traces p ++ [(fst g, t)] |}.

Definition propagate (w : widgets) (link_groups : list (string * list hub))
  : outcome propagation :=
  fold_left (link_pass w) link_groups
    (Done {| results := []; link_results := []; link_traces := [] |}).

(** *** Status of one link (lines 705-760) *)

Inductive color : Type := green | red.

Inductive message : Type :=
| System_OK (link_id : string)
| Voltage_below_minimum (link_id : string) (min_voltage : Q)
| Current_exceeds_maximum (link_id : string) (link_current max_link_current : Q).

Record link_status : Type := {
  link_current : Q;
  link_min_voltage : Q;
  link_max_drop_percent : Q;
  link_max_drop_mV : Q;
  status_color : color;
  status_message : message;
  problem_nodes : list string
}.

(** [next((r["Current [A]"] for r in link_data if r["From"] == "APWRLINK"), 0)] *)
Definition first_link_current (link_data : list result_row) : Q :=
  match find (fun r => String.eqb (From r) "APWRLINK") link_data with
  | Some r => Current_A r
  | None => 0
  end.

Definition analyse_link (w : widgets) (link_id : string) (link_data : list result_row)
  : outcome link_status :=
  let link_current := first_link_current link_data in
  link_min_voltage <- min (map Remaining_Voltage_V link_data) ;;
  link_max_drop_percent <- max (map dVoltage_percent link_data) ;;
  link_max_drop_mV <- max (map Cumulative_dVoltage_mV link_data) ;;
  let status := (green, System_OK link_id) in
  let status :=
    if ltb link_min_voltage (min_voltage w)
    then (red, Voltage_below_minimum link_id (min_voltage w)) else status in
  let status :=
    if ltb (max_link_current w) link_current
    then (red, Current_exceeds_maximum link_id link_current (max_link_current w))
    else status in
  let problem_nodes :=
    if ltb link_min_voltage (min_voltage w)
    then map To (filter (fun row => ltb (Remaining_Voltage_V row) (min_voltage w)) link_data)
    else [] in
  Done {| link_current := link_current;
          link_min_voltage := link_min_voltage;
          link_max_drop_percent := link_max_drop_percent;
          link_max_drop_mV := link_max_drop_mV;
          status_color := fst status;
          status_message := snd status;
          problem_nodes := problem_nodes |}.

(** *** Status of the whole system (lines 769-793) *)

Inductive overall_message : Type :=
| All_Systems_OK
| Voltage_issues_detected
| Current_limit_exceeded.

Record overall_status : Type := {
  total_current_A : Q;
  min_voltage_overall : Q;
  max_drop_percent : Q;
  max_drop_mV : Q;
  overall_status_color : color;
  overall_status_message : overall_message;
  link_currents : list (string * Q)
}.

(** State and body of [for link_id, link_data in link_results.items()]
    (lines 788-793). *)
Definition current_check (w : widgets)
  (s : color * overall_message * list (string * Q)) (l : string * list result_row)
  : color * overall_message * list (string * Q) :=
  let '(overall_status_color, overall_status_message, link_currents) := s in
  let link_current := first_link_current (snd l) in
  let link_currents := link_currents ++ [(fst l, link_current)] in
  if ltb (max_link_current w) link_current
  then (red, Current_limit_exceeded, link_currents)
  else (overall_status_color, overall_status_message, link_currents).

Definition analyse_system (w : widgets) (hub_data : list hub) (p : propagation)
  : outcome overall_status :=
  let total_current_A := inject_Z (sum (map current_mA hub_data)) / 1000 in
  min_voltage_overall <- min (map Remaining_Voltage_V (results p)) ;;
  max_drop_percent <- max (map dVoltage_percent (results p)) ;;
  max_drop_mV <- max (map Cumulative_dVoltage_mV (results p)) ;;
  let status := (green, All_Systems_OK) in
  let status :=
    if ltb min_voltage_overall (min_voltage w)
    then (red, Voltage_issues_detected) else status in
  let '(overall_status_color, overall_status_message, link_currents) :=
    fold_left (current_check w) (link_results p) (fst status, snd status, []) in
  Done {| total_current_A := total_current_A;
          min_voltage_overall := min_voltage_overall;
          max_drop_percent := max_drop_percent;
          max_drop_mV := max_drop_mV;
          overall_status_color := overall_status_color;
          overall_status_message := overall_status_message;
          link_currents := link_currents |}.

(** *** The script, top to bottom *)

Record report : Type := {
  report_hub_data : list hub;
  report_link_groups : list (string * list hub);
  report_propagation : propagation;
  report_links : list (string * link_status);
  report_system : overall_status
}.

(** Body of [for link_id, link_data in link_results.items()] (line 690). *)
Definition analysed (w : widgets) (l : string * list result_row)
  : outcome (string * link_status) :=
  s <- analyse_link w (fst l) (snd l) ;; Done (fst l, s).

Definition run (w : widgets) : outcome report :=
  if negb (existsb (String.eqb "APWRHUB 1") (selected_link_starts w))
  then Stopped "APWRHUB 1 must be included."
  else
    indices <- mapM (index (hub_names w)) (selected_link_starts w) ;;
    let start_indices := sorted indices in
    let link_assignments := link_assignments w start_indices in
    hubs <- hub_configuration w link_assignments ;;
    let hub_data := hub_data hubs in
    let link_groups := group_hubs hub_data in
    p <- propagate w link_groups ;;
    links <- mapM (analysed w) (link_results p) ;;
    system <- analyse_system w hub_data p ;;
    Done {| report_hub_data := hub_data;
            report_link_groups := link_groups;
            report_propagation := p;
            report_links := links;
            report_system := system |}.

(** The widgets as the page first shows them. *)
Definition default_widgets : widgets :=
  {| total_anodes := DEFAULT_ANODES;
     current_per_anode := DEFAULT_CURRENT_PER_ANODE;
     cable_area := DEFAULT_CABLE_AREA;
     reference_voltage := LINK_VOLTAGE;
     min_voltage := DEFAULT_MIN_VOLTAGE;
     max_link_current := DEFAULT_MAX_LINK_CURRENT;
     selected_link_starts := ["APWRHUB 1"%string];
     distance_input := fun _ => DEFAULT_DISTANCE;
     manual_config := fun _ => false;
     curr := fun _ _ => DEFAULT_CURRENT_PER_ANODE;
     link_input_length := fun _ => DEFAULT_DISTANCE |}.

End Main2.

(** ** The chart of a link ([src/main2.py], lines 622-686) *)

Module Chart.
Import Py Main2.
Open Scope Q_scope.

(** The yellow line of the percentage axis (line 669), as an exact
    quotient ([Binary64.max_drop_percent] is the float); the red line
    of the voltage axis is [min_voltage] itself (line 633). *)
Definition max_drop_percent (w : widgets) : Q :=
  ((LINK_VOLTAGE - min_voltage w) / reference_voltage w) * 100.

(** Upper limit of the percentage axis (lines 662-663):
    [max(percent_values) * 1.1 if percent_values else 10]. *)
Definition max_percent (percent_values : list Q) : outcome Q :=
  match percent_values with
  | [] => Done 10
  | _ :: _ => m <- max percent_values ;; Done (m * 1.1)
  end.

End Chart.

(** ** The PDF report ([create_pdf_download_link], lines 81-236, and its
    calls, lines 828-860) *)

Module Pdf.
Import Py Main2.
Open Scope Q_scope.

(** [next((r["Current [A]"] for r in results
           if r["APWRLINK"] == link_id and r["From"] == "APWRLINK"), 0)] *)
Definition link_current (results : list result_row) (link_id : string) : Q :=
  match find (fun r => String.eqb (APWRLINK r) link_id && String.eqb (From r) "APWRLINK")
          results with
  | Some r => Current_A r
  | None => 0
  end.

(** Body of [for result in results] (lines 96-102); [link_currents] is a
    dict in insertion order. *)
Definition link_currents_body (results : list result_row)
  (link_currents : list (string * Q)) (result : result_row) : list (string * Q) :=
  let link_id := APWRLINK result in
  if existsb (String.eqb link_id) (map fst link_currents)
  then link_currents
  else link_currents ++ [(link_id, link_current results link_id)].

Definition link_currents (results : list result_row) : list (string * Q) :=
  fold_left (link_currents_body results) results [].

(** [[link_id for link_id, current in link_currents.items()
      if current > system_params['max_link_current']]] (line 147) *)
Definition overloaded_links (w : widgets) (results : list result_row) : list string :=
  map fst (filter (fun lc => ltb (max_link_current w) (snd lc)) (link_currents results)).

(** The table pages (lines 177-186): [df.iloc[start_idx:end_idx]] for
    each [page in range(total_pages)]. *)
Definition max_rows_per_page : Z := 20.

Definition table_pages (df : list result_row) : list (list result_row) :=
  match df with
  | [] => []
  | _ =>
      let total_pages := ceil_div (Z.of_nat (List.length df)) max_rows_per_page in
      map (fun page =>
             let start_idx := (page * Z.to_nat max_rows_per_page)%nat in
             let end_idx :=
               Nat.min ((page + 1) * Z.to_nat max_rows_per_page) (List.length df) in
             skipn start_idx (firstn end_idx df))
        (range (Z.to_nat total_pages))
  end.

(** The hubs handed to the report of one link (line 847). *)
Definition link_hubs (hub_data : list hub) (link : string) : list hub :=
  filter (fun h => String.eqb (link_id h) link) hub_data.

(** The nodes of the voltage warning (lines 126, 143-145), [[]] if the
    warning is not written. *)
Definition problem_nodes (w : widgets) (results : list result_row) : outcome (list string) :=
  min_voltage <- min (map Remaining_Voltage_V results) ;;
  Done (if ltb min_voltage (Main2.min_voltage w)
        then map To (filter (fun row => ltb (Remaining_Voltage_V row) (Main2.min_voltage w))
                       results)
        else []).

End Pdf.

(** ** [src/main.py] *)

Module Main.
Import Py.

Open Scope Q_scope.

(** Constants (lines 24-26, 73). *)
Definition leitfaehigkeit_kupfer : Q := 56.
Definition anschluesse_pro_hub : Z := 4 * 2.
Definition max_erlaubter_spannungsabfall : Q := 2.0.

(** The widgets: [value h ch a] is the one keyed [h_ch_a], [distanz h]
    the one keyed [dist_h] ([h] counts hubs from 1). *)
Record widgets : Type := {
  anoden_total : Z;
  leitung_querschnitt : Q;
  value : nat -> nat -> nat -> Z;
  distanz : nat -> Q
}.

Definition anzahl_hubs (w : widgets) : Z := ceil_div (anoden_total w) anschluesse_pro_hub.

(** *** Distribution of the anodes (lines 31-62) *)

Record verteilung : Type := {
  anoden_counter : Z;
  hub_stroeme : list Z;
  hub_distanzen : list Q
}.

(** [for anschluss in range(1, 3)], state [(anoden_counter, hub_strom)]. *)
Definition anschluss_body (w : widgets) (hub_index ch : nat) (s : Z * Z) (anschluss : nat)
  : Z * Z :=
  let '(anoden_counter, hub_strom) := s in
  if (anoden_counter <=? anoden_total w)%Z
  then ((anoden_counter + 1)%Z, (hub_strom + value w hub_index ch anschluss)%Z)
  else s.

(** [for ch in range(1, 5)] *)
Definition channel_body (w : widgets) (hub_index : nat) (s : Z * Z) (ch : nat) : Z * Z :=
  fold_left (anschluss_body w hub_index ch) (seq 1 2) s.

(** [for hub_index in range(1, anzahl_hubs + 1)] *)
Definition hub_body (w : widgets) (s : verteilung) (hub_index : nat) : verteilung :=
  let '(anoden_counter, hub_strom) :=
    fold_left (channel_body w hub_index) (seq 1 4) (anoden_counter s, 0%Z) in
  {| anoden_counter := anoden_counter;
     hub_stroeme := hub_stroeme s ++ [hub_strom];
     hub_distanzen := hub_distanzen s ++ [distanz w hub_index] |}.

Definition verteile (w : widgets) : verteilung :=
  fold_left (hub_body w) (seq 1 (Z.to_nat (anzahl_hubs w)))
    {| anoden_counter := 1; hub_stroeme := []; hub_distanzen := [] |}.

(** *** Calculations (lines 65-97) *)

(** State of the loop; [strom_A_log] records the local [strom_A] of each
    pass, the current the pass multiplies the resistance with. *)
Record berechnung : Type := {
  cumulative_current : Z;
  cumulative_voltage : Q;
  spannungsabfall_liste : list Q;
  spannung_kumuliert_liste : list Q;
  spannungsabfall_mV : list Q;
  spannungsabfall_prozent : list Q;
  leitungswiderstaende : list Q;
  strom_A_log : list Q
}.

(** Body of [for i in range(anzahl_hubs)]; [i] is in range of both lists. *)
Definition berechne_body (w : widgets) (hub_stroeme : list Z) (hub_distanzen : list Q)
  (s : berechnung) (i : nat) : berechnung :=
  let strom_A := inject_Z (cumulative_current s + nth i hub_stroeme 0%Z) / 1000 in
  let laenge := nth i hub_distanzen 0 in
  let querschnitt := leitung_querschnitt w in
  let '(leitungswiderstand, spannungsabfall) :=
    if Nat.eqb i 0 then (0.0, 0.0)
    else
      let leitungswiderstand := (2 * laenge) / (leitfaehigkeit_kupfer * querschnitt) in
      (leitungswiderstand, leitungswiderstand * strom_A) in
  let cumulative_current := (cumulative_current s + nth i hub_stroeme 0%Z)%Z in
  let cumulative_voltage := cumulative_voltage s + spannungsabfall in
  {| cumulative_current := cumulative_current;
     cumulative_voltage := cumulative_voltage;
     spannungsabfall_liste := spannungsabfall_liste s ++ [spannungsabfall];
     spannung_kumuliert_liste := spannung_kumuliert_liste s ++ [cumulative_voltage];
     spannungsabfall_mV := spannungsabfall_mV s ++ [cumulative_voltage * 1000];
     spannungsabfall_prozent := spannungsabfall_prozent s ++
       [(cumulative_voltage / max_erlaubter_spannungsabfall) * 100];
     leitungswiderstaende := leitungswiderstaende s ++ [leitungswiderstand];
     strom_A_log := strom_A_log s ++ [strom_A] |}.

Definition berechne (w : widgets) (hub_stroeme : list Z) (hub_distanzen : list Q)
  : berechnung :=
  fold_left (berechne_body w hub_stroeme hub_distanzen)
    (range (Z.to_nat (anzahl_hubs w)))
    {| cumulative_current := 0;
       cumulative_voltage := 0.0;
       spannungsabfall_liste := [];
       spannung_kumuliert_liste := [];
       spannungsabfall_mV := [];
       spannungsabfall_prozent := [];
       leitungswiderstaende := [];
       strom_A_log := [] |}.

(** The script: the distribution, the calculation, and whether the
    warning of line 96 is shown. *)
Record report : Type := {
  report_verteilung : verteilung;
  report_berechnung : berechnung;
  warnung : bool
}.

Definition run (w : widgets) : report :=
  let v := verteile w in
  let b := berechne w (hub_stroeme v) (hub_distanzen v) in
  {| report_verteilung := v;
     report_berechnung := b;
     warnung := ltb max_erlaubter_spannungsabfall (cumulative_voltage b) |}.

End Main.

(** ** The arithmetic of [src/main2.py] in binary64

    Python's [float] is IEEE 754 binary64 with round-to-nearest-even,
    which is what the kernel's primitive floats compute.  The functions
    below are the ones of [Main2] that do arithmetic, over [float]. *)

Module Binary64.

Open Scope float_scope.

(** An [int] as a [float]: the nearest one, exact for [|z| < 2^53]
    ([Uint63.of_Z] is exact below 2^63; from 2^1024 on Python raises
    [OverflowError] where this gives an infinity).  [a / b] on two ints
    below 2^53 is then the correctly rounded quotient, as in Python. *)
Definition of_int (z : Z) : float :=
  if (Z.abs z <? 9223372036854775808)%Z then
    match z with
    | Z0 => 0
    | Zpos _ => PrimFloat.of_uint63 (Uint63.of_Z z)
    | Zneg p => - PrimFloat.of_uint63 (Uint63.of_Z (Zpos p))
    end
  else SF2Prim (binary_normalize prec emax z 0 false).

(** The rational a finite float stands for. *)
Definition exact (x : float) : option Q :=
  match Prim2SF x with
  | S754_zero _ => Some 0%Q
  | S754_finite s m e =>
      Some ((if s then -1 else 1) * inject_Z (Zpos m) * Qpower 2 e)%Q
  | _ => None
  end.

(** [round(x, ndigits)]: the exact value of [x] is rounded half-even to
    [ndigits] decimals and the float nearest to that decimal is returned
    (exact while [|x| * 10^ndigits < 2^53]); infinities and nans are
    returned unchanged. *)
Definition round (x : float) (ndigits : nat) : float :=
  match exact x with
  | Some q =>
      of_int (Py.round_half_even (q * inject_Z (10 ^ Z.of_nat ndigits))%Q)
      / of_int (10 ^ Z.of_nat ndigits)
  | None => x
  end.

Definition COPPER_RESISTIVITY : float := 0.0175.
Definition LINK_VOLTAGE : float := 48.0.

Definition calculate_resistance (length_m area_mm2 : float) : float :=
  (COPPER_RESISTIVITY * length_m) / area_mm2.

Definition calculate_current (hub_list : list Main2.hub) (start_index : nat) : float :=
  of_int (Py.sum (map Main2.current_mA (skipn start_index hub_list))) / of_int 1000.

(** The locals of lines 558-566 and the numeric fields of the row of
    lines 568-579, for the segment from the source to the first hub. *)
Record source_segment : Type := {
  R : float;
  I_A : float;
  U_drop_mV : float;
  cumulative_drop_mV : float;
  remaining_voltage : float;
  percent_drop : float;
  Resistance_ohm : float;
  Current_A : float;
  dVoltage_mV : float;
  Cumulative_dVoltage_mV : float;
  Remaining_Voltage_V : float;
  dVoltage_percent : float
}.

Definition first_segment (L cable_area reference_voltage : float) (hubs : list Main2.hub)
  : source_segment :=
  let cumulative_drop_mV := 0.0 in
  let I_A := calculate_current hubs 0 in
  let R := calculate_resistance L cable_area in
  let U_drop_mV := I_A * R * 1000 in
  let cumulative_drop_mV := cumulative_drop_mV + U_drop_mV in
  let remaining_voltage := LINK_VOLTAGE - (cumulative_drop_mV / 1000) in
  let percent_drop := (cumulative_drop_mV / (reference_voltage * 1000)) * 100 in
  {| R := R;
     I_A := I_A;
     U_drop_mV := U_drop_mV;
     cumulative_drop_mV := cumulative_drop_mV;
     remaining_voltage := remaining_voltage;
     percent_drop := percent_drop;
     Resistance_ohm := round R 4;
     Current_A := round I_A 3;
     dVoltage_mV := round U_drop_mV 2;
     Cumulative_dVoltage_mV := round cumulative_drop_mV 2;
     Remaining_Voltage_V := round remaining_voltage 2;
     dVoltage_percent := round percent_drop 2 |}.

(** The same locals and fields for the segment into [hubs[i]], [i >= 1]
    (lines 592-613): [L] is [hubs[i]["distance"]] and
    [cumulative_drop_mV] the running total the pass enters with. *)
Definition segment (L cable_area reference_voltage : float) (hubs : list Main2.hub)
  (i : nat) (cumulative_drop_mV : float) : source_segment :=
  let I_A := calculate_current hubs i in
  let R := calculate_resistance L cable_area in
  let U_drop_mV := I_A * R * 1000 in
  let cumulative_drop_mV := cumulative_drop_mV + U_drop_mV in
  let remaining_voltage := LINK_VOLTAGE - (cumulative_drop_mV / 1000) in
  let percent_drop := (cumulative_drop_mV / (reference_voltage * 1000)) * 100 in
  {| R := R;
     I_A := I_A;
     U_drop_mV := U_drop_mV;
     cumulative_drop_mV := cumulative_drop_mV;
     remaining_voltage := remaining_voltage;
     percent_drop := percent_drop;
     Resistance_ohm := round R 4;
     Current_A := round I_A 3;
     dVoltage_mV := round U_drop_mV 2;
     Cumulative_dVoltage_mV := round cumulative_drop_mV 2;
     Remaining_Voltage_V := round remaining_voltage 2;
     dVoltage_percent := round percent_drop 2 |}.

(** Body of [for i in range(len(hubs))] (lines 590-621) on the running
    total and the rows built so far; [distance i] is the distance
    entered for [hubs[i]]. *)
Definition hub_to_hub (cable_area reference_voltage : float) (hubs : list Main2.hub)
  (distance : nat -> float) (acc : float * list source_segment) (i : nat)
  : float * list source_segment :=
  if (0 <? i)%nat then
    let s := segment (distance i) cable_area reference_voltage hubs i (fst acc) in
    (cumulative_drop_mV s, snd acc ++ [s])
  else acc.

(** The rows of one link (lines 549-621), [L] being the length entered
    for the link. *)
Definition propagate_link (L cable_area reference_voltage : float)
  (hubs : list Main2.hub) (distance : nat -> float) : list source_segment :=
  let s0 := first_segment L cable_area reference_voltage hubs in
  snd (fold_left (hub_to_hub cable_area reference_voltage hubs distance)
         (Py.range (List.length hubs)) (cumulative_drop_mV s0, [s0])).

(** [min(xs)] on floats, from its first element [x]. *)
Definition min (x : float) (xs : list float) : float :=
  fold_left (fun m y => if y <? m then y else m) xs x.


(** The yellow line of the chart (line 669). *)
Definition max_drop_percent (min_voltage reference_voltage : float) : float :=
  ((LINK_VOLTAGE - min_voltage) / reference_voltage) * 100.


End Binary64.

(** ** Vocabulary of the statements *)

Section Vocabulary.
Import Py Main2.
Open Scope Q_scope.

(** [m] is a smallest element of [xs]. *)
Definition is_min (m : Q) (xs : list Q) : Prop :=
  In m xs /\ forall x, In x xs -> m <= x.

(** What [st.multiselect] returns is a selection of its options. *)
Definition offered (w : widgets) : Prop :=
  forall h, In h (selected_link_starts w) -> In h (hub_names w).

(** Every manually configured hub gets its anode widgets created: their
    default, [current_per_anode], lies within their bounds. *)
Definition accepted (w : widgets) : Prop :=
  forall i, (i < Z.to_nat (num_hubs w))%nat -> manual_config w i = true ->
            (0 <= current_per_anode w <= 625)%Z.

(** Numbers are compared up to a margin: [Main2] computes in exact
    rationals, the script in binary64, where every operation may be off
    by a relative 2^-53 (about 1.1e-16).  [margin y], a relative and
    absolute 1e-8, is far above what these errors add up to along a
    link and far below the last digit a row shows. *)
Definition margin (y : Q) : Q := (1 # 100000000) * (1 + Qabs y).

(** [x] is within [tol] of [y], up to the margin. *)
Definition near (tol x y : Q) : Prop := Qabs (x - y) <= tol + margin y.

(** [kt] is what the pass over the group [g] leaves in [link_traces]. *)
Definition pass_of (w : widgets) (g : string * list hub) (kt : string * link_trace) : Prop :=
  fst kt = fst g /\ propagate_link w (fst g) (snd g) = Done (snd kt).

Definition rows_of (kt : string * link_trace) : string * list result_row :=
  (fst kt, rows (snd kt)).

(** The breach the status of a link reports. *)
Definition breach (w : widgets) (m link_current : Q) : Prop :=
  m < min_voltage w \/ max_link_current w < link_current.

(** The [k]-th link of a report: its hubs, what the pass over it built
    and the status derived from its rows. *)
Record link_view (r : report) (k : nat) (link : string) (hubs : list hub)
  (t : link_trace) (s : link_status) : Prop := {
  view_group : nth_error (report_link_groups r) k = Some (link, hubs);
  view_trace : nth_error (link_traces (report_propagation r)) k = Some (link, t);
  view_rows : nth_error (link_results (report_propagation r)) k = Some (link, rows t);
  view_status : nth_error (report_links r) k = Some (link, s)
}.

(** The series of a link pass, read off the cumulative drops [cs] (in
    mV) of its segments, and the row fields rounded from them. *)
Record series (w : widgets) (t : link_trace) (cs : list Q) : Prop := {
  series_drop : voltage_drop_mV_values t = 0 :: cs;
  series_voltage :
    voltage_values t = LINK_VOLTAGE :: map (fun c => LINK_VOLTAGE - c / 1000) cs;
  series_percent :
    percent_values t = 0 :: map (fun c => c / (reference_voltage w * 1000) * 100) cs;
  series_rows_drop : map Cumulative_dVoltage_mV (rows t) = map (fun c => round c 2) cs;
  series_rows_voltage :
    map Remaining_Voltage_V (rows t)
    = map (fun c => round (LINK_VOLTAGE - c / 1000) 2) cs;
  series_rows_percent :
    map dVoltage_percent (rows t)
    = map (fun c => round (c / (reference_voltage w * 1000) * 100) 2) cs;
  series_last : cumulative_drop_mV t = last cs 0.0
}.

(** The fields of a row that do not depend on the running drop, and what
    pass [i > 0] of the loop over the hubs puts there. *)
Definition static (row : result_row) : string * string * Q * Q * Q :=
  (From row, To row, Distance_m row, Resistance_ohm row, Current_A row).

Definition hub_segment (w : widgets) (hubs : list hub) (d : hub) (i : nat)
  : string * string * Q * Q * Q :=
  (hub_name (nth (i - 1) hubs d), hub_name (nth i hubs d), distance (nth i hubs d),
   round (calculate_resistance (distance (nth i hubs d)) (cable_area w)) 4,
   round (calculate_current hubs i) 3).

(** One link with one fully populated hub (8 anodes of 625 mA), 10 m
    from the source, on a 4 mm^2 cable. *)
Definition single_hub_widgets : widgets :=
  {| total_anodes := 8;
     current_per_anode := 625;
     cable_area := 4;
     reference_voltage := 48;
     min_voltage := DEFAULT_MIN_VOLTAGE;
     max_link_current := DEFAULT_MAX_LINK_CURRENT;
     selected_link_starts := ["APWRHUB 1"%string];
     distance_input := fun _ => DEFAULT_DISTANCE;
     manual_config := fun _ => false;
     curr := fun _ _ => DEFAULT_CURRENT_PER_ANODE;
     link_input_length := fun _ => 10 |}.

Definition one_full_hub : list hub :=
  [ {| hub_name := "APWRHUB 1"; link_id := "APWRLINK 1";
       distance := DEFAULT_DISTANCE; current_mA := 8 * 625 |} ].


(** One link with one hub of [anodes] anodes of [current] mA each, [L]
    metres from the source on a cable of [A] mm^2, with [Vref] as the
    reference and [Vmin] as the minimum working voltage. *)
Definition one_hub_at (anodes current : Z) (L A Vref Vmin : Q) : widgets :=
  {| total_anodes := anodes;
     current_per_anode := current;
     cable_area := A;
     reference_voltage := Vref;
     min_voltage := Vmin;
     max_link_current := DEFAULT_MAX_LINK_CURRENT;
     selected_link_starts := ["APWRHUB 1"%string];
     distance_input := fun _ => DEFAULT_DISTANCE;
     manual_config := fun _ => false;
     curr := fun _ _ => DEFAULT_CURRENT_PER_ANODE;
     link_input_length := fun _ => L |}.

(** The default page with [anodes] anode connections and [Vmin] as the
    minimum working voltage. *)
Definition default_page (anodes : Z) (Vmin : Q) : widgets :=
  {| total_anodes := anodes;
     current_per_anode := DEFAULT_CURRENT_PER_ANODE;
     cable_area := DEFAULT_CABLE_AREA;
     reference_voltage := LINK_VOLTAGE;
     min_voltage := Vmin;
     max_link_current := DEFAULT_MAX_LINK_CURRENT;
     selected_link_starts := ["APWRHUB 1"%string];
     distance_input := fun _ => DEFAULT_DISTANCE;
     manual_config := fun _ => false;
     curr := fun _ _ => DEFAULT_CURRENT_PER_ANODE;
     link_input_length := fun _ => DEFAULT_DISTANCE |}.

(** The default page with [current] as the standard current per anode
    and every hub configured manually. *)
Definition manual_page (current : Z) : widgets :=
  {| total_anodes := DEFAULT_ANODES;
     current_per_anode := current;
     cable_area := DEFAULT_CABLE_AREA;
     reference_voltage := LINK_VOLTAGE;
     min_voltage := DEFAULT_MIN_VOLTAGE;
     max_link_current := DEFAULT_MAX_LINK_CURRENT;
     selected_link_starts := ["APWRHUB 1"%string];
     distance_input := fun _ => DEFAULT_DISTANCE;
     manual_config := fun _ => true;
     curr := fun _ _ => 600%Z;
     link_input_length := fun _ => DEFAULT_DISTANCE |}.

(** A hub drawing [current] mA. *)
Definition hub_drawing (name : string) (current : Z) : hub :=
  {| hub_name := name; link_id := "APWRLINK 1";
     distance := DEFAULT_DISTANCE; current_mA := current |}.

(** The default page with the second hub as the only link start. *)
Definition second_hub_only_widgets : widgets :=
  {| total_anodes := DEFAULT_ANODES;
     current_per_anode := DEFAULT_CURRENT_PER_ANODE;
     cable_area := DEFAULT_CABLE_AREA;
     reference_voltage := LINK_VOLTAGE;
     min_voltage := DEFAULT_MIN_VOLTAGE;
     max_link_current := DEFAULT_MAX_LINK_CURRENT;
     selected_link_starts := ["APWRHUB 2"%string];
     distance_input := fun _ => DEFAULT_DISTANCE;
     manual_config := fun _ => false;
     curr := fun _ _ => DEFAULT_CURRENT_PER_ANODE;
     link_input_length := fun _ => DEFAULT_DISTANCE |}.

(** [src/main.py] with every connection at 625 mA, 10 m between
    neighbours and a 4 mm^2 cable. *)
Definition full_load (anodes : Z) : Main.widgets :=
  {| Main.anoden_total := anodes;
     Main.leitung_querschnitt := 4;
     Main.value := fun _ _ _ => 625%Z;
     Main.distanz := fun _ => 10 |}.

End Vocabulary.

(** ** Vocabulary of the further properties *)

Section TopologyVocabulary.

(** Number of declared link starts among the hubs at indices [1..i]. *)
Definition starts_upto (start_indices : list nat) (i : nat) : nat :=
  List.length (filter (fun j => existsb (Nat.eqb j) start_indices) (seq 1 i)).

(** Number of hubs at indices [1..i] whose name is among the selection. *)
Definition selected_upto (selection : list string) (i : nat) : nat :=
  List.length
    (filter (fun j => existsb (String.eqb ("APWRHUB " ++ Py.str (j + 1))) selection)
       (seq 1 i)).

(** What pass [i] of the hub loop appends when it places [a] anodes. *)
Definition hub_of (w : Main2.widgets) (la : list string) (i : nat) (a : Z) : Main2.hub :=
  {| Main2.hub_name := ("APWRHUB " ++ Py.str (i + 1))%string;
     Main2.link_id := nth i la EmptyString;
     Main2.distance := Main2.distance_input w i;
     Main2.current_mA :=
       Py.sum (if Main2.manual_config w i
               then map (Main2.curr w i) (Py.range (Z.to_nat a))
               else repeat (Main2.current_per_anode w) (Z.to_nat a)) |}.

(** Every group is non-empty and holds hubs of its own link only. *)
Definition well_keyed (groups : list (string * list Main2.hub)) : Prop :=
  forall k hs, In (k, hs) groups -> hs <> [] /\ forall h, In h hs -> Main2.link_id h = k.

End TopologyVocabulary.

Section SeriesVocabulary.
Import Py Main2.
Open Scope Q_scope.

(** The bounds the widgets enforce ([min_value], [max_value] of
    [st.number_input], lines 426-431, 485-506, 534-540). *)
Record in_bounds (w : widgets) : Prop := {
  bound_total_anodes : (1 <= total_anodes w)%Z;
  bound_current_per_anode : (1 <= current_per_anode w)%Z;
  bound_cable_area : 0.1 <= cable_area w;
  bound_reference_voltage : 1.0 <= reference_voltage w;
  bound_min_voltage : 1.0 <= min_voltage w;
  bound_max_link_current : 1.0 <= max_link_current w;
  bound_distance : forall i, 0.0 <= distance_input w i;
  bound_curr : forall i a, (0 <= curr w i a <= 625)%Z;
  bound_link_input_length : forall k, 0.0 <= link_input_length w k
}.

(** Sizes no installation exceeds: at most a million of anything.
    Within them binary64 does not overflow, and the rounding errors
    along a link stay below [margin]. *)
Record practical (w : widgets) : Prop := {
  size_total_anodes : (total_anodes w <= 1000000)%Z;
  size_current_per_anode : (current_per_anode w <= 1000000)%Z;
  size_cable_area : cable_area w <= 1000000;
  size_reference_voltage : reference_voltage w <= 1000000;
  size_min_voltage : min_voltage w <= 1000000;
  size_max_link_current : max_link_current w <= 1000000;
  size_distance : forall i, distance_input w i <= 1000000;
  size_link_input_length : forall k, link_input_length w k <= 1000000
}.

(** Length of segment [i] of a link, and its unrounded drop
    [U_drop_mV = I_A * R * 1000]. *)
Definition segment_length (w : widgets) (link_id : string) (hubs : list hub) (d : hub)
  (i : nat) : Q :=
  match i with
  | O => link_input_length w link_id
  | S _ => distance (nth i hubs d)
  end.

Definition segment_drop_mV (w : widgets) (link_id : string) (hubs : list hub) (d : hub)
  (i : nat) : Q :=
  calculate_current hubs i
  * calculate_resistance (segment_length w link_id hubs d i) (cable_area w) * 1000.

(** The values a running total takes while [ds] is added to [acc], one
    term after the other. *)
Fixpoint running (acc : Q) (ds : list Q) : list Q :=
  match ds with
  | [] => []
  | d :: ds' => (acc + d) :: running (acc + d) ds'
  end.

Definition non_decreasing (xs : list Q) : Prop :=
  forall i j x y,
    (i <= j)%nat -> nth_error xs i = Some x -> nth_error xs j = Some y -> x <= y.

Definition non_increasing (xs : list Q) : Prop :=
  forall i j x y,
    (i <= j)%nat -> nth_error xs i = Some x -> nth_error xs j = Some y -> y <= x.

End SeriesVocabulary.

Section ExtremeVocabulary.
Import Py Main2.
Open Scope Q_scope.

(** [m] is a largest element of [xs]. *)
Definition is_max (m : Q) (xs : list Q) : Prop :=
  In m xs /\ forall x, In x xs -> x <= m.

End ExtremeVocabulary.

Section ScenarioVocabulary.
Import Py Main2.
Open Scope Q_scope.

(** The default page with the second hub mounted next to the first
    (distance 0 m). *)
Definition adjacent_hubs_widgets : widgets :=
  {| total_anodes := DEFAULT_ANODES;
     current_per_anode := DEFAULT_CURRENT_PER_ANODE;
     cable_area := DEFAULT_CABLE_AREA;
     reference_voltage := LINK_VOLTAGE;
     min_voltage := DEFAULT_MIN_VOLTAGE;
     max_link_current := DEFAULT_MAX_LINK_CURRENT;
     selected_link_starts := ["APWRHUB 1"%string];
     distance_input := fun i => if Nat.eqb i 1 then 0.0 else DEFAULT_DISTANCE;
     manual_config := fun _ => false;
     curr := fun _ _ => DEFAULT_CURRENT_PER_ANODE;
     link_input_length := fun _ => DEFAULT_DISTANCE |}.

End ScenarioVocabulary.

Section SystemVocabulary.
Import Py Main2.
Open Scope Q_scope.

(** The sum of a list of rationals. *)
Definition total (xs : list Q) : Q := fold_right Qplus 0 xs.

(** Some link of the report draws more than [max_link_current]. *)
Definition over_current (w : widgets) (r : report) : Prop :=
  exists link s, In (link, s) (report_links r) /\ max_link_current w < link_current s.

(** What [link_currents] holds for a link with rows [link_data]. *)
Definition current_entry (l : string * list result_row) : string * Q :=
  (fst l, first_link_current (snd l)).

End SystemVocabulary.

Section ReportVocabulary.
Import Py Main2.
Open Scope Q_scope.

(** A link's rows in [link_results]: a first row from the source, and
    every row labelled with the link. *)
Definition labelled (l : string * list result_row) : Prop :=
  (exists seg0 rest, snd l = seg0 :: rest /\ From seg0 = "APWRLINK"%string) /\
  Forall (fun row => APWRLINK row = fst l) (snd l).

End ReportVocabulary.

Section MainVocabulary.
Import Py.
Open Scope Q_scope.

(** The connections of a hub in the order the loops of lines 42-45 visit
    them: (channel, connection). *)
Definition anschluesse : list (nat * nat) :=
  flat_map (fun ch => map (fun anschluss => (ch, anschluss)) (seq 1 2)) (seq 1 4).

(** The bounds the widgets of [src/main.py] enforce (lines 20-21, 48,
    58-60). *)
Record main_in_bounds (w : Main.widgets) : Prop := {
  main_bound_total : (1 <= Main.anoden_total w)%Z;
  main_bound_querschnitt : 0.1 <= Main.leitung_querschnitt w;
  main_bound_value : forall h ch a, (0 <= Main.value w h ch a <= 625)%Z;
  main_bound_distanz : forall h, 0.0 <= Main.distanz w h
}.

End MainVocabulary.

Section MainAnodes.
Import Py.

(** The anodes hub [h] (counted from 1) of [src/main.py] receives. *)
Definition anoden_an_hub (w : Main.widgets) (h : nat) : nat :=
  if (h <? Z.to_nat (Main.anzahl_hubs w))%nat then 8%nat
  else Z.to_nat (Main.anoden_total w - 8 * (Main.anzahl_hubs w - 1)).

(** The current of hub [h]: the sum over its occupied connections. *)
Definition hub_strom (w : Main.widgets) (h : nat) : Z :=
  sum (map (fun p => Main.value w h (fst p) (snd p))
         (firstn (anoden_an_hub w h) anschluesse)).

End MainAnodes.

Section MainPasses.
Import Py.
Open Scope Q_scope.

(** Resistance and drop of pass [i] of the calculation loop of
    [src/main.py] (lines 76-85). *)
Definition leitungswiderstand (w : Main.widgets) (ds : list Q) (i : nat) : Q :=
  if Nat.eqb i 0 then 0.0
  else (2 * nth i ds 0) / (Main.leitfaehigkeit_kupfer * Main.leitung_querschnitt w).

Definition spannungsabfall (w : Main.widgets) (hs : list Z) (ds : list Q) (i : nat) : Q :=
  if Nat.eqb i 0 then 0.0
  else leitungswiderstand w ds i * (inject_Z (sum (firstn (S i) hs)) / 1000).

End MainPasses.

(** ** Facts about the prelude *)

Section Prelude.
Import Py.
Open Scope Q_scope.

Lemma ltb_lt (x y : Q) : ltb x y = true <-> x < y.
Proof.
  unfold ltb. rewrite negb_true_iff. split; intro H.
  - apply Qnot_le_lt. intro Hle. apply Qle_bool_iff in Hle. congruence.
  - destruct (Qle_bool y x) eqn:E; [ | reflexivity ].
    apply Qle_bool_iff in E. exfalso. exact (Qlt_not_le _ _ H E).
Qed.

Lemma ltb_ge (x y : Q) : ltb x y = false <-> y <= x.
Proof.
  unfold ltb. rewrite negb_false_iff. apply Qle_bool_iff.
Qed.

Lemma fold_add_acc (xs : list Z) (a : Z) :
  fold_left Z.add xs a = (a + fold_left Z.add xs 0)%Z.
Proof.
  revert a. induction xs as [ | x xs IH ]; intro a; simpl.
  - lia.
  - rewrite (IH (a + x)%Z), (IH x). lia.
Qed.

Lemma sum_cons (x : Z) (xs : list Z) : sum (x :: xs) = (x + sum xs)%Z.
Proof. unfold sum. simpl. apply fold_add_acc. Qed.

Lemma sum_app (xs ys : list Z) : sum (xs ++ ys) = (sum xs + sum ys)%Z.
Proof.
  induction xs as [ | x xs IH ]; [ reflexivity | ].
  simpl app. rewrite !sum_cons, IH. lia.
Qed.

Lemma sum_nonneg (xs : list Z) : Forall (fun x => 0 <= x)%Z xs -> (0 <= sum xs)%Z.
Proof.
  induction 1 as [ | x xs Hx _ IH ]; [ reflexivity | ].
  rewrite sum_cons. lia.
Qed.

Lemma fold_min_spec (xs : list Q) (x : Q) :
  is_min (fold_left (fun m y => if ltb y m then y else m) xs x) (x :: xs).
Proof.
  revert x. induction xs as [ | y ys IH ]; intro x; simpl fold_left.
  - split; [ left; reflexivity | ].
    intros z [ <- | [] ]. apply Qle_refl.
  - destruct (ltb y x) eqn:E.
    + destruct (IH y) as [Hin Hle]. apply ltb_lt in E. split.
      * destruct Hin as [ <- | Hin ]; [ right; left; reflexivity | right; right; exact Hin ].
      * intros z [ <- | [ <- | Hz ] ].
        -- apply Qle_trans with y; [ apply Hle; left; reflexivity | apply Qlt_le_weak, E ].
        -- apply Hle. left. reflexivity.
        -- apply Hle. right. exact Hz.
    + destruct (IH x) as [Hin Hle]. apply ltb_ge in E. split.
      * destruct Hin as [ <- | Hin ]; [ left; reflexivity | right; right; exact Hin ].
      * intros z [ <- | [ <- | Hz ] ].
        -- apply Hle. left. reflexivity.
        -- apply Qle_trans with x; [ apply Hle; left; reflexivity | exact E ].
        -- apply Hle. right. exact Hz.
Qed.

Lemma min_Done (xs : list Q) (m : Q) : min xs = Done m -> is_min m xs.
Proof.
  destruct xs as [ | x xs ]; simpl; [ discriminate | ].
  intro H. injection H as <-. apply fold_min_spec.
Qed.

Lemma round_half_even_comp (x y : Q) : x == y -> round_half_even x = round_half_even y.
Proof.
  intro H. unfold round_half_even.
  rewrite (Qfloor_comp _ _ H).
  assert (E : (x - inject_Z (Qfloor y) ?= 1 # 2) = (y - inject_Z (Qfloor y) ?= 1 # 2)).
  { apply Qcompare_comp; [ rewrite H; reflexivity | reflexivity ]. }
  rewrite E. reflexivity.
Qed.

Lemma round_half_even_Z (k : Z) : round_half_even (inject_Z k) = k.
Proof.
  unfold round_half_even. rewrite Qfloor_Z.
  assert (E : (inject_Z k - inject_Z k ?= 1 # 2) = Lt).
  { rewrite <- Qlt_alt. lra. }
  rewrite E. reflexivity.
Qed.

Lemma round_half_even_near (q : Q) :
  q - (1 # 2) <= inject_Z (round_half_even q) <= q + (1 # 2).
Proof.
  unfold round_half_even.
  pose proof (Qfloor_le q) as Hlo. pose proof (Qlt_floor q) as Hhi.
  rewrite inject_Z_plus in Hhi. change (inject_Z 1) with 1 in Hhi.
  destruct (q - inject_Z (Qfloor q) ?= 1 # 2) eqn:E.
  - rewrite <- Qeq_alt in E.
    destruct (Z.even (Qfloor q)); [ | rewrite inject_Z_plus; change (inject_Z 1) with 1 ]; lra.
  - rewrite <- Qlt_alt in E. lra.
  - rewrite <- Qgt_alt in E. rewrite inject_Z_plus. change (inject_Z 1) with 1. lra.
Qed.

Lemma round_milli (k : Z) : round (inject_Z k / 1000) 3 == inject_Z k / 1000.
Proof.
  unfold round. change (inject_Z (10 ^ Z.of_nat 3)) with 1000.
  rewrite (round_half_even_comp (inject_Z k / 1000 * 1000) (inject_Z k)) by field.
  rewrite round_half_even_Z. reflexivity.
Qed.

Lemma round_near_2 (x : Q) : x - 0.005 <= round x 2 <= x + 0.005.
Proof.
  unfold round. change (inject_Z (10 ^ Z.of_nat 2)) with 100.
  pose proof (round_half_even_near (x * 100)) as [Hlo Hhi].
  set (r := inject_Z (round_half_even (x * 100))) in *.
  split.
  - apply Qle_shift_div_l; lra.
  - apply Qle_shift_div_r; lra.
Qed.

End Prelude.

(** ** Hub count and hub configuration *)

Section Topology.
Import Py Main2.

Lemma ceil_div_spec (a b : Z) :
  (0 < b)%Z -> (b * (ceil_div a b - 1) < a <= b * ceil_div a b)%Z.
Proof.
  intro Hb. unfold ceil_div.
  set (q := (inject_Z a / inject_Z b)%Q).
  pose proof (Qle_ceiling q) as Hhi. pose proof (Qceiling_lt q) as Hlo.
  assert (Hb' : (inject_Z 0 < inject_Z b)%Q) by (rewrite <- Zlt_Qlt; exact Hb).
  change (inject_Z 0) with 0%Q in Hb'.
  assert (Ha : (inject_Z a == q * inject_Z b)%Q) by (unfold q; field; lra).
  split.
  - apply (Qmult_lt_r _ _ _ Hb') in Hlo. rewrite <- Ha, <- inject_Z_mult in Hlo.
    rewrite <- Zlt_Qlt in Hlo. lia.
  - apply (Qmult_le_r _ _ _ Hb') in Hhi. rewrite <- Ha, <- inject_Z_mult in Hhi.
    rewrite <- Zle_Qle in Hhi. lia.
Qed.

Lemma num_hubs_spec (w : widgets) :
  (8 * (num_hubs w - 1) < total_anodes w <= 8 * num_hubs w)%Z.
Proof. apply (ceil_div_spec (total_anodes w) 8). reflexivity. Qed.

Lemma sum_repeat (c : Z) (n : nat) : sum (repeat c n) = (c * Z.of_nat n)%Z.
Proof.
  induction n as [ | n IH ]; [ simpl; unfold sum; simpl; lia | ].
  simpl repeat. rewrite sum_cons, IH. lia.
Qed.

Lemma hub_loop_log (w : widgets) (la : list string) (n : nat) :
  forall (l : list nat) (s : hub_loop),
    List.length l = S n ->
    (8 * Z.of_nat n < remaining_anodes s <= 8 * Z.of_nat (S n))%Z ->
    anodes_log (fold_left (hub_body w la) l s)
    = anodes_log s ++ repeat 8%Z n ++ [(remaining_anodes s - 8 * Z.of_nat n)%Z].
Proof.
  induction n as [ | n IH ]; intros l s Hlen Hr.
  - destruct l as [ | i [ | j l ] ]; try discriminate Hlen.
    cbn [fold_left hub_body anodes_log repeat app]. unfold ANODES_PER_HUB.
    do 2 f_equal. lia.
  - destruct l as [ | i l ]; [ discriminate Hlen | ].
    injection Hlen as Hlen.
    change (fold_left (hub_body w la) (i :: l) s)
      with (fold_left (hub_body w la) l (hub_body w la s i)).
    rewrite (IH l _ Hlen).
    + cbn [hub_body anodes_log remaining_anodes]. unfold ANODES_PER_HUB.
      replace (Z.min 8 (remaining_anodes s)) with 8%Z by lia.
      rewrite <- app_assoc. cbn [repeat app]. do 4 f_equal. lia.
    + cbn [hub_body anodes_log remaining_anodes]. unfold ANODES_PER_HUB. lia.
Qed.

Lemma hub_loop_data_length (w : widgets) (la : list string) (l : list nat) :
  forall s : hub_loop,
    List.length (hub_data (fold_left (hub_body w la) l s))
    = (List.length (hub_data s) + List.length l)%nat.
Proof.
  induction l as [ | i l IH ]; intro s; cbn [fold_left List.length].
  - lia.
  - rewrite IH. cbn [hub_body hub_data]. rewrite length_app. cbn [List.length]. lia.
Qed.

End Topology.

(** ** Outcomes and lists *)

Section Monad.
Import Py.

Lemma bind_Done {A B : Type} (c : outcome A) (k : A -> outcome B) (b : B) :
  bind c k = Done b -> exists a, c = Done a /\ k a = Done b.
Proof.
  destruct c as [ a | m | e ]; simpl; intro H; try discriminate.
  exists a. split; [ reflexivity | exact H ].
Qed.

Lemma mapM_Done {A B : Type} (f : A -> outcome B) (l : list A) :
  forall bs, mapM f l = Done bs -> Forall2 (fun a b => f a = Done b) l bs.
Proof.
  induction l as [ | a l IH ]; intros bs H; simpl in H.
  - injection H as <-. constructor.
  - apply bind_Done in H. destruct H as (b & Hb & H).
    apply bind_Done in H. destruct H as (bs' & Hbs & H).
    injection H as <-. constructor; [ exact Hb | apply IH, Hbs ].
Qed.

Lemma mapM_total {A B : Type} (f : A -> outcome B) (l : list A) :
  (forall a, In a l -> exists b, f a = Done b) -> exists bs, mapM f l = Done bs.
Proof.
  induction l as [ | a l IH ]; intro H; simpl.
  - eexists. reflexivity.
  - destruct (H a (or_introl eq_refl)) as (b & ->).
    destruct IH as (bs & ->); [ intros x Hx; apply H; right; exact Hx | ].
    simpl. eexists. reflexivity.
Qed.

Lemma Forall2_nth_error_l {A B : Type} (R : A -> B -> Prop) (l : list A) (l' : list B) :
  Forall2 R l l' ->
  forall k a, nth_error l k = Some a -> exists b, nth_error l' k = Some b /\ R a b.
Proof.
  induction 1 as [ | x y l l' Hxy _ IH ]; intros [ | k ] a Hk; simpl in Hk; try discriminate.
  - injection Hk as <-. exists y. split; [ reflexivity | exact Hxy ].
  - apply IH, Hk.
Qed.

Lemma Forall2_nth_error_r {A B : Type} (R : A -> B -> Prop) (l : list A) (l' : list B) :
  Forall2 R l l' ->
  forall k b, nth_error l' k = Some b -> exists a, nth_error l k = Some a /\ R a b.
Proof.
  induction 1 as [ | x y l l' Hxy _ IH ]; intros [ | k ] b Hk; simpl in Hk; try discriminate.
  - injection Hk as <-. exists x. split; [ reflexivity | exact Hxy ].
  - apply IH, Hk.
Qed.

End Monad.

(** ** One link pass *)

Section Propagation.
Import Py Main2.
Open Scope Q_scope.

Variable w : widgets.

(** The rows of a link pass only grow. *)
Lemma segment_rows (link_id from to : string) (L I_A R : Q) (t : link_trace) :
  exists row,
    rows (segment w link_id from to L I_A R t) = rows t ++ [row] /\
    From row = from /\ To row = to /\ APWRLINK row = link_id /\
    Current_A row = round I_A 3.
Proof.
  eexists. cbn [segment rows]. split; [ reflexivity | ]. cbn. repeat split.
Qed.

Lemma hub_to_hub_rows (link_id : string) (hubs : list hub) (d : hub) (l : list nat) :
  forall t, exists more,
    rows (fold_left (hub_to_hub w link_id hubs d) l t) = rows t ++ more.
Proof.
  induction l as [ | i l IH ]; intro t; cbn [fold_left].
  - exists []. rewrite app_nil_r. reflexivity.
  - destruct (IH (hub_to_hub w link_id hubs d t i)) as (more & ->).
    unfold hub_to_hub. destruct (0 <? i)%nat.
    + destruct (segment_rows link_id
        (hub_name (nth (i - 1) hubs d)) (hub_name (nth i hubs d))
        (distance (nth i hubs d)) (calculate_current hubs i)
        (calculate_resistance (distance (nth i hubs d)) (cable_area w)) t)
        as (row & -> & _).
      exists (row :: more). rewrite <- app_assoc. reflexivity.
    + exists more. reflexivity.
Qed.

Lemma hub_to_hub_0 (link_id : string) (hubs : list hub) (d : hub) (t : link_trace) :
  hub_to_hub w link_id hubs d t 0 = t.
Proof. reflexivity. Qed.

(** A link pass on a non-empty chain ends, and its first row is the
    segment from the source. *)
Lemma propagate_link_Done (link_id : string) (hubs : list hub) (t : link_trace) :
  propagate_link w link_id hubs = Done t ->
  exists hub0 tl seg0 rest,
    hubs = hub0 :: tl /\ rows t = seg0 :: rest /\
    From seg0 = "APWRLINK"%string /\ To seg0 = hub_name hub0 /\
    Current_A seg0 = round (calculate_current hubs 0) 3.
Proof.
  destruct hubs as [ | hub0 tl ]; [ discriminate | ].
  cbn [propagate_link]. cbv zeta. intro H. injection H as <-.
  match goal with |- context [fold_left ?f ?l ?t1] =>
    destruct (hub_to_hub_rows link_id (hub0 :: tl) hub0 l t1) as (more & ->) end.
  rewrite hub_to_hub_0.
  match goal with |- context [segment w ?a ?b ?c ?d ?e ?f ?g] =>
    destruct (segment_rows a b c d e f g) as (row & -> & HF & HT & _ & HC) end.
  exists hub0, tl, row, more. cbn [rows app]. repeat split; assumption.
Qed.

Lemma propagate_link_total (link_id : string) (hubs : list hub) :
  hubs <> [] -> exists t, propagate_link w link_id hubs = Done t.
Proof.
  destruct hubs as [ | hub0 tl ]; [ congruence | ]. intros _.
  eexists. reflexivity.
Qed.

End Propagation.

(** ** The passes over all links, and the grouping *)

Section Links.
Import Py Main2.
Open Scope Q_scope.

Variable w : widgets.

Lemma link_pass_fold (groups : list (string * list hub)) :
  forall acc p,
    fold_left (link_pass w) groups acc = Done p ->
    exists p0 ts,
      acc = Done p0 /\ Forall2 (pass_of w) groups ts /\
      link_traces p = link_traces p0 ++ ts /\
      link_results p = link_results p0 ++ map rows_of ts /\
      results p = results p0 ++ flat_map (fun kt => rows (snd kt)) ts.
Proof.
  induction groups as [ | g groups IH ]; intros acc p H; cbn [fold_left] in H.
  - exists p, []. rewrite !app_nil_r. subst acc. repeat split. constructor.
  - destruct (IH _ _ H) as (p1 & ts & Hpass & HF & Ht & Hl & Hr).
    unfold link_pass in Hpass.
    apply bind_Done in Hpass. destruct Hpass as (p0 & -> & Hpass).
    apply bind_Done in Hpass. destruct Hpass as (t & Hlink & Hpass).
    injection Hpass as <-. cbn [link_traces link_results results] in Ht, Hl, Hr.
    exists p0, ((fst g, t) :: ts). split; [ reflexivity | ]. split.
    + constructor; [ split; [ reflexivity | exact Hlink ] | exact HF ].
    + rewrite Ht, Hl, Hr, <- !app_assoc. repeat split.
Qed.

Lemma propagate_Done (groups : list (string * list hub)) (p : propagation) :
  propagate w groups = Done p ->
  Forall2 (pass_of w) groups (link_traces p) /\
  link_results p = map rows_of (link_traces p) /\
  results p = flat_map (fun kt => rows (snd kt)) (link_traces p).
Proof.
  intro H. apply link_pass_fold in H.
  destruct H as (p0 & ts & Hp0 & HF & Ht & Hl & Hr).
  injection Hp0 as <-. cbn in Ht, Hl, Hr. subst. rewrite Hl, Hr. repeat split. exact HF.
Qed.

Lemma link_pass_fold_total (groups : list (string * list hub)) :
  Forall (fun g => snd g <> []) groups ->
  forall p0, exists p, fold_left (link_pass w) groups (Done p0) = Done p.
Proof.
  induction 1 as [ | g groups Hg _ IH ]; intro p0; cbn [fold_left].
  - exists p0. reflexivity.
  - destruct (propagate_link_total w (fst g) (snd g) Hg) as (t & Ht).
    unfold link_pass at 2. cbn [bind]. rewrite Ht. cbn [bind]. apply IH.
Qed.

(** Grouping. *)
Lemma append_hub_nonempty (link : string) (h : hub) (groups : list (string * list hub)) :
  Forall (fun g => snd g <> []) groups ->
  Forall (fun g => snd g <> []) (append_hub link h groups) /\ append_hub link h groups <> [].
Proof.
  induction 1 as [ | [k hs] groups Hg HF IH ]; cbn [append_hub].
  - split; [ | discriminate ]. constructor; [ discriminate | constructor ].
  - destruct (String.eqb k link).
    + split; [ | discriminate ]. constructor; [ | exact HF ].
      cbn. intro E. apply app_eq_nil in E. destruct E as [_ E]. discriminate.
    + split; [ | discriminate ]. constructor; [ exact Hg | apply IH ].
Qed.

Lemma group_fold_nonempty (hub_data : list hub) :
  forall groups,
    Forall (fun g => snd g <> []) groups ->
    Forall (fun g => snd g <> [])
      (fold_left (fun link_groups h => append_hub (link_id h) h link_groups) hub_data groups)
    /\ (hub_data <> [] \/ groups <> [] ->
        fold_left (fun link_groups h => append_hub (link_id h) h link_groups) hub_data groups <> []).
Proof.
  induction hub_data as [ | h hub_data IH ]; intros groups HF; cbn [fold_left].
  - split; [ exact HF | ]. intros [ H | H ]; [ congruence | exact H ].
  - destruct (append_hub_nonempty (link_id h) h groups HF) as [HF' Hne].
    destruct (IH _ HF') as [H1 H2]. split; [ exact H1 | ].
    intros _. apply H2. right. exact Hne.
Qed.

Lemma group_hubs_nonempty (hub_data : list hub) :
  Forall (fun g => snd g <> []) (group_hubs hub_data) /\
  (hub_data <> [] -> group_hubs hub_data <> []).
Proof.
  destruct (group_fold_nonempty hub_data [] (Forall_nil _)) as [H1 H2].
  split; [ exact H1 | ]. intro H. apply H2. left. exact H.
Qed.

End Links.

(** ** Status of a link and of the system *)

Section Status.
Import Py Main2.
Open Scope Q_scope.

Variable w : widgets.

Lemma color_cases (c : color) : c <> red <-> c = green.
Proof. destruct c; split; congruence. Qed.

Lemma first_link_current_seg0 (seg0 : result_row) (rest : list result_row) :
  From seg0 = "APWRLINK"%string -> first_link_current (seg0 :: rest) = Current_A seg0.
Proof.
  intro H. unfold first_link_current. cbn [find]. rewrite H. reflexivity.
Qed.

Lemma analyse_link_Done (link_id : string) (link_data : list result_row) (s : link_status) :
  analyse_link w link_id link_data = Done s ->
  exists m,
    min (map Remaining_Voltage_V link_data) = Done m /\
    link_min_voltage s = m /\
    link_current s = first_link_current link_data /\
    (status_color s = red <-> breach w m (first_link_current link_data)).
Proof.
  unfold analyse_link. intro H.
  apply bind_Done in H. destruct H as (m & Hm & H).
  apply bind_Done in H. destruct H as (p & _ & H).
  apply bind_Done in H. destruct H as (d & _ & H).
  injection H as <-. exists m. cbn [link_min_voltage link_current status_color].
  repeat split; try assumption; unfold breach.
  - destruct (ltb (max_link_current w) (first_link_current link_data)) eqn:Ec.
    + intros _. right. apply ltb_lt, Ec.
    + destruct (ltb m (min_voltage w)) eqn:Ev; cbn [fst]; [ | discriminate ].
      intros _. left. apply ltb_lt, Ev.
  - intros [ Hv | Hc ].
    + apply ltb_lt in Hv. rewrite Hv.
      destruct (ltb (max_link_current w) (first_link_current link_data)); reflexivity.
    + apply ltb_lt in Hc. rewrite Hc. reflexivity.
Qed.

Lemma analyse_link_total (link_id : string) (link_data : list result_row) :
  link_data <> [] -> exists s, analyse_link w link_id link_data = Done s.
Proof.
  intro Hne. unfold analyse_link.
  destruct link_data as [ | row link_data ]; [ congruence | ].
  cbn [map min max bind]. eexists. reflexivity.
Qed.

Lemma current_check_fold (ls : list (string * list result_row)) :
  forall (c : color) (m : overall_message) (lc : list (string * Q)),
    fst (fst (fold_left (current_check w) ls (c, m, lc))) = red <->
    c = red \/ exists l, In l ls /\ max_link_current w < first_link_current (snd l).
Proof.
  induction ls as [ | l ls IH ]; intros c m lc; cbn [fold_left].
  - cbn [fst]. split; [ intro H; left; exact H | ].
    intros [ H | (l & [] & _) ]. exact H.
  - unfold current_check at 2.
    destruct (ltb (max_link_current w) (first_link_current (snd l))) eqn:E; rewrite IH.
    + apply ltb_lt in E. split; intros _.
      * right. exists l. split; [ left; reflexivity | exact E ].
      * left. reflexivity.
    + apply ltb_ge in E. split.
      * intros [ H | (l' & Hin & Hlt) ]; [ left; exact H | ].
        right. exists l'. split; [ right; exact Hin | exact Hlt ].
      * intros [ H | (l' & [ <- | Hin ] & Hlt) ]; [ left; exact H | | ].
        -- exfalso. exact (Qlt_not_le _ _ Hlt E).
        -- right. exists l'. split; assumption.
Qed.

Lemma analyse_system_Done (hub_data : list hub) (p : propagation) (o : overall_status) :
  analyse_system w hub_data p = Done o ->
  exists m,
    min (map Remaining_Voltage_V (results p)) = Done m /\
    min_voltage_overall o = m /\
    (overall_status_color o = red <->
     m < min_voltage w \/
     exists l, In l (link_results p) /\ max_link_current w < first_link_current (snd l)).
Proof.
  unfold analyse_system. intro H.
  apply bind_Done in H. destruct H as (m & Hm & H).
  apply bind_Done in H. destruct H as (dp & _ & H).
  apply bind_Done in H. destruct H as (dm & _ & H).
  match type of H with context [fold_left ?f ?ls ?init] =>
    pose proof (current_check_fold ls (fst (fst init)) (snd (fst init)) (snd init)) as HF;
    cbn [fst snd] in HF; destruct (fold_left f ls init) as [[c' m'] lc'] eqn:EF end.
  injection H as <-. exists m. cbn [min_voltage_overall overall_status_color].
  split; [ exact Hm | ]. split; [ reflexivity | ].
  cbn [fst] in HF. rewrite HF.
  destruct (ltb m (min_voltage w)) eqn:Ev.
  - apply ltb_lt in Ev. split; intros _; [ left; exact Ev | left; reflexivity ].
  - apply ltb_ge in Ev. split.
    + intros [ H | H ]; [ discriminate | right; exact H ].
    + intros [ H | H ]; [ exfalso; exact (Qlt_not_le _ _ H Ev) | right; exact H ].
Qed.

Lemma analyse_system_total (hub_data : list hub) (p : propagation) :
  results p <> [] -> exists o, analyse_system w hub_data p = Done o.
Proof.
  intro Hne. unfold analyse_system.
  destruct (results p) as [ | row rs ]; [ congruence | ].
  cbn [map min max bind].
  match goal with |- context [fold_left ?f ?ls ?init] =>
    destruct (fold_left f ls init) as [[c' m'] lc'] end.
  eexists. reflexivity.
Qed.

End Status.

(** ** The widgets of the hub loop *)

Section Widgets.
Import Py Main2.

Variable w : widgets.

Lemma curr_inputs_Done (i : nat) (l : list nat) (cs : list Z) :
  mapM (curr_input w i) l = Done cs -> cs = map (curr w i) l.
Proof.
  intro H. apply mapM_Done in H.
  induction H as [ | a c l cs Hc _ IH ]; [ reflexivity | ].
  cbn [map]. rewrite IH. f_equal. unfold curr_input in Hc.
  destruct ((current_per_anode w <? 0) || (625 <? current_per_anode w))%Z;
    [ discriminate | ].
  injection Hc as <-. reflexivity.
Qed.

Lemma curr_inputs_accepted (i : nat) (l : list nat) :
  (0 <= current_per_anode w <= 625)%Z ->
  mapM (curr_input w i) l = Done (map (curr w i) l).
Proof.
  intro Hc. induction l as [ | a l IH ]; [ reflexivity | ].
  cbn [mapM map]. rewrite IH. unfold curr_input.
  replace ((current_per_anode w <? 0) || (625 <? current_per_anode w))%Z with false.
  - reflexivity.
  - symmetry. apply orb_false_iff. split; [ apply Z.ltb_ge | apply Z.ltb_ge ]; lia.
Qed.

Lemma curr_inputs_refused (i : nat) (a : nat) (l : list nat) :
  ~ (0 <= current_per_anode w <= 625)%Z ->
  mapM (curr_input w i) (a :: l) = Raised StreamlitAPIException.
Proof.
  intro Hc. cbn [mapM]. unfold curr_input.
  replace ((current_per_anode w <? 0) || (625 <? current_per_anode w))%Z with true.
  - reflexivity.
  - symmetry. apply orb_true_iff.
    destruct (Z.ltb_spec (current_per_anode w) 0) as [ H | H ]; [ left; reflexivity | ].
    right. apply Z.ltb_lt. lia.
Qed.

(** A pass either leaves the state of [hub_body] or raises the
    exception of a widget. *)
Lemma hub_pass_cases (la : list string) (s : hub_loop) (i : nat) :
  hub_pass w la (Done s) i = Done (hub_body w la s i) \/
  hub_pass w la (Done s) i = Raised StreamlitAPIException.
Proof.
  unfold hub_pass, hub_body, anode_currents. cbn [bind].
  destruct (manual_config w i); [ | left; reflexivity ].
  set (l := range (Z.to_nat (Z.min ANODES_PER_HUB (remaining_anodes s)))).
  destruct (Z_le_dec 0 (current_per_anode w)) as [ H0 | H0 ];
    [ destruct (Z_le_dec (current_per_anode w) 625) as [ H1 | H1 ] | ].
  - rewrite curr_inputs_accepted by lia. left. reflexivity.
  - destruct l as [ | a l ]; [ left; reflexivity | ].
    rewrite curr_inputs_refused by lia. right. reflexivity.
  - destruct l as [ | a l ]; [ left; reflexivity | ].
    rewrite curr_inputs_refused by lia. right. reflexivity.
Qed.

Lemma hub_pass_Raised (la : list string) (l : list nat) (e : exn) :
  fold_left (hub_pass w la) l (Raised e) = Raised e.
Proof. induction l as [ | i l IH ]; [ reflexivity | exact IH ]. Qed.

Lemma hub_pass_fold_cases (la : list string) (l : list nat) :
  forall s,
    fold_left (hub_pass w la) l (Done s) = Done (fold_left (hub_body w la) l s) \/
    fold_left (hub_pass w la) l (Done s) = Raised StreamlitAPIException.
Proof.
  induction l as [ | i l IH ]; intro s; cbn [fold_left]; [ left; reflexivity | ].
  destruct (hub_pass_cases la s i) as [ -> | -> ]; [ apply IH | ].
  right. apply hub_pass_Raised.
Qed.

Lemma hub_configuration_cases (la : list string) :
  hub_configuration w la = Done (configure_hubs w la) \/
  hub_configuration w la = Raised StreamlitAPIException.
Proof. apply hub_pass_fold_cases. Qed.

Lemma hub_configuration_Done (la : list string) (s : hub_loop) :
  hub_configuration w la = Done s -> s = configure_hubs w la.
Proof.
  intro H. destruct (hub_configuration_cases la) as [ E | E ]; rewrite E in H.
  - injection H as <-. reflexivity.
  - discriminate.
Qed.

Lemma hub_pass_fold_accepted (la : list string) (l : list nat) :
  (forall i, In i l -> manual_config w i = true -> (0 <= current_per_anode w <= 625)%Z) ->
  forall s, fold_left (hub_pass w la) l (Done s) = Done (fold_left (hub_body w la) l s).
Proof.
  induction l as [ | i l IH ]; intros Hacc s; cbn [fold_left]; [ reflexivity | ].
  assert (E : hub_pass w la (Done s) i = Done (hub_body w la s i)).
  { unfold hub_pass, hub_body, anode_currents. cbn [bind].
    destruct (manual_config w i) eqn:Em; [ | reflexivity ].
    rewrite curr_inputs_accepted by (apply (Hacc i); [ left; reflexivity | exact Em ]).
    reflexivity. }
  rewrite E. apply IH. intros j Hj. apply Hacc. right. exact Hj.
Qed.

Lemma hub_configuration_accepted (la : list string) :
  accepted w -> hub_configuration w la = Done (configure_hubs w la).
Proof.
  intro Hacc. apply hub_pass_fold_accepted. intros i Hi. apply Hacc.
  apply in_seq in Hi. lia.
Qed.

(** Before pass [k] of a run over at least one anode, [total_anodes - 8 k]
    anodes remain, at least one. *)
Lemma hub_loop_remaining (la : list string) (k : nat) :
  (1 <= total_anodes w)%Z -> (k < Z.to_nat (num_hubs w))%nat ->
  remaining_anodes
    (fold_left (hub_body w la) (seq 0 k)
       {| remaining_anodes := total_anodes w; hub_data := []; anodes_log := [] |})
  = (total_anodes w - 8 * Z.of_nat k)%Z.
Proof.
  intros Htotal. pose proof (num_hubs_spec w) as Hn.
  induction k as [ | k IH ]; intro Hk.
  - cbn [seq fold_left remaining_anodes]. lia.
  - rewrite seq_S, fold_left_app. cbn [fold_left Nat.add].
    cbn [hub_body remaining_anodes]. rewrite IH by lia. unfold ANODES_PER_HUB. lia.
Qed.

Lemma hub_configuration_refused (la : list string) (i : nat) :
  (1 <= total_anodes w)%Z -> (i < Z.to_nat (num_hubs w))%nat ->
  manual_config w i = true -> ~ (0 <= current_per_anode w <= 625)%Z ->
  hub_configuration w la = Raised StreamlitAPIException.
Proof.
  intros Htotal Hi Hm Hc. pose proof (num_hubs_spec w) as Hn.
  unfold hub_configuration, range.
  replace (Z.to_nat (num_hubs w)) with (i + S (Z.to_nat (num_hubs w) - S i))%nat by lia.
  rewrite seq_app, fold_left_app. cbn [seq fold_left Nat.add].
  destruct (hub_pass_fold_cases la (seq 0 i)
              {| remaining_anodes := total_anodes w; hub_data := []; anodes_log := [] |})
    as [ -> | -> ]; [ | apply hub_pass_Raised ].
  assert (E : hub_pass w la
                (Done (fold_left (hub_body w la) (seq 0 i)
                         {| remaining_anodes := total_anodes w; hub_data := [];
                            anodes_log := [] |})) i
              = Raised StreamlitAPIException).
  { unfold hub_pass, anode_currents. cbn [bind]. rewrite Hm.
    rewrite (hub_loop_remaining la i Htotal Hi). unfold ANODES_PER_HUB.
    destruct (Z.to_nat (Z.min 8 (total_anodes w - 8 * Z.of_nat i))) as [ | n ] eqn:En;
      [ lia | ].
    unfold range. cbn [seq]. rewrite curr_inputs_refused by exact Hc. reflexivity. }
  rewrite E. apply hub_pass_Raised.
Qed.

End Widgets.

(** ** The script as a whole *)

Section Run.
Import Py Main2.
Open Scope Q_scope.

Lemma existsb_eqb_In (x : string) (l : list string) :
  existsb (String.eqb x) l = true <-> In x l.
Proof.
  rewrite existsb_exists. split.
  - intros (y & Hy & E). apply String.eqb_eq in E. subst y. exact Hy.
  - intro H. exists x. split; [ exact H | apply String.eqb_refl ].
Qed.

Lemma run_Done (w : widgets) (r : report) :
  run w = Done r ->
  In "APWRHUB 1"%string (selected_link_starts w) /\
  exists indices,
    mapM (index (hub_names w)) (selected_link_starts w) = Done indices /\
    report_hub_data r = hub_data (configure_hubs w (link_assignments w (sorted indices))) /\
    report_link_groups r = group_hubs (report_hub_data r) /\
    propagate w (report_link_groups r) = Done (report_propagation r) /\
    mapM (analysed w) (link_results (report_propagation r)) = Done (report_links r) /\
    analyse_system w (report_hub_data r) (report_propagation r) = Done (report_system r).
Proof.
  unfold run. intro H.
  destruct (existsb (String.eqb "APWRHUB 1") (selected_link_starts w)) eqn:E;
    cbn [negb] in H; [ | discriminate ].
  apply existsb_eqb_In in E. split; [ exact E | ].
  apply bind_Done in H. destruct H as (indices & Hi & H).
  apply bind_Done in H. destruct H as (hubs & Hh & H).
  apply hub_configuration_Done in Hh. subst hubs.
  apply bind_Done in H. destruct H as (p & Hp & H).
  apply bind_Done in H. destruct H as (links & Hl & H).
  apply bind_Done in H. destruct H as (system & Hs & H).
  injection H as <-. exists indices. cbn. repeat split; assumption.
Qed.

Lemma nth_error_map_Some {A B : Type} (f : A -> B) (l : list A) (k : nat) (b : B) :
  nth_error (map f l) k = Some b -> exists a, nth_error l k = Some a /\ f a = b.
Proof.
  rewrite nth_error_map. destruct (nth_error l k) as [ a | ]; cbn; intro H; [ | discriminate ].
  injection H as <-. exists a. split; reflexivity.
Qed.

(** Every group of a report has a link view. *)
Lemma run_group_view (w : widgets) (r : report) :
  run w = Done r ->
  forall k link hubs,
    nth_error (report_link_groups r) k = Some (link, hubs) ->
    exists t s,
      link_view r k link hubs t s /\
      propagate_link w link hubs = Done t /\
      analyse_link w link (rows t) = Done s.
Proof.
  intros Hrun k link hubs Hk.
  destruct (run_Done w r Hrun) as (_ & indices & _ & _ & _ & Hp & Hl & _).
  apply propagate_Done in Hp. destruct Hp as (HF & Hres & _).
  apply mapM_Done in Hl.
  destruct (Forall2_nth_error_l _ _ _ HF k _ Hk) as ([link' t] & Ht & E & Hpl).
  cbn [fst snd] in E, Hpl. subst link'.
  assert (Hd : nth_error (link_results (report_propagation r)) k = Some (link, rows t)).
  { rewrite Hres, nth_error_map, Ht. reflexivity. }
  destruct (Forall2_nth_error_l _ _ _ Hl k _ Hd) as ([link' s] & Hs & Ha).
  unfold analysed in Ha. apply bind_Done in Ha. destruct Ha as (s' & Ha & E).
  cbn [fst snd] in Ha, E. injection E as <- <-.
  exists t, s'. split; [ constructor; assumption | ]. split; assumption.
Qed.

Lemma link_view_sound (w : widgets) (r : report) :
  run w = Done r ->
  forall k link hubs t s,
    link_view r k link hubs t s ->
    propagate_link w link hubs = Done t /\ analyse_link w link (rows t) = Done s.
Proof.
  intros Hrun k link hubs t s [Hg Ht Hr Hs].
  destruct (run_group_view w r Hrun k link hubs Hg) as (t' & s' & [_ Ht' _ Hs'] & H1 & H2).
  rewrite Ht in Ht'. injection Ht' as <-.
  rewrite Hs in Hs'. injection Hs' as <-.
  split; assumption.
Qed.

End Run.

Section Totality.
Import Py Main2.
Open Scope Q_scope.

Lemma index_In (xs : list string) (x : string) :
  In x xs -> exists i, index xs x = Done i.
Proof.
  induction xs as [ | y xs IH ]; intro H; [ destruct H | ].
  cbn [index]. destruct (String.eqb y x) eqn:E; [ eexists; reflexivity | ].
  destruct H as [ -> | H ]; [ rewrite String.eqb_refl in E; discriminate | ].
  destruct (IH H) as (i & ->). eexists. reflexivity.
Qed.

Lemma configure_hubs_length (w : widgets) (la : list string) :
  List.length (hub_data (configure_hubs w la)) = Z.to_nat (num_hubs w).
Proof.
  unfold configure_hubs. rewrite hub_loop_data_length.
  cbn [hub_data List.length]. unfold range. rewrite length_seq. reflexivity.
Qed.

Lemma hub_names_length (w : widgets) : List.length (hub_names w) = Z.to_nat (num_hubs w).
Proof. unfold hub_names, range. rewrite length_map, length_seq. reflexivity. Qed.

(** With the first hub among the link starts, every link start one of
    the offered hub names and the anode widgets accepted, the script
    runs to its end. *)
Lemma run_total (w : widgets) :
  (forall h, In h (selected_link_starts w) -> In h (hub_names w)) ->
  In "APWRHUB 1"%string (selected_link_starts w) ->
  accepted w ->
  exists r, run w = Done r.
Proof.
  intros Hopt Hfirst Hacc. unfold run.
  apply existsb_eqb_In in Hfirst as E. rewrite E. cbn [negb].
  destruct (mapM_total (index (hub_names w)) (selected_link_starts w)) as (indices & ->).
  { intros h Hh. apply index_In, Hopt, Hh. }
  cbn [bind]. rewrite (hub_configuration_accepted w _ Hacc). cbn [bind].
  set (hd := hub_data (configure_hubs w (link_assignments w (sorted indices)))).
  assert (Hhd : hd <> []).
  { intro E0. apply (f_equal (@List.length hub)) in E0.
    unfold hd in E0. rewrite configure_hubs_length, <- hub_names_length in E0.
    apply Hopt in Hfirst. destruct (hub_names w); [ destruct Hfirst | discriminate E0 ]. }
  destruct (group_hubs_nonempty hd) as [Hg Hgne]. specialize (Hgne Hhd).
  destruct (link_pass_fold_total w (group_hubs hd) Hg
              {| results := []; link_results := []; link_traces := [] |}) as (p & Hp).
  fold (propagate w (group_hubs hd)) in Hp. rewrite Hp. cbn [bind].
  destruct (propagate_Done w _ _ Hp) as (HF & Hl & Hr).
  assert (Hrows : forall kt, In kt (link_traces p) -> rows (snd kt) <> []).
  { intros kt Hkt. apply In_nth_error in Hkt. destruct Hkt as (k & Hk).
    destruct (Forall2_nth_error_r _ _ _ HF k _ Hk) as (g & _ & _ & Hpl).
    apply propagate_link_Done in Hpl.
    destruct Hpl as (hub0 & tl & seg0 & rest & _ & -> & _). discriminate. }
  destruct (mapM_total (analysed w) (link_results p)) as (links & Hlinks).
  { intros l Hin. rewrite Hl in Hin. apply in_map_iff in Hin.
    destruct Hin as (kt & <- & Hkt).
    destruct (analyse_link_total w (fst kt) (rows (snd kt)) (Hrows kt Hkt)) as (s & Hs).
    unfold analysed, rows_of. cbn [fst snd]. rewrite Hs. eexists. reflexivity. }
  change (mapM (fun l => s <- analyse_link w (fst l) (snd l);; Done (fst l, s)) (link_results p))
    with (mapM (analysed w) (link_results p)).
  rewrite Hlinks. cbn [bind].
  destruct (analyse_system_total w hd p) as (o & ->).
  { rewrite Hr. destruct (link_traces p) as [ | kt ts ] eqn:Et.
    - inversion HF as [ E1 | ]. congruence.
    - cbn [flat_map]. intro E0. apply app_eq_nil in E0. destruct E0 as [E0 _].
      exact (Hrows kt (or_introl eq_refl) E0). }
  cbn [bind]. eexists. reflexivity.
Qed.

End Totality.

(** ** The series of a link pass *)

Section Series.
Import Py Main2.
Open Scope Q_scope.

Variable w : widgets.

Lemma segment_series (link_id from to : string) (L I_A R : Q) (t : link_trace)
  (cs : list Q) :
  series w t cs ->
  series w (segment w link_id from to L I_A R t) (cs ++ [cumulative_drop_mV t + I_A * R * 1000]).
Proof.
  intros [Hd Hv Hp Hrd Hrv Hrp Hl].
  constructor; cbn [segment voltage_drop_mV_values voltage_values percent_values rows
                    cumulative_drop_mV];
    rewrite ?map_app, ?Hd, ?Hv, ?Hp, ?Hrd, ?Hrv, ?Hrp; cbn [map app];
    try reflexivity.
  rewrite last_last. reflexivity.
Qed.

Lemma hub_to_hub_series (link_id : string) (hubs : list hub) (d : hub) (l : list nat) :
  forall t cs,
    series w t cs ->
    exists cs', series w (fold_left (hub_to_hub w link_id hubs d) l t) (cs ++ cs').
Proof.
  induction l as [ | i l IH ]; intros t cs H; cbn [fold_left].
  - exists []. rewrite app_nil_r. exact H.
  - unfold hub_to_hub at 2. destruct (0 <? i)%nat.
    + eapply segment_series in H. destruct (IH _ _ H) as (cs' & H').
      rewrite <- app_assoc in H'. eexists. exact H'.
    + apply IH, H.
Qed.

(** The first cumulative drop is the drop of the segment from the source. *)
Lemma propagate_link_series (link_id : string) (hubs : list hub) (t : link_trace) :
  propagate_link w link_id hubs = Done t ->
  exists cs,
    series w t
      ((0.0 + calculate_current hubs 0
              * calculate_resistance (link_input_length w link_id) (cable_area w) * 1000)
       :: cs).
Proof.
  destruct hubs as [ | hub0 tl ]; [ discriminate | ].
  cbn [propagate_link]. cbv zeta. intro H. injection H as <-.
  cbn [List.length]. unfold range. cbn [seq fold_left]. rewrite hub_to_hub_0.
  match goal with |- context [fold_left ?f ?l (segment w ?a ?b ?c ?d ?e ?g ?t0)] =>
    assert (H0 : series w t0 []) by (constructor; reflexivity);
    apply (segment_series a b c d e g) in H0;
    destruct (hub_to_hub_series link_id (hub0 :: tl) hub0 l _ _ H0) as (cs & H)
  end.
  exists cs. exact H.
Qed.

Lemma seq_positive (n : nat) : Forall (fun i => 0 < i)%nat (seq 1 n).
Proof.
  apply Forall_forall. intros i Hi. apply in_seq in Hi. lia.
Qed.

End Series.

(** ** Comparing up to the margin *)

Section Tolerance.
Import Py Main2.
Open Scope Q_scope.

Lemma margin_pos (y : Q) : 0 < margin y.
Proof.
  unfold margin. pose proof (Qabs_nonneg y).
  apply Qmult_lt_0_compat; [ reflexivity | lra ].
Qed.

Lemma near_within (tol x y : Q) : 0 <= tol -> y - tol <= x <= y + tol -> near tol x y.
Proof.
  intros Ht [Hlo Hhi]. unfold near. pose proof (margin_pos y).
  apply Qabs_Qle_condition. split; lra.
Qed.

Lemma near_eq (tol x y : Q) : 0 <= tol -> x == y -> near tol x y.
Proof. intros Ht E. apply near_within; [ exact Ht | ]. rewrite E. split; lra. Qed.

Lemma round_near_4 (x : Q) : x - 0.00005 <= round x 4 <= x + 0.00005.
Proof.
  unfold round. change (inject_Z (10 ^ Z.of_nat 4)) with 10000.
  pose proof (round_half_even_near (x * 10000)) as [Hlo Hhi].
  set (r := inject_Z (round_half_even (x * 10000))) in *.
  split.
  - apply Qle_shift_div_l; lra.
  - apply Qle_shift_div_r; lra.
Qed.

Lemma near_round_2 (x y : Q) : x == y -> near 0.005 (round x 2) y.
Proof.
  intro E. apply near_within; [ lra | ]. pose proof (round_near_2 x). lra.
Qed.

Lemma near_round_4 (x y : Q) : x == y -> near 0.00005 (round x 4) y.
Proof.
  intro E. apply near_within; [ lra | ]. pose proof (round_near_4 x). lra.
Qed.

(** Fields and series given as maps over the same list are related
    element by element. *)
Lemma Forall2_fields {A B : Type} (P : Q -> Q -> Prop) (f : A -> Q) (g h : B -> Q)
  (l : list A) (l' : list B) :
  map f l = map g l' -> (forall b, P (g b) (h b)) ->
  Forall2 (fun a v => P (f a) v) l (map h l').
Proof.
  intros E HP. revert l' E.
  induction l as [ | a l IH ]; intros [ | b l' ] E; try discriminate E; cbn [map].
  - constructor.
  - cbn [map] in E. injection E as Ea El. constructor.
    + rewrite Ea. apply HP.
    + apply IH, El.
Qed.

Lemma Forall2_values {B : Type} (P : Q -> Q -> Prop) (g h : B -> Q) (l : list B) :
  (forall b, P (g b) (h b)) -> Forall2 P (map g l) (map h l).
Proof.
  intro HP. induction l as [ | b l IH ]; cbn [map]; constructor; [ apply HP | exact IH ].
Qed.

Lemma Forall2_fields_self {A : Type} (P : Q -> Q -> Prop) (f : A -> Q) (g : Q -> Q)
  (l : list A) (l' : list Q) :
  map f l = map g l' -> (forall b, P (g b) b) ->
  Forall2 (fun a v => P (f a) v) l l'.
Proof.
  intros E HP. rewrite <- (map_id l'). apply (Forall2_fields P f g (fun c => c)); assumption.
Qed.

Lemma Forall2_values_self (P : Q -> Q -> Prop) (g : Q -> Q) (l : list Q) :
  (forall b, P (g b) b) -> Forall2 P (map g l) l.
Proof.
  intro HP. rewrite <- (map_id l) at 2. apply Forall2_values, HP.
Qed.

End Tolerance.

(** ** Status per link and for the system *)

Section StatusClaims.
Import Py Main2.
Open Scope Q_scope.

(** A finished run over at least one anode has a first link. *)
Lemma run_has_link (w : widgets) (r : report) :
  run w = Done r -> (1 <= total_anodes w)%Z ->
  exists link hubs, nth_error (report_link_groups r) 0 = Some (link, hubs).
Proof.
  intros Hrun Htotal. pose proof (num_hubs_spec w) as Hn.
  destruct (run_Done w r Hrun) as (_ & indices & _ & Hd & Hg & _).
  assert (Hne : report_hub_data r <> []).
  { intro E. apply (f_equal (@List.length hub)) in E.
    rewrite Hd, configure_hubs_length in E. cbn [List.length] in E. lia. }
  destruct (group_hubs_nonempty (report_hub_data r)) as [_ Hgne].
  specialize (Hgne Hne). rewrite <- Hg in Hgne.
  destruct (report_link_groups r) as [ | [link hubs] groups ]; [ congruence | ].
  exists link, hubs. reflexivity.
Qed.

(** C4: with the first hub among the link starts, inputs within the
    bounds of the widgets and the anode widgets accepted, the script
    runs to its end for every choice of thresholds, the report has at
    least one link, and for every link the derived status is VIOLATION
    ([red]) if and only if the minimum of the remaining-voltage fields
    of the link's rows is strictly below [min_voltage] or the current
    field of the link's first row (segment 0, source to first hub) is
    strictly above [max_link_current]; otherwise it is OK ([green]).  A
    breach is a value of the report, not an exception. *)
Theorem link_status_is_violation_iff_breach (w : widgets) :
  offered w ->
  In "APWRHUB 1"%string (selected_link_starts w) ->
  in_bounds w ->
  accepted w ->
  exists r,
    run w = Done r /\
    (exists link hubs, nth_error (report_link_groups r) 0 = Some (link, hubs)) /\
    forall k link hubs,
      nth_error (report_link_groups r) k = Some (link, hubs) ->
      exists t s seg0 rest m,
        link_view r k link hubs t s /\
        rows t = seg0 :: rest /\
        is_min m (map Remaining_Voltage_V (rows t)) /\
        (status_color s = red <->
         m < min_voltage w \/ max_link_current w < Current_A seg0) /\
        (status_color s = green <->
         ~ (m < min_voltage w \/ max_link_current w < Current_A seg0)).
Proof.
  intros Hopt Hfirst Hb Hacc.
  pose proof (bound_total_anodes w Hb) as Htotal.
  destruct (run_total w Hopt Hfirst Hacc) as (r & Hrun).
  exists r. split; [ exact Hrun | ].
  split; [ apply (run_has_link w r Hrun Htotal) | ].
  intros k link hubs Hk.
  destruct (run_group_view w r Hrun k link hubs Hk) as (t & s & Hview & Hpl & Ha).
  destruct (propagate_link_Done w link hubs t Hpl)
    as (hub0 & tl & seg0 & rest & _ & Hrows & Hfrom & _).
  destruct (analyse_link_Done w link (rows t) s Ha) as (m & Hm & _ & _ & Hred).
  unfold breach in Hred.
  rewrite Hrows, (first_link_current_seg0 seg0 rest Hfrom) in Hred.
  exists t, s, seg0, rest, m.
  split; [ exact Hview | ]. split; [ exact Hrows | ].
  split; [ apply min_Done, Hm | ]. split; [ exact Hred | ].
  rewrite <- color_cases, Hred. reflexivity.
Qed.

(** At the defaults the only link, "APWRLINK 1", carries 15 A, above the
    10 A allowed: its status is VIOLATION, returned in the report. *)
Lemma link_status_at_defaults :
  exists r hubs t s seg0 rest m,
    run default_widgets = Done r /\
    nth_error (report_link_groups r) 0 = Some ("APWRLINK 1"%string, hubs) /\
    link_view r 0 "APWRLINK 1" hubs t s /\
    rows t = seg0 :: rest /\
    is_min m (map Remaining_Voltage_V (rows t)) /\
    (status_color s = red <->
     m < min_voltage default_widgets \/ max_link_current default_widgets < Current_A seg0) /\
    max_link_current default_widgets < Current_A seg0 /\
    status_color s = red.
Proof.
  destruct (link_status_is_violation_iff_breach default_widgets)
    as (r & Hrun & (link & hubs & Hg) & Hall).
  - intros h [ <- | [] ]. vm_compute. left. reflexivity.
  - left. reflexivity.
  - constructor; intros; try split; vm_compute; discriminate.
  - intros i _ Hm. discriminate Hm.
  - destruct (Hall 0%nat link hubs Hg) as (t & s & seg0 & rest & m & Hview & Hrows & Hm & Hred & _).
    assert (Er : Done r = run default_widgets) by (symmetry; exact Hrun).
    vm_compute in Er. injection Er as Er.
    assert (Hlink : link = "APWRLINK 1"%string).
    { rewrite Er in Hg. cbn in Hg. injection Hg as <- _. reflexivity. }
    subst link.
    assert (Hover : max_link_current default_widgets < Current_A seg0).
    { destruct Hview as [_ Ht _ _]. rewrite Er in Ht. cbn in Ht. injection Ht as Et.
      rewrite <- Et in Hrows. cbn in Hrows. injection Hrows as <- _.
      vm_compute. reflexivity. }
    exists r, hubs, t, s, seg0, rest, m.
    split; [ exact Hrun | ]. split; [ exact Hg | ]. split; [ exact Hview | ].
    split; [ exact Hrows | ]. split; [ exact Hm | ]. split; [ exact Hred | ].
    split; [ exact Hover | ]. apply Hred. right. exact Hover.
Defined.

(** X24: the exception the script can raise comes from the anode
    widgets, not from a breach: with the first hub among the link
    starts, when a hub is configured manually while the standard current
    per anode exceeds 625 mA, the widget of its first anode is created
    with a default above its maximum and the script ends in
    [StreamlitAPIException], whatever the thresholds. *)
Theorem refused_anode_widget_raises (w : widgets) (i : nat) :
  offered w ->
  In "APWRHUB 1"%string (selected_link_starts w) ->
  (1 <= total_anodes w)%Z ->
  (i < Z.to_nat (num_hubs w))%nat ->
  manual_config w i = true ->
  (625 < current_per_anode w)%Z ->
  run w = Raised StreamlitAPIException.
Proof.
  intros Hopt Hfirst Htotal Hi Hm Hover. unfold run.
  apply existsb_eqb_In in Hfirst as E. rewrite E. cbn [negb].
  destruct (mapM_total (index (hub_names w)) (selected_link_starts w)) as (indices & ->).
  { intros h Hh. apply index_In, Hopt, Hh. }
  cbn [bind]. rewrite (hub_configuration_refused w _ i Htotal Hi Hm); [ reflexivity | lia ].
Qed.

(** 630 mA as the standard current and manual configuration: the page
    fails, while with 600 mA it shows its report. *)
Lemma manual_page_is_refused :
  run (manual_page 630) = Raised StreamlitAPIException /\
  exists r, run (manual_page 600) = Done r.
Proof.
  split.
  - apply (refused_anode_widget_raises (manual_page 630) 0%nat).
    + intros h [ <- | [] ]. vm_compute. left. reflexivity.
    + left. reflexivity.
    + vm_compute. discriminate.
    + vm_compute. lia.
    + reflexivity.
    + vm_compute. reflexivity.
  - eexists. vm_compute. reflexivity.
Defined.

Lemma Forall2_In_l {A B : Type} (R : A -> B -> Prop) (l : list A) (l' : list B) :
  Forall2 R l l' -> forall a, In a l -> exists b, In b l' /\ R a b.
Proof.
  intros HF a Ha. apply In_nth_error in Ha. destruct Ha as (k & Hk).
  destruct (Forall2_nth_error_l R l l' HF k a Hk) as (b & Hb & HR).
  exists b. split; [ eapply nth_error_In, Hb | exact HR ].
Qed.

Lemma Forall2_In_r {A B : Type} (R : A -> B -> Prop) (l : list A) (l' : list B) :
  Forall2 R l l' -> forall b, In b l' -> exists a, In a l /\ R a b.
Proof.
  intros HF b Hb. apply In_nth_error in Hb. destruct Hb as (k & Hk).
  destruct (Forall2_nth_error_r R l l' HF k b Hk) as (a & Ha & HR).
  exists a. split; [ eapply nth_error_In, Ha | exact HR ].
Qed.

(** The rows of [results] are the rows of the links. *)
Lemma results_in_links (w : widgets) (groups : list (string * list hub)) (p : propagation) :
  propagate w groups = Done p ->
  forall row, In row (results p) <-> exists l, In l (link_results p) /\ In row (snd l).
Proof.
  intros Hp row. destruct (propagate_Done w groups p Hp) as (_ & Hl & Hr).
  rewrite Hr, Hl, in_flat_map. split.
  - intros (kt & Hkt & Hrow). exists (rows_of kt). split; [ apply in_map, Hkt | exact Hrow ].
  - intros (l & Hin & Hrow). apply in_map_iff in Hin. destruct Hin as (kt & <- & Hkt).
    exists kt. split; assumption.
Qed.

(** C5: the system-wide status is VIOLATION ([red]) if and only if the
    status of at least one link is VIOLATION, and it is OK ([green])
    exactly when every link is OK. *)
Theorem system_status_is_violation_iff_some_link (w : widgets) (r : report) :
  run w = Done r ->
  (overall_status_color (report_system r) = red <->
   exists link s, In (link, s) (report_links r) /\ status_color s = red) /\
  (overall_status_color (report_system r) = green <->
   forall link s, In (link, s) (report_links r) -> status_color s = green).
Proof.
  intro Hrun.
  destruct (run_Done w r Hrun) as (_ & indices & _ & _ & _ & Hp & Hl & Hs).
  pose proof (results_in_links w _ _ Hp) as Hres.
  apply mapM_Done in Hl.
  destruct (analyse_system_Done w _ _ _ Hs) as (m & Hm & _ & Hred).
  apply min_Done in Hm.
  assert (Hiff : overall_status_color (report_system r) = red <->
                 exists link s, In (link, s) (report_links r) /\ status_color s = red).
  { rewrite Hred. split.
    - intros [ Hv | (l & Hin & Hc) ].
      + destruct Hm as [Hmin _]. apply in_map_iff in Hmin.
        destruct Hmin as (row & Hrow & Hin). apply Hres in Hin.
        destruct Hin as (l & Hl' & Hin).
        destruct (Forall2_In_l _ _ _ Hl l Hl') as ([link s] & Hls & Ha).
        unfold analysed in Ha. apply bind_Done in Ha. destruct Ha as (s' & Ha & E).
        injection E as _ ->.
        exists link, s. split; [ exact Hls | ].
        destruct (analyse_link_Done w _ _ _ Ha) as (ml & Hml & _ & _ & Hr).
        apply Hr. left. apply min_Done in Hml. destruct Hml as [_ Hle].
        apply Qle_lt_trans with m; [ | exact Hv ].
        rewrite <- Hrow. apply Hle, in_map, Hin.
      + destruct (Forall2_In_l _ _ _ Hl l Hin) as ([link s] & Hls & Ha).
        unfold analysed in Ha. apply bind_Done in Ha. destruct Ha as (s' & Ha & E).
        injection E as _ ->.
        exists link, s. split; [ exact Hls | ].
        destruct (analyse_link_Done w _ _ _ Ha) as (ml & _ & _ & _ & Hr).
        apply Hr. right. exact Hc.
    - intros (link & s & Hls & Hc).
      destruct (Forall2_In_r _ _ _ Hl _ Hls) as (l & Hin & Ha).
      unfold analysed in Ha. apply bind_Done in Ha. destruct Ha as (s' & Ha & E).
      injection E as _ ->.
      destruct (analyse_link_Done w _ _ _ Ha) as (ml & Hml & _ & _ & Hr).
      apply Hr in Hc. destruct Hc as [ Hv | Hc ].
      + left. apply min_Done in Hml. destruct Hml as [Hmin _].
        apply in_map_iff in Hmin. destruct Hmin as (row & Hrow & Hrin).
        apply Qle_lt_trans with ml; [ | exact Hv ].
        destruct Hm as [_ Hle]. apply Hle. rewrite <- Hrow. apply in_map.
        apply Hres. exists l. split; assumption.
      + right. exists l. split; assumption. }
  split; [ exact Hiff | ].
  rewrite <- color_cases, Hiff. split.
  - intros Hno link s Hin. apply color_cases. intro Hc. apply Hno.
    exists link, s. split; assumption.
  - intros Hall (link & s & Hin & Hc). specialize (Hall link s Hin). congruence.
Qed.

Lemma system_status_at_defaults :
  exists r,
    run default_widgets = Done r /\
    (overall_status_color (report_system r) = red <->
     exists link s, In (link, s) (report_links r) /\ status_color s = red) /\
    (overall_status_color (report_system r) = green <->
     forall link s, In (link, s) (report_links r) -> status_color s = green).
Proof.
  eexists. split; [ vm_compute; reflexivity | ].
  apply (system_status_is_violation_iff_some_link default_widgets).
  vm_compute. reflexivity.
Defined.

End StatusClaims.

(** ** Topology builder *)

Section TopologyClaims.
Import Py Main2.
Open Scope Q_scope.

Lemma configure_hubs_log (w : widgets) (la : list string) :
  (1 <= total_anodes w)%Z ->
  anodes_log (configure_hubs w la)
  = repeat 8%Z (Z.to_nat (num_hubs w) - 1)
    ++ [(total_anodes w - 8 * (num_hubs w - 1))%Z].
Proof.
  intro Htotal. pose proof (num_hubs_spec w) as Hn.
  unfold configure_hubs.
  rewrite (hub_loop_log w la (Z.to_nat (num_hubs w) - 1)).
  - cbn [anodes_log remaining_anodes app]. do 2 f_equal. lia.
  - unfold range. rewrite length_seq. lia.
  - cbn [remaining_anodes]. lia.
Qed.



Lemma first_hub_name (w : widgets) :
  (1 <= total_anodes w)%Z -> nth_error (hub_names w) 0 = Some "APWRHUB 1"%string.
Proof.
  intro Htotal. pose proof (num_hubs_spec w) as Hn.
  unfold hub_names, range.
  destruct (Z.to_nat (num_hubs w)) as [ | n ] eqn:E; [ lia | ].
  reflexivity.
Qed.

(** C7: when the hub at index 0 of [hub_names] is not among the
    selected link starts, the script is stopped with the validation
    error before anything is propagated: it ends in [Stopped], never in
    a report, so no result row exists. *)
Theorem first_hub_must_start_a_link (w : widgets) (first : string) :
  nth_error (hub_names w) 0 = Some first ->
  ~ In first (selected_link_starts w) ->
  run w = Stopped "APWRHUB 1 must be included." /\
  forall r, run w <> Done r.
Proof.
  intros Hfirst Hnot.
  assert (E : first = "APWRHUB 1"%string).
  { unfold hub_names, range in Hfirst.
    destruct (Z.to_nat (num_hubs w)); cbn in Hfirst; [ discriminate | ].
    injection Hfirst as <-. reflexivity. }
  subst first.
  assert (Hrun : run w = Stopped "APWRHUB 1 must be included.").
  { unfold run.
    destruct (existsb (String.eqb "APWRHUB 1") (selected_link_starts w)) eqn:Ex.
    - apply existsb_eqb_In in Ex. contradiction.
    - reflexivity. }
  split; [ exact Hrun | ].
  intros r Hr. rewrite Hrun in Hr. discriminate.
Qed.

Lemma second_hub_only_is_stopped :
  run second_hub_only_widgets = Stopped "APWRHUB 1 must be included." /\
  forall r, run second_hub_only_widgets <> Done r.
Proof.
  apply (first_hub_must_start_a_link second_hub_only_widgets "APWRHUB 1").
  - vm_compute. reflexivity.
  - intros [ E | [] ]. discriminate E.
Defined.

End TopologyClaims.

(** ** Percent drop *)

Section PercentClaims.
Import Py Main2.
Open Scope Q_scope.

Lemma main_percent (w : Main.widgets) (hs : list Z) (ds : list Q) (l : list nat) :
  forall s,
    Main.spannungsabfall_prozent s
    = map (fun v => v / Main.max_erlaubter_spannungsabfall * 100)
        (Main.spannung_kumuliert_liste s) ->
    Main.spannungsabfall_prozent (fold_left (Main.berechne_body w hs ds) l s)
    = map (fun v => v / Main.max_erlaubter_spannungsabfall * 100)
        (Main.spannung_kumuliert_liste (fold_left (Main.berechne_body w hs ds) l s)).
Proof.
  induction l as [ | i l IH ]; intros s H; cbn [fold_left]; [ exact H | ].
  apply IH. unfold Main.berechne_body.
  destruct (Nat.eqb i 0);
    cbn [Main.spannungsabfall_prozent Main.spannung_kumuliert_liste];
    rewrite map_app, H; reflexivity.
Qed.

(** C8 as stated fails: in the single-hub scenario the cumulative drop
    is 218.75 mV (raw and as a field) and the reference 48 V, so the
    quotient is 0.4557...%, while the percent field of the row holds
    0.46. *)
Lemma percent_field_is_not_the_quotient :
  exists r t seg0,
    run single_hub_widgets = Done r /\
    link_traces (report_propagation r) = [("APWRLINK 1"%string, t)] /\
    rows t = [seg0] /\
    cumulative_drop_mV t == 218.75 /\
    Cumulative_dVoltage_mV seg0 == 218.75 /\
    dVoltage_percent seg0 == 0.46 /\
    ~ dVoltage_percent seg0
      == (218.75 / 1000) / reference_voltage single_hub_widgets * 100.
Proof.
  eexists. eexists. eexists.
  split; [ vm_compute; reflexivity | ].
  split; [ reflexivity | ].
  split; [ reflexivity | ].
  repeat split; try (vm_compute; reflexivity).
  vm_compute. discriminate.
Qed.

(** C8, amended: for every segment of [src/main2.py] the unrounded
    [percent_drop] handed to the chart is the cumulative drop in volts
    over the reference voltage in volts, times 100 (the script divides
    the drop in mV by [reference_voltage * 1000]), and the percent field
    of the row is that value rounded to two decimals, hence within 0.005
    of it; both up to the margin left for binary64.  Which way a tie
    rounds depends on the binary value: half a metre of 4 mm^2 cable to
    one full hub against a reference of 43.75 V is a share of exactly
    0.025 %, which rounds to 0.02 in exact arithmetic, while binary64
    computes 0.025000000000000005 and the row shows 0.03.  In
    [src/main.py] the percentage is the cumulative drop in volts over
    the fixed limit of 2.0 V, times 100. *)
Theorem percent_drop_is_share_of_reference :
  (forall (w : widgets) (r : report),
      in_bounds w -> practical w -> run w = Done r ->
      forall k link hubs t s,
        link_view r k link hubs t s ->
        exists cs,
          voltage_drop_mV_values t = 0 :: cs /\
          Forall2 (fun p c => near 0 p ((c / 1000) / reference_voltage w * 100))
            (List.tl (percent_values t)) cs /\
          Forall2 (fun row c => near 0.005 (dVoltage_percent row)
                                  ((c / 1000) / reference_voltage w * 100))
            (rows t) cs) /\
  (exists r t seg0 p,
      run (one_hub_at 8 625 0.5 4 43.75 36) = Done r /\
      link_traces (report_propagation r) = [("APWRLINK 1"%string, t)] /\
      rows t = [seg0] /\
      percent_values t = [0; p] /\
      p == 0.025 /\
      dVoltage_percent seg0 == 0.02 /\
      Binary64.percent_drop (Binary64.first_segment 0.5 4 43.75 one_full_hub)
      = 0.025000000000000005%float /\
      Binary64.dVoltage_percent (Binary64.first_segment 0.5 4 43.75 one_full_hub)
      = 0.03%float) /\
  (forall w : Main.widgets,
      let b := Main.report_berechnung (Main.run w) in
      Main.spannungsabfall_prozent b
      = map (fun v => v / Main.max_erlaubter_spannungsabfall * 100)
          (Main.spannung_kumuliert_liste b)).
Proof.
  split; [ | split ].
  - intros w r Hb _ Hrun k link hubs t s Hview.
    destruct (link_view_sound w r Hrun k link hubs t s Hview) as (Hpl & _).
    destruct (propagate_link_series w link hubs t Hpl) as (cs & [Hd _ Hp _ _ Hrp _]).
    pose proof (bound_reference_voltage w Hb) as Href.
    eexists. split; [ exact Hd | ]. split.
    + rewrite Hp. cbn [List.tl].
      apply (Forall2_values_self
               (fun p c => near 0 p (c / 1000 / reference_voltage w * 100))).
      intro c. apply near_eq; [ lra | field; lra ].
    + apply (Forall2_fields_self
               (fun p c => near 0.005 p (c / 1000 / reference_voltage w * 100))
               _ _ _ _ Hrp).
      intro c. apply near_round_2. field. lra.
  - eexists. eexists. eexists. eexists.
    split; [ vm_compute; reflexivity | ].
    split; [ reflexivity | ].
    split; [ reflexivity | ].
    split; [ reflexivity | ].
    repeat split; vm_compute; reflexivity.
  - intros w b. unfold b, Main.run, Main.berechne. cbn [Main.report_berechnung].
    apply main_percent. reflexivity.
Qed.

Lemma percent_drop_of_single_hub :
  exists r link hubs t s,
    in_bounds single_hub_widgets /\
    practical single_hub_widgets /\
    run single_hub_widgets = Done r /\
    link_view r 0 link hubs t s /\
    exists cs,
      voltage_drop_mV_values t = 0 :: cs /\
      Forall2 (fun p c => near 0 p ((c / 1000) / reference_voltage single_hub_widgets * 100))
        (List.tl (percent_values t)) cs /\
      Forall2 (fun row c => near 0.005 (dVoltage_percent row)
                              ((c / 1000) / reference_voltage single_hub_widgets * 100))
        (rows t) cs.
Proof.
  assert (Hb : in_bounds single_hub_widgets).
  { constructor; intros; try split; vm_compute; discriminate. }
  assert (Hp : practical single_hub_widgets).
  { constructor; intros; vm_compute; discriminate. }
  eexists. eexists. eexists. eexists. eexists.
  split; [ exact Hb | ]. split; [ exact Hp | ].
  split; [ vm_compute; reflexivity | ].
  split; [ constructor; reflexivity | ].
  eapply (proj1 percent_drop_is_share_of_reference single_hub_widgets
            _ Hb Hp ?[Hrun] 0%nat).
  [Hrun]: { vm_compute. reflexivity. }
  constructor; reflexivity.
Defined.

End PercentClaims.

(** ** The single-hub scenario *)

Section ScenarioClaims.
Import Py Main2.
Open Scope Q_scope.

(** C9 as stated fails: evaluated in binary64, the resistance of the
    single-hub scenario is not the float 0.04375 and the drop is not the
    float 218.75; both exact values lie above the claimed ones. *)
Lemma resistance_is_not_exact_in_binary64 :
  (Binary64.R (Binary64.first_segment 10 4 48 one_full_hub) =? 0.04375)%float = false /\
  (Binary64.U_drop_mV (Binary64.first_segment 10 4 48 one_full_hub) =? 218.75)%float = false /\
  exists qR qU,
    Binary64.exact (Binary64.R (Binary64.first_segment 10 4 48 one_full_hub)) = Some qR /\
    Binary64.exact (Binary64.U_drop_mV (Binary64.first_segment 10 4 48 one_full_hub)) = Some qU /\
    0.04375 < qR /\ 218.75 < qU.
Proof.
  split; [ vm_compute; reflexivity | ].
  split; [ vm_compute; reflexivity | ].
  eexists. eexists.
  split; [ vm_compute; reflexivity | ].
  split; [ vm_compute; reflexivity | ].
  split; vm_compute; reflexivity.
Qed.

(** C9, amended: for one link with one hub, 10 m from the source, 4
    mm^2, resistivity 0.0175 and 8 x 625 mA = 5 A, the formulas give
    exactly 0.04375 Ohm, 218.75 mV = 0.21875 V and 47.78125 V, shown in
    the row as 0.0438 Ohm, 218.75 mV and 47.78 V.  The binary64
    evaluation yields 0.043750000000000004 Ohm and 218.75000000000003
    mV, each less than 1e-17 resp. 1e-13 above the exact value, and
    exactly 47.78125 V, with the same row fields. *)
Theorem single_hub_scenario :
  (exists r t seg0 c v,
      run single_hub_widgets = Done r /\
      report_link_groups r = [("APWRLINK 1"%string, one_full_hub)] /\
      link_traces (report_propagation r) = [("APWRLINK 1"%string, t)] /\
      rows t = [seg0] /\
      voltage_drop_mV_values t = [0; c] /\
      voltage_values t = [LINK_VOLTAGE; v] /\
      calculate_current one_full_hub 0 == 5 /\
      calculate_resistance (link_input_length single_hub_widgets "APWRLINK 1")
        (cable_area single_hub_widgets) == 0.04375 /\
      c == 218.75 /\ c / 1000 == 0.21875 /\
      v == 47.78125 /\
      Resistance_ohm seg0 == 0.0438 /\
      dVoltage_mV seg0 == 218.75 /\
      Remaining_Voltage_V seg0 == 47.78) /\
  (exists qR qU,
      Binary64.exact (Binary64.R (Binary64.first_segment 10 4 48 one_full_hub)) = Some qR /\
      Binary64.exact (Binary64.U_drop_mV (Binary64.first_segment 10 4 48 one_full_hub))
      = Some qU /\
      0.04375 < qR < 0.04375 + (1 # 10 ^ 17) /\
      218.75 < qU < 218.75 + (1 # 10 ^ 13)) /\
  Binary64.first_segment 10 4 48 one_full_hub
  = {| Binary64.R := 0.043750000000000004;
       Binary64.I_A := 5;
       Binary64.U_drop_mV := 218.75000000000003;
       Binary64.cumulative_drop_mV := 218.75000000000003;
       Binary64.remaining_voltage := 47.78125;
       Binary64.percent_drop := 0.45572916666666669;
       Binary64.Resistance_ohm := 0.0438;
       Binary64.Current_A := 5;
       Binary64.dVoltage_mV := 218.75;
       Binary64.Cumulative_dVoltage_mV := 218.75;
       Binary64.Remaining_Voltage_V := 47.78;
       Binary64.dVoltage_percent := 0.46 |}%float.
Proof.
  split; [ | split ].
  - eexists. eexists. eexists. eexists. eexists.
    split; [ vm_compute; reflexivity | ].
    do 5 (split; [ reflexivity | ]).
    repeat split; vm_compute; reflexivity.
  - eexists. eexists.
    split; [ vm_compute; reflexivity | ].
    split; [ vm_compute; reflexivity | ].
    repeat split; vm_compute; reflexivity.
  - vm_compute. reflexivity.
Qed.

End ScenarioClaims.

(** ** What the status compares *)

Section RoundingClaims.
Import Py Main2.
Open Scope Q_scope.

Lemma calculate_current_milli (hubs : list hub) (i : nat) :
  round (calculate_current hubs i) 3 == calculate_current hubs i.
Proof. unfold calculate_current. apply round_milli. Qed.






End RoundingClaims.

(** ** The loop of [src/main.py] *)

Section MainFacts.
Import Py.
Open Scope Q_scope.

Variable w : Main.widgets.

Lemma main_hub_loop_length (l : list nat) :
  forall s,
    List.length (Main.hub_stroeme (fold_left (Main.hub_body w) l s))
    = (List.length (Main.hub_stroeme s) + List.length l)%nat.
Proof.
  induction l as [ | h l IH ]; intro s; cbn [fold_left List.length]; [ lia | ].
  rewrite IH. unfold Main.hub_body.
  destruct (fold_left (Main.channel_body w h) (seq 1 4) (Main.anoden_counter s, 0%Z)).
  cbn [Main.hub_stroeme]. rewrite length_app. cbn [List.length]. lia.
Qed.

Lemma main_hub_stroeme_length :
  List.length (Main.hub_stroeme (Main.verteile w)) = Z.to_nat (Main.anzahl_hubs w).
Proof.
  unfold Main.verteile. rewrite main_hub_loop_length.
  cbn [Main.hub_stroeme List.length]. apply length_seq.
Qed.

Lemma sum_firstn_S (hs : list Z) (n : nat) :
  (n < List.length hs)%nat ->
  sum (firstn (S n) hs) = (sum (firstn n hs) + nth n hs 0)%Z.
Proof.
  revert n. induction hs as [ | h hs IH ]; intros n Hn; cbn [List.length] in Hn; [ lia | ].
  destruct n as [ | n ].
  - cbn [firstn nth]. rewrite sum_cons. change (sum []) with 0%Z. lia.
  - change (firstn (S (S n)) (h :: hs)) with (h :: firstn (S n) hs).
    change (firstn (S n) (h :: hs)) with (h :: firstn n hs).
    rewrite !sum_cons, IH by lia. cbn [nth]. lia.
Qed.

(** The current of pass [i] is the load of the hubs up to and including
    hub [i], and the first pass has neither resistance nor drop. *)
Lemma main_berechne_prefix (hs : list Z) (ds : list Q) (n : nat) :
  (n <= List.length hs)%nat ->
  let s := fold_left (Main.berechne_body w hs ds) (seq 0 n)
             {| Main.cumulative_current := 0;
                Main.cumulative_voltage := 0.0;
                Main.spannungsabfall_liste := [];
                Main.spannung_kumuliert_liste := [];
                Main.spannungsabfall_mV := [];
                Main.spannungsabfall_prozent := [];
                Main.leitungswiderstaende := [];
                Main.strom_A_log := [] |} in
  Main.cumulative_current s = sum (firstn n hs) /\
  Main.strom_A_log s
  = map (fun i => inject_Z (sum (firstn (S i) hs)) / 1000) (seq 0 n) /\
  ((0 < n)%nat ->
   nth_error (Main.leitungswiderstaende s) 0 = Some 0.0 /\
   nth_error (Main.spannungsabfall_liste s) 0 = Some 0.0).
Proof.
  induction n as [ | n IH ]; intros Hn s.
  - repeat split; lia.
  - unfold s. rewrite seq_S, fold_left_app. cbn [fold_left Nat.add].
    destruct IH as (Hc & Hlog & Hzero); [ lia | ].
    set (s0 := fold_left (Main.berechne_body w hs ds) (seq 0 n) _) in *.
    unfold Main.berechne_body at 1 2 3 4.
    destruct (Nat.eqb n 0) eqn:E;
      cbn [Main.cumulative_current Main.strom_A_log Main.leitungswiderstaende
           Main.spannungsabfall_liste];
      rewrite Hc, Hlog, map_app, <- sum_firstn_S by lia; cbn [map].
    + apply Nat.eqb_eq in E. subst n. repeat split.
    + apply Nat.eqb_neq in E. split; [ reflexivity | ]. split; [ reflexivity | ].
      intros _. destruct Hzero as [H1 H2]; [ lia | ].
      split; (rewrite nth_error_app1; [ assumption | apply nth_error_Some; congruence ]).
Qed.

End MainFacts.

(** ** The rows of a link pass *)

Section Segments.
Import Py Main2.
Open Scope Q_scope.

Variable w : widgets.

Lemma hub_to_hub_static (link_id : string) (hubs : list hub) (d : hub) (l : list nat) :
  Forall (fun i => 0 < i)%nat l ->
  forall t,
    map static (rows (fold_left (hub_to_hub w link_id hubs d) l t))
    = map static (rows t) ++ map (hub_segment w hubs d) l.
Proof.
  induction 1 as [ | i l Hi _ IH ]; intro t; cbn [fold_left map].
  - rewrite app_nil_r. reflexivity.
  - rewrite IH. unfold hub_to_hub at 1.
    apply Nat.ltb_lt in Hi. rewrite Hi.
    cbn [segment rows]. rewrite map_app, <- app_assoc. reflexivity.
Qed.

Lemma propagate_link_static (link_id : string) (hubs : list hub) (t : link_trace) :
  propagate_link w link_id hubs = Done t ->
  exists hub0 tl,
    hubs = hub0 :: tl /\
    map static (rows t)
    = ("APWRLINK"%string, hub_name hub0, link_input_length w link_id,
       round (calculate_resistance (link_input_length w link_id) (cable_area w)) 4,
       round (calculate_current hubs 0) 3)
      :: map (hub_segment w hubs hub0) (seq 1 (List.length tl)).
Proof.
  destruct hubs as [ | hub0 tl ]; [ discriminate | ].
  cbn [propagate_link]. cbv zeta. intro H. injection H as <-.
  cbn [List.length]. unfold range. cbn [seq fold_left]. rewrite hub_to_hub_0.
  rewrite hub_to_hub_static by apply seq_positive.
  exists hub0, tl. split; reflexivity.
Qed.

(** Row [i] of a link pass. *)
Lemma propagate_link_row (link_id : string) (hubs : list hub) (t : link_trace) :
  propagate_link w link_id hubs = Done t ->
  List.length (rows t) = List.length hubs /\
  forall i hub_i,
    nth_error hubs i = Some hub_i ->
    exists row,
      nth_error (rows t) i = Some row /\
      To row = hub_name hub_i /\
      From row = match i with
                 | O => "APWRLINK"%string
                 | S i' => hub_name (nth i' hubs hub_i)
                 end /\
      Current_A row = round (calculate_current hubs i) 3.
Proof.
  intro H. destruct (propagate_link_static link_id hubs t H) as (hub0 & tl & -> & Hs).
  split.
  - apply (f_equal (@List.length _)) in Hs.
    rewrite length_map in Hs. cbn [List.length] in Hs.
    rewrite length_map, length_seq in Hs. exact Hs.
  - intros i hub_i Hi.
    assert (Hnth : nth_error (map static (rows t)) i
                   = nth_error (("APWRLINK"%string, hub_name hub0,
                                 link_input_length w link_id,
                                 round (calculate_resistance (link_input_length w link_id)
                                          (cable_area w)) 4,
                                 round (calculate_current (hub0 :: tl) 0) 3)
                                :: map (hub_segment w (hub0 :: tl) hub0)
                                     (seq 1 (List.length tl))) i)
      by (rewrite Hs; reflexivity).
    rewrite nth_error_map in Hnth.
    destruct (nth_error (rows t) i) as [ row | ] eqn:Hrow; cbn [option_map] in Hnth.
    2: { destruct i as [ | i ]; cbn [nth_error] in Hnth; [ discriminate | ].
         assert (Hlt : (i < List.length tl)%nat)
           by (apply nth_error_Some; cbn [nth_error] in Hi; congruence).
         rewrite nth_error_map, nth_error_seq in Hnth.
         apply Nat.ltb_lt in Hlt. rewrite Hlt in Hnth. discriminate. }
    exists row. split; [ reflexivity | ].
    destruct i as [ | i ]; cbn [nth_error] in Hi, Hnth.
    + injection Hi as <-. unfold static in Hnth. injection Hnth as HF HT _ _ HC.
      repeat split; assumption.
    + assert (Hlt : (i < List.length tl)%nat) by (apply nth_error_Some; congruence).
      rewrite nth_error_map, nth_error_seq in Hnth.
      apply Nat.ltb_lt in Hlt as Hb. rewrite Hb in Hnth. cbn [option_map] in Hnth.
      unfold static, hub_segment in Hnth.
      injection Hnth as HF HT _ _ HC.
      rewrite Nat.sub_0_r in HF.
      change (hub_name match i with O => hub0 | S m => nth m tl hub0 end)
        with (hub_name (nth i (hub0 :: tl) hub0)) in HF.
      rewrite (nth_error_nth _ _ _ Hi) in HT.
      split; [ exact HT | ]. split; [ | exact HC ].
      rewrite HF. f_equal. apply nth_indep. cbn [List.length]. lia.
Qed.

Lemma sum_skipn_le (xs : list Z) (i j : nat) :
  Forall (fun x => 0 <= x)%Z xs -> (i <= j)%nat ->
  (sum (skipn j xs) <= sum (skipn i xs))%Z.
Proof.
  intros Hpos Hij.
  replace j with (j - i + i)%nat by lia. rewrite <- skipn_skipn.
  assert (Hpos' : Forall (fun x => 0 <= x)%Z (skipn i xs)).
  { apply Forall_forall. intros x Hx. rewrite Forall_forall in Hpos.
    apply Hpos. rewrite <- (firstn_skipn i xs). apply in_or_app. right. exact Hx. }
  revert Hpos'. generalize (skipn i xs) as ys, (j - i)%nat as n. clear.
  intros ys n Hpos. rewrite <- (firstn_skipn n ys) at 2. rewrite sum_app.
  assert (0 <= sum (firstn n ys))%Z; [ | lia ].
  apply sum_nonneg. apply Forall_forall. intros x Hx. rewrite Forall_forall in Hpos.
  apply Hpos. rewrite <- (firstn_skipn n ys). apply in_or_app. left. exact Hx.
Qed.

End Segments.

(** ** Segment currents and the source segment in [src/main2.py] *)

Section SegmentClaims.
Import Py Main2.
Open Scope Q_scope.

(** X1 (C1 on [src/main2.py]): for every link, the rows are one per hub,
    row [i] leads to hub [i] (from the source for [i = 0], from hub
    [i - 1] otherwise), and its current is the sum of the currents of
    hubs [i..end] of the link, in amperes; for [i = 0] that is the sum
    over all hubs of the link. *)
Theorem segment_current_is_downstream_load (w : widgets) (r : report) :
  run w = Done r ->
  forall k link hubs t s,
    link_view r k link hubs t s ->
    List.length (rows t) = List.length hubs /\
    forall i hub_i,
      nth_error hubs i = Some hub_i ->
      exists row,
        nth_error (rows t) i = Some row /\
        To row = hub_name hub_i /\
        From row = match i with
                   | O => "APWRLINK"%string
                   | S i' => hub_name (nth i' hubs hub_i)
                   end /\
        Current_A row == inject_Z (sum (map current_mA (skipn i hubs))) / 1000.
Proof.
  intros Hrun k link hubs t s Hview.
  destruct (link_view_sound w r Hrun k link hubs t s Hview) as (Hpl & _).
  destruct (propagate_link_row w link hubs t Hpl) as (Hlen & Hrow).
  split; [ exact Hlen | ].
  intros i hub_i Hi. destruct (Hrow i hub_i Hi) as (row & Hn & HT & HF & HC).
  exists row. repeat split; try assumption.
  rewrite HC. apply calculate_current_milli.
Qed.

Lemma segment_currents_at_defaults :
  exists r link hubs t s,
    run default_widgets = Done r /\
    link_view r 0 link hubs t s /\
    List.length (rows t) = List.length hubs /\
    forall i hub_i,
      nth_error hubs i = Some hub_i ->
      exists row,
        nth_error (rows t) i = Some row /\
        To row = hub_name hub_i /\
        From row = match i with
                   | O => "APWRLINK"%string
                   | S i' => hub_name (nth i' hubs hub_i)
                   end /\
        Current_A row == inject_Z (sum (map current_mA (skipn i hubs))) / 1000.
Proof.
  eexists. eexists. eexists. eexists. eexists.
  split; [ vm_compute; reflexivity | ].
  split; [ constructor; reflexivity | ].
  eapply (segment_current_is_downstream_load default_widgets _ ?[Hrun] 0%nat).
  [Hrun]: { vm_compute. reflexivity. }
  constructor; reflexivity.
Defined.

(** X3 (C3 on [src/main2.py]): for every link whose hub currents are
    all non-negative, the first row carries the full load of the link
    and the current of a later row is at most the current of an earlier
    one. *)
Theorem segment_currents_do_not_increase (w : widgets) (r : report) :
  run w = Done r ->
  forall k link hubs t s,
    link_view r k link hubs t s ->
    Forall (fun h => 0 <= current_mA h)%Z hubs ->
    (exists seg0 rest,
        rows t = seg0 :: rest /\
        Current_A seg0 == inject_Z (sum (map current_mA hubs)) / 1000) /\
    forall i j row_i row_j,
      (i <= j)%nat ->
      nth_error (rows t) i = Some row_i ->
      nth_error (rows t) j = Some row_j ->
      Current_A row_j <= Current_A row_i.
Proof.
  intros Hrun k link hubs t s Hview Hpos.
  destruct (link_view_sound w r Hrun k link hubs t s Hview) as (Hpl & _).
  destruct (propagate_link_row w link hubs t Hpl) as (Hlen & Hrow).
  split.
  - destruct hubs as [ | hub0 tl ]; [ discriminate Hpl | ].
    destruct (Hrow 0%nat hub0 eq_refl) as (row & Hn & _ & _ & HC).
    destruct (rows t) as [ | seg0 rest ]; [ discriminate | ].
    injection Hn as ->. exists row, rest. split; [ reflexivity | ].
    rewrite HC. apply calculate_current_milli.
  - intros i j row_i row_j Hij Hi Hj.
    assert (Hjl : (j < List.length hubs)%nat)
      by (rewrite <- Hlen; apply nth_error_Some; congruence).
    destruct (nth_error hubs i) as [ hub_i | ] eqn:Ei;
      [ | apply nth_error_None in Ei; lia ].
    destruct (nth_error hubs j) as [ hub_j | ] eqn:Ej;
      [ | apply nth_error_None in Ej; lia ].
    destruct (Hrow i hub_i Ei) as (ri & Hri & _ & _ & HCi).
    destruct (Hrow j hub_j Ej) as (rj & Hrj & _ & _ & HCj).
    rewrite Hi in Hri. injection Hri as <-.
    rewrite Hj in Hrj. injection Hrj as <-.
    rewrite HCi, HCj, !calculate_current_milli. unfold calculate_current.
    apply Qmult_le_compat_r; [ | apply Qinv_le_0_compat; lra ].
    rewrite <- Zle_Qle. rewrite <- !skipn_map. apply sum_skipn_le; [ | exact Hij ].
    apply Forall_map. exact Hpos.
Qed.

Lemma segment_currents_decrease_at_defaults :
  exists r link hubs t s,
    run default_widgets = Done r /\
    link_view r 0 link hubs t s /\
    Forall (fun h => 0 <= current_mA h)%Z hubs /\
    (exists seg0 rest,
        rows t = seg0 :: rest /\
        Current_A seg0 == inject_Z (sum (map current_mA hubs)) / 1000) /\
    forall i j row_i row_j,
      (i <= j)%nat ->
      nth_error (rows t) i = Some row_i ->
      nth_error (rows t) j = Some row_j ->
      Current_A row_j <= Current_A row_i.
Proof.
  eexists. eexists. eexists. eexists. eexists.
  split; [ vm_compute; reflexivity | ].
  split; [ constructor; reflexivity | ].
  split; [ repeat constructor; vm_compute; discriminate | ].
  eapply (segment_currents_do_not_increase default_widgets _ ?[Hrun] 0%nat).
  [Hrun]: { vm_compute. reflexivity. }
  - constructor; reflexivity.
  - repeat constructor; vm_compute; discriminate.
Defined.

End SegmentClaims.

(** ** Segment currents and the source segment in [src/main.py] *)

Section MainDivergence.
Import Py.
Open Scope Q_scope.

(** [src/main.py], for every input: pass [i] multiplies the resistance
    with the load of hubs [0..i], and the first pass has no drop. *)
Lemma main_current_is_upstream_load (w : Main.widgets) :
  let v := Main.report_verteilung (Main.run w) in
  let b := Main.report_berechnung (Main.run w) in
  Main.strom_A_log b
  = map (fun i => inject_Z (sum (firstn (S i) (Main.hub_stroeme v))) / 1000)
      (range (Z.to_nat (Main.anzahl_hubs w))) /\
  ((0 < Main.anzahl_hubs w)%Z ->
   nth_error (Main.leitungswiderstaende b) 0 = Some 0.0 /\
   nth_error (Main.spannungsabfall_liste b) 0 = Some 0.0).
Proof.
  intros v b. unfold b, v, Main.run, Main.berechne. cbn [Main.report_berechnung Main.report_verteilung].
  destruct (main_berechne_prefix w (Main.hub_stroeme (Main.verteile w))
              (Main.hub_distanzen (Main.verteile w)) (Z.to_nat (Main.anzahl_hubs w)))
    as (_ & Hlog & Hzero).
  - rewrite main_hub_stroeme_length. apply Nat.le_refl.
  - split; [ exact Hlog | ]. intro Hn. apply Hzero. lia.
Qed.

(** C1 on [src/main.py]: with two full hubs of 5000 mA each, the pass
    for the segment from the source works with 5 A and the pass for the
    second segment with 10 A, where the downstream loads the claim
    prescribes are 10 A and 5 A. *)
Theorem main_segment_current_is_upstream_sum :
  Main.hub_stroeme (Main.report_verteilung (Main.run (full_load 16))) = [5000; 5000]%Z /\
  Forall2 Qeq (Main.strom_A_log (Main.report_berechnung (Main.run (full_load 16)))) [5; 10] /\
  Forall2 Qeq
    (map (fun i => inject_Z (sum (skipn i [5000; 5000]%Z)) / 1000) (range 2)) [10; 5].
Proof.
  split; [ reflexivity | ].
  split.
  - destruct (main_current_is_upstream_load (full_load 16)) as [Hlog _].
    rewrite Hlog. vm_compute. repeat constructor.
  - vm_compute. repeat constructor.
Qed.

(** C2 on [src/main.py]: with one full hub 10 m from the source and a
    current of 5 A, resistance and drop of the segment from the source
    are both 0.0, where the formula of the other segments gives a
    non-zero drop. *)
Theorem main_source_segment_has_no_drop :
  Main.hub_distanzen (Main.report_verteilung (Main.run (full_load 8))) = [10] /\
  Forall2 Qeq (Main.strom_A_log (Main.report_berechnung (Main.run (full_load 8)))) [5] /\
  Main.leitungswiderstaende (Main.report_berechnung (Main.run (full_load 8))) = [0.0] /\
  Main.spannungsabfall_liste (Main.report_berechnung (Main.run (full_load 8))) = [0.0] /\
  ~ (2 * 10) / (Main.leitfaehigkeit_kupfer * Main.leitung_querschnitt (full_load 8)) * 5
    == 0.
Proof.
  split; [ reflexivity | ].
  split; [ vm_compute; repeat constructor | ].
  split; [ reflexivity | ].
  split; [ reflexivity | ].
  vm_compute. discriminate.
Qed.

(** C3 on [src/main.py]: with three full hubs the currents of the
    passes are 5 A, 10 A and 15 A: they grow along the chain. *)
Theorem main_segment_currents_increase :
  exists i0 i1 i2,
    Main.strom_A_log (Main.report_berechnung (Main.run (full_load 24))) = [i0; i1; i2] /\
    i0 == 5 /\ i1 == 10 /\ i2 == 15 /\ i0 < i1 /\ i1 < i2.
Proof.
  eexists. eexists. eexists.
  split; [ vm_compute; reflexivity | ].
  repeat split; vm_compute; reflexivity.
Qed.

End MainDivergence.

(** ** Topology of [src/main2.py]: names, link assignment, groups *)

Section Names.
Import Py Main2.

Lemma str_inj (a b : nat) : str a = str b -> a = b.
Proof.
  unfold str. intro H.
  apply (f_equal NilEmpty.uint_of_string) in H.
  rewrite !NilEmpty.usu in H. injection H as H.
  apply (f_equal Nat.of_uint) in H. rewrite !DecimalNat.Unsigned.of_to in H. exact H.
Qed.

Lemma append_inj (p s1 s2 : string) : (p ++ s1 = p ++ s2)%string -> s1 = s2.
Proof.
  induction p as [ | c p IH ]; cbn [String.append]; intro H; [ exact H | ].
  injection H as H. apply IH, H.
Qed.

Lemma index_map_seq (f : nat -> string) (a n i : nat) :
  (forall x y, f x = f y -> x = y) ->
  (a <= i < a + n)%nat ->
  index (map f (seq a n)) (f i) = Done (i - a)%nat.
Proof.
  intros Hinj. revert a. induction n as [ | n IH ]; intros a Hi; [ lia | ].
  cbn [seq map index].
  destruct (String.eqb (f a) (f i)) eqn:E.
  - apply String.eqb_eq, Hinj in E. subst. rewrite Nat.sub_diag. reflexivity.
  - assert (a <> i) by (intros ->; rewrite String.eqb_refl in E; discriminate).
    rewrite IH by lia. cbn [bind]. f_equal. lia.
Qed.

End Names.

Section Assignments.
Import Py Main2.

Lemma existsb_nat_In (i : nat) (l : list nat) : existsb (Nat.eqb i) l = true <-> In i l.
Proof.
  rewrite existsb_exists. split.
  - intros (j & Hj & E). apply Nat.eqb_eq in E. subst. exact Hj.
  - intro H. exists i. split; [ exact H | apply Nat.eqb_refl ].
Qed.

Lemma starts_upto_S (si : list nat) (i : nat) :
  starts_upto si (S i)
  = (starts_upto si i + if existsb (Nat.eqb (S i)) si then 1 else 0)%nat.
Proof.
  unfold starts_upto. rewrite seq_S, filter_app, length_app. cbn [Nat.add filter].
  destruct (existsb (Nat.eqb (S i)) si); reflexivity.
Qed.

Lemma starts_upto_mono (si : list nat) (i j : nat) :
  (i <= j)%nat -> (starts_upto si i <= starts_upto si j)%nat.
Proof.
  induction 1 as [ | j _ IH ]; [ apply Nat.le_refl | ].
  rewrite starts_upto_S. lia.
Qed.

Lemma link_fold (si : list nat) (n : nat) :
  fold_left (link_body si) (seq 0 n) (1%nat, [])
  = (S (starts_upto si (n - 1)),
     map (fun i => ("APWRLINK " ++ str (S (starts_upto si i)))%string) (seq 0 n)).
Proof.
  induction n as [ | n IH ]; [ reflexivity | ].
  rewrite seq_S, fold_left_app, IH. cbn [fold_left Nat.add].
  unfold link_body. rewrite map_app. cbn [map].
  replace (S n - 1)%nat with n by lia.
  destruct n as [ | n ].
  - change (Nat.eqb 0 0) with true. cbn [negb Nat.sub]. rewrite andb_false_r. reflexivity.
  - change (Nat.eqb (S n) 0) with false. cbn [negb]. rewrite andb_true_r.
    replace (S n - 1)%nat with n by lia.
    rewrite starts_upto_S.
    destruct (existsb (Nat.eqb (S n)) si); rewrite ?Nat.add_0_r, ?Nat.add_1_r; reflexivity.
Qed.

Lemma link_assignments_closed (w : widgets) (si : list nat) :
  link_assignments w si
  = map (fun i => ("APWRLINK " ++ str (S (starts_upto si i)))%string)
      (range (Z.to_nat (num_hubs w))).
Proof. unfold link_assignments, range. rewrite link_fold. reflexivity. Qed.

End Assignments.

Section Hubs.
Import Py Main2.

Lemma In_insert_sorted (x y : nat) (l : list nat) :
  In y (insert_sorted x l) <-> y = x \/ In y l.
Proof.
  induction l as [ | z l IH ]; cbn [insert_sorted].
  - cbn. intuition.
  - destruct (Nat.leb x z); cbn [In]; [ intuition | ].
    rewrite IH. intuition.
Qed.

Lemma In_sorted (y : nat) (l : list nat) : In y (sorted l) <-> In y l.
Proof.
  unfold sorted. induction l as [ | x l IH ]; cbn [fold_right]; [ reflexivity | ].
  rewrite In_insert_sorted, IH. cbn [In]. intuition.
Qed.

Lemma hub_name_inj (i j : nat) :
  ("APWRHUB " ++ str (i + 1))%string = ("APWRHUB " ++ str (j + 1))%string -> i = j.
Proof. intro H. apply append_inj, str_inj in H. lia. Qed.

Lemma index_hub_name (w : widgets) (i : nat) :
  (i < Z.to_nat (num_hubs w))%nat ->
  index (hub_names w) ("APWRHUB " ++ str (i + 1))%string = Done i.
Proof.
  intro Hi. unfold hub_names, range.
  rewrite (index_map_seq (fun i => ("APWRHUB " ++ str (i + 1))%string) 0 _ i hub_name_inj)
    by lia.
  f_equal. lia.
Qed.

Lemma In_hub_names (w : widgets) (h : string) :
  In h (hub_names w) <->
  exists i, (i < Z.to_nat (num_hubs w))%nat /\ h = ("APWRHUB " ++ str (i + 1))%string.
Proof.
  unfold hub_names, range. rewrite in_map_iff. split.
  - intros (i & <- & Hi). apply in_seq in Hi. exists i. split; [ lia | reflexivity ].
  - intros (i & Hi & ->). exists i. split; [ reflexivity | apply in_seq; lia ].
Qed.

Lemma index_Done (xs : list string) (x : string) :
  forall i, index xs x = Done i -> nth_error xs i = Some x.
Proof.
  induction xs as [ | y xs IH ]; intros i H; cbn [index] in H; [ discriminate | ].
  destruct (String.eqb y x) eqn:E.
  - injection H as <-. apply String.eqb_eq in E. subst. reflexivity.
  - apply bind_Done in H. destruct H as (k & Hk & H). injection H as <-.
    cbn [nth_error]. apply IH, Hk.
Qed.

Lemma nth_error_hub_names (w : widgets) (i : nat) (h : string) :
  nth_error (hub_names w) i = Some h ->
  (i < Z.to_nat (num_hubs w))%nat /\ h = ("APWRHUB " ++ str (i + 1))%string.
Proof.
  unfold hub_names, range. intro H.
  assert (Hi : (i < Z.to_nat (num_hubs w))%nat).
  { assert (Hs : nth_error (map (fun i => ("APWRHUB " ++ str (i + 1))%string)
                              (seq 0 (Z.to_nat (num_hubs w)))) i <> None) by congruence.
    apply nth_error_Some in Hs. rewrite length_map, length_seq in Hs. exact Hs. }
  split; [ exact Hi | ].
  rewrite nth_error_map, nth_error_seq in H.
  apply Nat.ltb_lt in Hi. rewrite Hi in H. cbn in H. injection H as <-. reflexivity.
Qed.

(** The indices computed from the selection are the positions of the
    selected names. *)
Lemma start_indices_spec (w : widgets) (indices : list nat) :
  mapM (index (hub_names w)) (selected_link_starts w) = Done indices ->
  forall j, (j < Z.to_nat (num_hubs w))%nat ->
    existsb (Nat.eqb j) (sorted indices)
    = existsb (String.eqb ("APWRHUB " ++ str (j + 1))) (selected_link_starts w).
Proof.
  intros Hm j Hj. apply mapM_Done in Hm.
  apply eq_true_iff_eq. rewrite existsb_nat_In, In_sorted, existsb_eqb_In. split.
  - intro Hin. destruct (Forall2_In_r _ _ _ Hm j Hin) as (h & Hh & Hidx).
    apply index_Done, nth_error_hub_names in Hidx. destruct Hidx as (_ & ->). exact Hh.
  - intro Hin. destruct (Forall2_In_l _ _ _ Hm _ Hin) as (k & Hk & Hidx).
    rewrite (index_hub_name w j Hj) in Hidx. injection Hidx as <-. exact Hk.
Qed.

Lemma starts_upto_selected (w : widgets) (indices : list nat) (i : nat) :
  mapM (index (hub_names w)) (selected_link_starts w) = Done indices ->
  (i < Z.to_nat (num_hubs w))%nat ->
  starts_upto (sorted indices) i = selected_upto (selected_link_starts w) i.
Proof.
  intros Hm Hi. unfold starts_upto, selected_upto. f_equal.
  apply filter_ext_in. intros j Hj. apply in_seq in Hj.
  apply (start_indices_spec w indices Hm). lia.
Qed.

(** The hub loop, pass by pass. *)
Lemma hub_loop_data (w : widgets) (la : list string) (l : list nat) :
  forall s,
    exists placed,
      List.length placed = List.length l /\
      anodes_log (fold_left (hub_body w la) l s) = anodes_log s ++ placed /\
      hub_data (fold_left (hub_body w la) l s)
      = hub_data s ++ map (fun p => hub_of w la (fst p) (snd p)) (combine l placed).
Proof.
  induction l as [ | i l IH ]; intro s; cbn [fold_left].
  - exists []. rewrite !app_nil_r. repeat split.
  - destruct (IH (hub_body w la s i)) as (placed & Hlen & Hlog & Hdata).
    exists (Z.min ANODES_PER_HUB (remaining_anodes s) :: placed).
    split; [ cbn [List.length]; lia | ].
    rewrite Hlog, Hdata. cbn [hub_body anodes_log hub_data combine map fst snd].
    rewrite <- !app_assoc. split; reflexivity.
Qed.

Lemma configure_hubs_data (w : widgets) (la : list string) :
  (1 <= total_anodes w)%Z ->
  hub_data (configure_hubs w la)
  = map (fun p => hub_of w la (fst p) (snd p))
      (combine (range (Z.to_nat (num_hubs w)))
         (repeat 8%Z (Z.to_nat (num_hubs w) - 1)
          ++ [(total_anodes w - 8 * (num_hubs w - 1))%Z])).
Proof.
  intro Htotal. pose proof (configure_hubs_log w la Htotal) as Hlog.
  unfold configure_hubs in *.
  destruct (hub_loop_data w la (range (Z.to_nat (num_hubs w)))
              {| remaining_anodes := total_anodes w; hub_data := []; anodes_log := [] |})
    as (placed & _ & Hl & Hd).
  cbn [anodes_log hub_data app] in Hl, Hd. rewrite Hd. rewrite <- Hlog, Hl. reflexivity.
Qed.

End Hubs.

Section Grouping.
Import Py Main2.

Lemma append_hub_keys (link : string) (h : hub) (groups : list (string * list hub)) :
  map fst (append_hub link h groups)
  = if existsb (String.eqb link) (map fst groups)
    then map fst groups else map fst groups ++ [link].
Proof.
  induction groups as [ | [k hs] groups IH ]; cbn [append_hub map existsb fst app];
    [ reflexivity | ].
  rewrite (String.eqb_sym link k).
  destruct (String.eqb k link); cbn [orb map fst]; [ reflexivity | ].
  rewrite IH. destruct (existsb (String.eqb link) (map fst groups)); reflexivity.
Qed.

Lemma append_hub_new (link : string) (h : hub) (groups : list (string * list hub)) :
  ~ In link (map fst groups) -> append_hub link h groups = groups ++ [(link, [h])].
Proof.
  induction groups as [ | [k hs] groups IH ]; cbn [append_hub map fst In app]; intro Hn;
    [ reflexivity | ].
  destruct (String.eqb k link) eqn:E.
  - apply String.eqb_eq in E. exfalso. apply Hn. left. exact E.
  - rewrite IH; [ reflexivity | ]. intro Hin. apply Hn. right. exact Hin.
Qed.

Lemma append_hub_last (link : string) (h : hub) (groups : list (string * list hub))
  (hs : list hub) :
  ~ In link (map fst groups) ->
  append_hub link h (groups ++ [(link, hs)]) = groups ++ [(link, hs ++ [h])].
Proof.
  induction groups as [ | [k hs'] groups IH ]; cbn [append_hub map fst In app]; intro Hn.
  - rewrite String.eqb_refl. reflexivity.
  - destruct (String.eqb k link) eqn:E.
    + apply String.eqb_eq in E. exfalso. apply Hn. left. exact E.
    + rewrite IH; [ reflexivity | ]. intro Hin. apply Hn. right. exact Hin.
Qed.

Lemma append_hub_well_keyed (h : hub) (groups : list (string * list hub)) :
  well_keyed groups -> well_keyed (append_hub (link_id h) h groups).
Proof.
  induction groups as [ | [k hs] groups IH ]; intro Hw; cbn [append_hub].
  - intros k' hs' [ E | [] ]. injection E as <- <-. split; [ discriminate | ].
    intros h' [ <- | [] ]. reflexivity.
  - assert (Hw' : well_keyed groups).
    { intros k' hs' Hin. apply Hw. right. exact Hin. }
    destruct (String.eqb k (link_id h)) eqn:E.
    + apply String.eqb_eq in E. intros k' hs' [ E' | Hin ].
      * injection E' as <- <-. split.
        -- intro E0. apply app_eq_nil in E0. destruct E0 as [_ E0]. discriminate.
        -- intros h' Hh'. apply in_app_or in Hh'. destruct Hh' as [ Hh' | [ <- | [] ] ].
           ++ apply (Hw k hs); [ left; reflexivity | exact Hh' ].
           ++ symmetry. exact E.
      * apply Hw. right. exact Hin.
    + intros k' hs' [ E' | Hin ].
      * apply Hw. left. exact E'.
      * apply (IH Hw'). exact Hin.
Qed.

Lemma append_hub_NoDup (link : string) (h : hub) (groups : list (string * list hub)) :
  NoDup (map fst groups) -> NoDup (map fst (append_hub link h groups)).
Proof.
  intro Hnd. rewrite append_hub_keys.
  destruct (existsb (String.eqb link) (map fst groups)) eqn:E; [ exact Hnd | ].
  apply NoDup_app; [ exact Hnd | constructor; [ intros [] | constructor ] | ].
  intros k Hk [ Ek | [] ]. subst k.
  assert (Ht : existsb (String.eqb link) (map fst groups) = true)
    by (apply existsb_eqb_In; exact Hk).
  congruence.
Qed.

Lemma group_fold_keys (data : list hub) :
  forall groups,
    well_keyed groups -> NoDup (map fst groups) ->
    well_keyed (fold_left (fun g h => append_hub (link_id h) h g) data groups) /\
    NoDup (map fst (fold_left (fun g h => append_hub (link_id h) h g) data groups)).
Proof.
  induction data as [ | h data IH ]; intros groups Hw Hnd; cbn [fold_left].
  - split; assumption.
  - apply IH; [ apply append_hub_well_keyed, Hw | apply append_hub_NoDup, Hnd ].
Qed.

(** Hubs whose links are numbered in non-decreasing order are grouped
    into consecutive runs. *)
Lemma group_fold_sorted (label : nat -> string) :
  (forall a b, label a = label b -> a = b) ->
  forall (data : list hub) (nums : list nat) (groups : list (string * list hub)) (M : nat),
    map link_id data = map label nums ->
    StronglySorted le nums ->
    (forall x, In x nums -> M <= x)%nat ->
    NoDup (map fst groups) ->
    (forall k, In k (map fst groups) -> exists m, (m <= M)%nat /\ k = label m) ->
    (forall g k hs, groups = g ++ [(k, hs)] -> k = label M) ->
    List.concat (map snd (fold_left (fun g h => append_hub (link_id h) h g) data groups))
    = List.concat (map snd groups) ++ data.
Proof.
  intros Hinj. induction data as [ | h data IH ];
    intros nums groups M Hmap Hsort Hlow Hnd Hkeys Hlast; cbn [fold_left].
  - rewrite app_nil_r. reflexivity.
  - destruct nums as [ | x nums ]; [ discriminate Hmap | ].
    cbn [map] in Hmap. injection Hmap as Hx Hmap.
    apply StronglySorted_inv in Hsort. destruct Hsort as [Hsort Hall].
    rewrite Forall_forall in Hall.
    assert (HMx : (M <= x)%nat) by (apply Hlow; left; reflexivity).
    destruct (in_dec string_dec (link_id h) (map fst groups)) as [ Hin | Hnin ].
    + (* the link of [h] is the last one opened *)
      destruct (Hkeys _ Hin) as (m & Hm & Em).
      assert (m = x) by (apply Hinj; congruence). subst m.
      assert (x = M) by lia. subst x.
      destruct (exists_last (l := groups)) as (g & [k hs] & Eg);
        [ intro E; rewrite E in Hin; destruct Hin | ].
      pose proof (Hlast g k hs Eg) as Ek. subst groups.
      assert (Elk : link_id h = k) by congruence.
      assert (Hnd' : NoDup (map fst g ++ [k])).
      { rewrite map_app in Hnd. exact Hnd. }
      assert (Hnk : ~ In k (map fst g)).
      { apply NoDup_remove_2 in Hnd'. rewrite app_nil_r in Hnd'. exact Hnd'. }
      rewrite Elk, append_hub_last by exact Hnk.
      rewrite (IH nums _ M Hmap Hsort).
      * rewrite !map_app, !concat_app. cbn [map snd List.concat].
        rewrite !app_nil_r, <- !app_assoc. reflexivity.
      * intros y Hy. apply Hall, Hy.
      * rewrite map_app. exact Hnd'.
      * intros k' Hk'. apply Hkeys. rewrite map_app in *. exact Hk'.
      * intros g' k' hs' E. apply app_inj_tail in E. destruct E as [_ E].
        injection E as <- _. exact Ek.
    + (* a link not seen before *)
      rewrite append_hub_new by exact Hnin.
      rewrite (IH nums _ x Hmap Hsort).
      * rewrite !map_app, !concat_app. cbn [map snd List.concat].
        rewrite !app_nil_r, <- !app_assoc. reflexivity.
      * intros y Hy. apply Hall, Hy.
      * rewrite map_app. cbn [map fst]. apply NoDup_app; [ exact Hnd | | ].
        -- constructor; [ intros [] | constructor ].
        -- intros k Hk [ Ek | [] ]. subst k. exact (Hnin Hk).
      * intros k Hk. rewrite map_app in Hk. cbn [map fst] in Hk.
        apply in_app_or in Hk. destruct Hk as [ Hk | [ <- | [] ] ].
        -- destruct (Hkeys k Hk) as (m & Hm & ->). exists m. split; [ lia | reflexivity ].
        -- exists x. split; [ lia | exact Hx ].
      * intros g k hs E. apply app_inj_tail in E. destruct E as [_ E].
        injection E as <- _. exact Hx.
Qed.

End Grouping.

Section TopologyFacts.
Import Py Main2.

Lemma map_fst_combine {A B C : Type} (f : A -> C) (l : list A) (l' : list B) :
  List.length l' = List.length l ->
  map (fun p => f (fst p)) (combine l l') = map f l.
Proof.
  revert l'. induction l as [ | a l IH ]; intros [ | b l' ] H; cbn in *; try lia;
    [ reflexivity | ].
  f_equal. apply IH. lia.
Qed.

Lemma sorted_map_seq (f : nat -> nat) (a n : nat) :
  (forall i j, (i <= j)%nat -> (f i <= f j)%nat) ->
  StronglySorted le (map f (seq a n)).
Proof.
  intro Hmono. revert a. induction n as [ | n IH ]; intro a; cbn [seq map]; constructor.
  - apply IH.
  - apply Forall_forall. intros y Hy. apply in_map_iff in Hy.
    destruct Hy as (j & <- & Hj). apply in_seq in Hj. apply Hmono. lia.
Qed.

Lemma configure_hubs_links (w : widgets) (la : list string) :
  map link_id (hub_data (configure_hubs w la))
  = map (fun i => nth i la EmptyString) (range (Z.to_nat (num_hubs w))).
Proof.
  unfold configure_hubs.
  destruct (hub_loop_data w la (range (Z.to_nat (num_hubs w)))
              {| remaining_anodes := total_anodes w; hub_data := []; anodes_log := [] |})
    as (placed & Hlen & _ & Hd).
  rewrite Hd. cbn [hub_data app]. rewrite map_map. cbn [hub_of link_id].
  apply (map_fst_combine (fun i => nth i la EmptyString)). exact Hlen.
Qed.

Lemma nth_map_seq (f : nat -> string) (n i : nat) :
  (i < n)%nat -> nth i (map f (seq 0 n)) EmptyString = f i.
Proof.
  intro Hi. rewrite (nth_indep _ EmptyString (f 0%nat)) by (rewrite length_map, length_seq; lia).
  rewrite map_nth, seq_nth by lia. reflexivity.
Qed.

(** The links of the hubs of a run, by hub index. *)
Lemma run_hub_links (w : widgets) (r : report) :
  run w = Done r ->
  exists indices,
    mapM (index (hub_names w)) (selected_link_starts w) = Done indices /\
    map link_id (report_hub_data r)
    = map (fun i => ("APWRLINK " ++ str (S (starts_upto (sorted indices) i)))%string)
        (range (Z.to_nat (num_hubs w))).
Proof.
  intro Hrun. destruct (run_Done w r Hrun) as (_ & indices & Hi & Hd & _).
  exists indices. split; [ exact Hi | ].
  rewrite Hd, configure_hubs_links, link_assignments_closed.
  apply map_ext_in. intros i Hin. apply in_seq in Hin.
  apply nth_map_seq. lia.
Qed.

Lemma run_links_partition (w : widgets) (r : report) :
  run w = Done r ->
  List.concat (map snd (report_link_groups r)) = report_hub_data r /\
  NoDup (map fst (report_link_groups r)) /\
  forall link hubs,
    In (link, hubs) (report_link_groups r) ->
    hubs <> [] /\ forall h, In h hubs -> link_id h = link.
Proof.
  intro Hrun.
  destruct (run_Done w r Hrun) as (_ & _ & _ & _ & Hg & _).
  destruct (run_hub_links w r Hrun) as (indices & _ & Hlinks).
  rewrite Hg. unfold group_hubs.
  destruct (group_fold_keys (report_hub_data r) []) as [Hw Hnd];
    [ intros k hs [] | constructor | ].
  split; [ | split; [ exact Hnd | exact Hw ] ].
  rewrite (group_fold_sorted (fun m => ("APWRLINK " ++ str m)%string)
             (fun a b H => str_inj a b (append_inj _ _ _ H))
             (report_hub_data r)
             (map (fun i => S (starts_upto (sorted indices) i))
                (range (Z.to_nat (num_hubs w)))) [] 0%nat).
  - reflexivity.
  - rewrite Hlinks, map_map. reflexivity.
  - apply sorted_map_seq. intros i j Hij.
    apply le_n_S, starts_upto_mono, Hij.
  - intros x _. lia.
  - constructor.
  - intros k [].
  - intros g k hs E. destruct g; discriminate E.
Qed.

End TopologyFacts.

Section TopologyExtras.
Import Py Main2.

Lemma index_Raised (xs : list string) (x : string) :
  ~ In x xs -> index xs x = Raised ValueError.
Proof.
  induction xs as [ | y xs IH ]; intro Hn; cbn [index]; [ reflexivity | ].
  destruct (String.eqb y x) eqn:E.
  - apply String.eqb_eq in E. exfalso. apply Hn. left. exact E.
  - rewrite IH; [ reflexivity | ]. intro H. apply Hn. right. exact H.
Qed.

(** X4: hub names are pairwise distinct, so [hub_names.index] finds the
    [i]-th name at position [i]; a name that is no hub name raises
    [ValueError]. *)
Theorem hub_name_lookup (w : widgets) (i : nat) :
  (i < Z.to_nat (num_hubs w))%nat ->
  nth_error (hub_names w) i = Some ("APWRHUB " ++ str (i + 1))%string /\
  index (hub_names w) ("APWRHUB " ++ str (i + 1))%string = Done i /\
  NoDup (hub_names w) /\
  forall h, ~ In h (hub_names w) -> index (hub_names w) h = Raised ValueError.
Proof.
  intro Hi. split; [ | split; [ apply index_hub_name, Hi | split ] ].
  - unfold hub_names, range. rewrite nth_error_map, nth_error_seq.
    apply Nat.ltb_lt in Hi. rewrite Hi. reflexivity.
  - unfold hub_names, range. apply Injective_map_NoDup; [ | apply seq_NoDup ].
    intros a b Hab. apply hub_name_inj, Hab.
  - intros h Hn. apply index_Raised, Hn.
Qed.

Lemma hub_name_lookup_at_defaults :
  nth_error (hub_names default_widgets) 2 = Some "APWRHUB 3"%string /\
  index (hub_names default_widgets) "APWRHUB 3" = Done 2%nat.
Proof.
  assert (H : (2 < Z.to_nat (num_hubs default_widgets))%nat) by (vm_compute; lia).
  destruct (hub_name_lookup default_widgets 2 H) as (H1 & H2 & _).
  split; [ exact H1 | exact H2 ].
Defined.

Lemma selected_upto_S (selection : list string) (i : nat) :
  selected_upto selection (S i)
  = (selected_upto selection i
     + if existsb (String.eqb ("APWRHUB " ++ str (S i + 1))) selection then 1 else 0)%nat.
Proof.
  unfold selected_upto. rewrite seq_S, filter_app, length_app. f_equal.
  change (1 + i)%nat with (S i). cbn [filter].
  destruct (existsb (String.eqb ("APWRHUB " ++ str (S i + 1))) selection); reflexivity.
Qed.

(** X5: in a finished run, hub [i] is named "APWRHUB i+1", keeps the
    distance entered for it, and belongs to the link numbered one plus
    the number of selected hubs at indices 1..i: the first hub is in
    "APWRLINK 1", and a hub is in the link of its predecessor exactly
    when it was not selected as a link start. *)
Theorem hubs_follow_the_selection (w : widgets) (r : report) :
  run w = Done r ->
  List.length (report_hub_data r) = Z.to_nat (num_hubs w) /\
  (forall i h,
      nth_error (report_hub_data r) i = Some h ->
      hub_name h = ("APWRHUB " ++ str (i + 1))%string /\
      distance h = distance_input w i /\
      link_id h
      = ("APWRLINK " ++ str (S (selected_upto (selected_link_starts w) i)))%string) /\
  (forall h, nth_error (report_hub_data r) 0 = Some h -> link_id h = "APWRLINK 1"%string) /\
  (forall i h h',
      nth_error (report_hub_data r) i = Some h ->
      nth_error (report_hub_data r) (S i) = Some h' ->
      (link_id h' = link_id h <->
       ~ In ("APWRHUB " ++ str (S i + 1))%string (selected_link_starts w))).
Proof.
  intro Hrun.
  destruct (run_Done w r Hrun) as (_ & indices & Hi & Hd & _).
  destruct (run_hub_links w r Hrun) as (indices' & Hi' & Hlinks).
  rewrite Hi in Hi'. injection Hi' as <-.
  assert (Hlen : List.length (report_hub_data r) = Z.to_nat (num_hubs w))
    by (rewrite Hd; apply configure_hubs_length).
  assert (Hfields : forall i h,
             nth_error (report_hub_data r) i = Some h ->
             hub_name h = ("APWRHUB " ++ str (i + 1))%string /\
             distance h = distance_input w i /\
             link_id h
             = ("APWRLINK " ++ str (S (selected_upto (selected_link_starts w) i)))%string).
  { intros i h Hh.
    assert (Hlt : (i < Z.to_nat (num_hubs w))%nat)
      by (rewrite <- Hlen; apply nth_error_Some; congruence).
    split; [ | split ].
    - rewrite Hd in Hh. unfold configure_hubs in Hh.
      destruct (hub_loop_data w (link_assignments w (sorted indices))
                  (range (Z.to_nat (num_hubs w)))
                  {| remaining_anodes := total_anodes w; hub_data := [];
                     anodes_log := [] |}) as (placed & Hpl & _ & Hdata).
      rewrite Hdata in Hh. cbn [hub_data app] in Hh.
      rewrite nth_error_map in Hh.
      destruct (nth_error (combine (range (Z.to_nat (num_hubs w))) placed) i)
        as [ [j a] | ] eqn:Ec; [ | discriminate ].
      cbn in Hh. injection Hh as <-. cbn [hub_of hub_name fst].
      apply nth_error_nth with (d := (0%nat, 0%Z)) in Ec.
      rewrite combine_nth in Ec by (symmetry; exact Hpl).
      injection Ec as Ej _. unfold range in Ej. rewrite seq_nth in Ej by lia.
      subst j. reflexivity.
    - rewrite Hd in Hh. unfold configure_hubs in Hh.
      destruct (hub_loop_data w (link_assignments w (sorted indices))
                  (range (Z.to_nat (num_hubs w)))
                  {| remaining_anodes := total_anodes w; hub_data := [];
                     anodes_log := [] |}) as (placed & Hpl & _ & Hdata).
      rewrite Hdata in Hh. cbn [hub_data app] in Hh.
      rewrite nth_error_map in Hh.
      destruct (nth_error (combine (range (Z.to_nat (num_hubs w))) placed) i)
        as [ [j a] | ] eqn:Ec; [ | discriminate ].
      cbn in Hh. injection Hh as <-. cbn [hub_of distance fst].
      apply nth_error_nth with (d := (0%nat, 0%Z)) in Ec.
      rewrite combine_nth in Ec by (symmetry; exact Hpl).
      injection Ec as Ej _. unfold range in Ej. rewrite seq_nth in Ej by lia.
      subst j. reflexivity.
    - apply (map_nth_error link_id) in Hh. rewrite Hlinks in Hh.
      unfold range in Hh. rewrite nth_error_map, nth_error_seq in Hh.
      apply Nat.ltb_lt in Hlt as Hb. rewrite Hb in Hh. cbn [option_map Nat.add] in Hh.
      injection Hh as <-. rewrite (starts_upto_selected w indices i Hi Hlt). reflexivity. }
  split; [ exact Hlen | ]. split; [ exact Hfields | ]. split.
  - intros h Hh. destruct (Hfields 0%nat h Hh) as (_ & _ & ->). reflexivity.
  - intros i h h' Hh Hh'.
    destruct (Hfields i h Hh) as (_ & _ & ->).
    destruct (Hfields (S i) h' Hh') as (_ & _ & ->).
    rewrite selected_upto_S.
    destruct (existsb (String.eqb ("APWRHUB " ++ str (S i + 1))) (selected_link_starts w))
      eqn:E.
    + apply existsb_eqb_In in E as Hin. split.
      * intro Heq. apply append_inj, str_inj in Heq. lia.
      * intro Hn. contradiction.
    + rewrite Nat.add_0_r. split; [ | reflexivity ].
      intros _ Hin. apply existsb_eqb_In in Hin. congruence.
Qed.

End TopologyExtras.

Section PartitionExtras.
Import Py Main2.

(** X6: in a finished run the links partition the hubs: the hub lists of
    [link_groups], one after the other, are [hub_data] in its order; no
    link id occurs twice; every link has at least one hub and holds only
    hubs assigned to it. *)
Theorem links_partition_the_hubs (w : widgets) (r : report) :
  run w = Done r ->
  List.concat (map snd (report_link_groups r)) = report_hub_data r /\
  NoDup (map fst (report_link_groups r)) /\
  forall link hubs,
    In (link, hubs) (report_link_groups r) ->
    hubs <> [] /\ forall h, In h hubs -> link_id h = link.
Proof.
  intro Hrun.
  destruct (run_Done w r Hrun) as (_ & _ & _ & _ & Hg & _).
  destruct (run_hub_links w r Hrun) as (indices & _ & Hlinks).
  rewrite Hg. unfold group_hubs.
  destruct (group_fold_keys (report_hub_data r) []) as [Hw Hnd];
    [ intros k hs [] | constructor | ].
  split; [ | split; [ exact Hnd | exact Hw ] ].
  rewrite (group_fold_sorted (fun m => ("APWRLINK " ++ str m)%string)
             (fun a b H => str_inj a b (append_inj _ _ _ H))
             (report_hub_data r)
             (map (fun i => S (starts_upto (sorted indices) i))
                (range (Z.to_nat (num_hubs w)))) [] 0%nat).
  - reflexivity.
  - rewrite Hlinks, map_map. reflexivity.
  - apply sorted_map_seq. intros i j Hij.
    apply le_n_S, starts_upto_mono, Hij.
  - intros x _. lia.
  - constructor.
  - intros k [].
  - intros g k hs E. destruct g; discriminate E.
Qed.

Lemma links_partition_at_defaults :
  exists r,
    run default_widgets = Done r /\
    List.concat (map snd (report_link_groups r)) = report_hub_data r /\
    NoDup (map fst (report_link_groups r)).
Proof.
  eexists. split; [ vm_compute; reflexivity | ].
  edestruct (links_partition_the_hubs default_widgets) as (H1 & H2 & _);
    [ vm_compute; reflexivity | ].
  split; [ exact H1 | exact H2 ].
Defined.

Lemma hubs_follow_the_selection_at_defaults :
  exists r,
    run default_widgets = Done r /\
    List.length (report_hub_data r) = Z.to_nat (num_hubs default_widgets) /\
    forall h, nth_error (report_hub_data r) 0 = Some h -> link_id h = "APWRLINK 1"%string.
Proof.
  eexists. split; [ vm_compute; reflexivity | ].
  edestruct (hubs_follow_the_selection default_widgets) as (H1 & _ & H3 & _);
    [ vm_compute; reflexivity | ].
  split; [ exact H1 | exact H3 ].
Defined.

End PartitionExtras.

Section CurrentExtras.
Import Py Main2.


Lemma hub_of_nonneg (w : widgets) (la : list string) (i : nat) (a : Z) :
  (0 <= current_per_anode w)%Z -> (forall j k, 0 <= curr w j k)%Z ->
  (0 <= current_mA (hub_of w la i a))%Z.
Proof.
  intros Hc Hcurr. cbn [hub_of current_mA]. apply sum_nonneg.
  destruct (manual_config w i); apply Forall_forall; intros x Hx.
  - apply in_map_iff in Hx. destruct Hx as (k & <- & _). apply Hcurr.
  - apply repeat_spec in Hx. subst x. exact Hc.
Qed.




End CurrentExtras.

(** ** Drops along a link *)

Section Running.
Import Py Main2.
Open Scope Q_scope.

Variable w : widgets.

Lemma hub_to_hub_running (link_id : string) (hubs : list hub) (d : hub) (l : list nat) :
  Forall (fun i => 0 < i)%nat l ->
  forall t cs,
    series w t cs ->
    series w (fold_left (hub_to_hub w link_id hubs d) l t)
      (cs ++ running (cumulative_drop_mV t) (map (segment_drop_mV w link_id hubs d) l)).
Proof.
  induction 1 as [ | i l Hi _ IH ]; intros t cs H; cbn [fold_left map running].
  - rewrite app_nil_r. exact H.
  - unfold hub_to_hub at 2. apply Nat.ltb_lt in Hi as Hb. rewrite Hb.
    eapply segment_series in H. apply IH in H.
    rewrite <- app_assoc in H. cbn [app segment cumulative_drop_mV] in H.
    destruct i as [ | i ]; [ lia | ]. exact H.
Qed.

Lemma hub_to_hub_drops (link_id : string) (hubs : list hub) (d : hub) (l : list nat) :
  Forall (fun i => 0 < i)%nat l ->
  forall t,
    map dVoltage_mV (rows (fold_left (hub_to_hub w link_id hubs d) l t))
    = map dVoltage_mV (rows t)
      ++ map (fun i => round (segment_drop_mV w link_id hubs d i) 2) l.
Proof.
  induction 1 as [ | i l Hi _ IH ]; intro t; cbn [fold_left map].
  - rewrite app_nil_r. reflexivity.
  - rewrite IH. unfold hub_to_hub at 1. apply Nat.ltb_lt in Hi as Hb. rewrite Hb.
    cbn [segment rows]. rewrite map_app, <- app_assoc. cbn [map app dVoltage_mV].
    destruct i as [ | i ]; [ lia | ]. reflexivity.
Qed.

Lemma propagate_link_running (link_id : string) (hubs : list hub) (t : link_trace) :
  propagate_link w link_id hubs = Done t ->
  exists hub0 tl,
    hubs = hub0 :: tl /\
    series w t
      (running 0.0 (map (segment_drop_mV w link_id hubs hub0) (range (List.length hubs)))) /\
    map dVoltage_mV (rows t)
    = map (fun i => round (segment_drop_mV w link_id hubs hub0 i) 2)
        (range (List.length hubs)).
Proof.
  destruct hubs as [ | hub0 tl ]; [ discriminate | ].
  cbn [propagate_link]. cbv zeta. intro H. injection H as <-.
  exists hub0, tl. split; [ reflexivity | ].
  cbn [List.length]. unfold range. cbn [seq fold_left map running]. rewrite hub_to_hub_0.
  split.
  - match goal with |- context [fold_left ?f ?l (segment w ?a ?b ?c ?d ?e ?g ?t0)] =>
      assert (H0 : series w t0 []) by (constructor; reflexivity);
      apply (segment_series w a b c d e g) in H0;
      apply (hub_to_hub_running link_id (hub0 :: tl) hub0 l (seq_positive _)) in H0
    end.
    exact H0.
  - rewrite hub_to_hub_drops by apply seq_positive. reflexivity.
Qed.

End Running.

Section Monotone.
Import Py Main2.
Open Scope Q_scope.

Lemma round_half_even_floor (q : Q) :
  (Qfloor q <= round_half_even q <= Qfloor q + 1)%Z.
Proof.
  unfold round_half_even.
  destruct (q - inject_Z (Qfloor q) ?= 1 # 2); [ destruct (Z.even (Qfloor q)) | | ]; lia.
Qed.

Lemma round_half_even_mono (x y : Q) :
  x <= y -> (round_half_even x <= round_half_even y)%Z.
Proof.
  intro Hxy. pose proof (Qfloor_resp_le x y Hxy) as Hf.
  destruct (Z.eq_dec (Qfloor x) (Qfloor y)) as [ E | N ].
  - unfold round_half_even. rewrite E.
    destruct (x - inject_Z (Qfloor y) ?= 1 # 2) eqn:Ex;
      destruct (y - inject_Z (Qfloor y) ?= 1 # 2) eqn:Ey;
      try rewrite <- Qeq_alt in Ex; try rewrite <- Qlt_alt in Ex;
      try rewrite <- Qgt_alt in Ex;
      try rewrite <- Qeq_alt in Ey; try rewrite <- Qlt_alt in Ey;
      try rewrite <- Qgt_alt in Ey;
      try (destruct (Z.even (Qfloor y))); try lia; exfalso; lra.
  - pose proof (round_half_even_floor x). pose proof (round_half_even_floor y). lia.
Qed.

Lemma round_mono (x y : Q) (n : nat) : x <= y -> round x n <= round y n.
Proof.
  intro Hxy. unfold round.
  assert (Hp : 0 < inject_Z (10 ^ Z.of_nat n)).
  { change 0 with (inject_Z 0). rewrite <- Zlt_Qlt. apply Z.pow_pos_nonneg; lia. }
  apply Qmult_le_compat_r; [ | apply Qinv_le_0_compat, Qlt_le_weak, Hp ].
  rewrite <- Zle_Qle. apply round_half_even_mono.
  apply Qmult_le_compat_r; [ exact Hxy | apply Qlt_le_weak, Hp ].
Qed.

Lemma running_ge (ds : list Q) :
  Forall (fun d => 0 <= d) ds ->
  forall acc, Forall (Qle acc) (running acc ds).
Proof.
  induction 1 as [ | d ds Hd _ IH ]; intro acc; cbn [running]; constructor.
  - lra.
  - eapply Forall_impl; [ | apply IH ]. cbn beta. intros a Ha. lra.
Qed.

Lemma running_sorted (ds : list Q) :
  Forall (fun d => 0 <= d) ds ->
  forall acc, StronglySorted Qle (running acc ds).
Proof.
  induction 1 as [ | d ds Hd Hds IH ]; intro acc; cbn [running]; constructor.
  - apply IH.
  - apply running_ge, Hds.
Qed.

Lemma sorted_map (R S : Q -> Q -> Prop) (f : Q -> Q) (xs : list Q) :
  (forall a b, R a b -> S (f a) (f b)) ->
  StronglySorted R xs -> StronglySorted S (map f xs).
Proof.
  intros Hf. induction 1 as [ | a l _ IH Ha ]; cbn [map]; constructor.
  - exact IH.
  - apply Forall_map. eapply Forall_impl; [ | exact Ha ]. intros b. apply Hf.
Qed.

Lemma sorted_nth (R : Q -> Q -> Prop) (xs : list Q) :
  StronglySorted R xs ->
  forall i j x y,
    (i < j)%nat -> nth_error xs i = Some x -> nth_error xs j = Some y -> R x y.
Proof.
  induction 1 as [ | a l _ IH Ha ]; intros i j x y Hij Hi Hj.
  - destruct i; discriminate.
  - destruct j as [ | j ]; [ lia | ]. cbn [nth_error] in Hj.
    destruct i as [ | i ]; cbn [nth_error] in Hi.
    + injection Hi as <-. rewrite Forall_forall in Ha. apply Ha.
      eapply nth_error_In, Hj.
    + apply (IH i j); [ lia | assumption | assumption ].
Qed.

Lemma sorted_non_decreasing (xs : list Q) : StronglySorted Qle xs -> non_decreasing xs.
Proof.
  intros H i j x y Hij Hi Hj.
  destruct (Nat.eq_dec i j) as [ -> | N ].
  - rewrite Hi in Hj. injection Hj as <-. apply Qle_refl.
  - apply (sorted_nth Qle xs H i j); [ lia | assumption | assumption ].
Qed.

Lemma sorted_non_increasing (xs : list Q) :
  StronglySorted (fun a b => b <= a) xs -> non_increasing xs.
Proof.
  intros H i j x y Hij Hi Hj.
  destruct (Nat.eq_dec i j) as [ -> | N ].
  - rewrite Hi in Hj. injection Hj as <-. apply Qle_refl.
  - apply (sorted_nth (fun a b => b <= a) xs H i j); [ lia | assumption | assumption ].
Qed.

Lemma calculate_current_nonneg (hubs : list hub) (i : nat) :
  Forall (fun h => 0 <= current_mA h)%Z hubs -> 0 <= calculate_current hubs i.
Proof.
  intro Hpos. unfold calculate_current.
  apply Qle_shift_div_l; [ reflexivity | ]. rewrite Qmult_0_l.
  change 0 with (inject_Z 0). rewrite <- Zle_Qle. apply sum_nonneg.
  apply Forall_map. apply Forall_forall. intros h Hh. rewrite Forall_forall in Hpos.
  apply Hpos. rewrite <- (firstn_skipn i hubs). apply in_or_app. right. exact Hh.
Qed.

Lemma calculate_resistance_nonneg (L A : Q) :
  0 <= L -> 0 < A -> 0 <= calculate_resistance L A.
Proof.
  intros HL HA. unfold calculate_resistance, COPPER_RESISTIVITY.
  apply Qle_shift_div_l; [ exact HA | ]. lra.
Qed.

Lemma segment_drop_nonneg (w : widgets) (link_id : string) (hubs : list hub) (d : hub)
  (i : nat) :
  0 < cable_area w -> 0 <= link_input_length w link_id ->
  Forall (fun h => 0 <= distance h) hubs ->
  Forall (fun h => 0 <= current_mA h)%Z hubs ->
  (i < List.length hubs)%nat ->
  0 <= segment_drop_mV w link_id hubs d i.
Proof.
  intros HA HL Hd Hc Hi. unfold segment_drop_mV.
  assert (H1 := calculate_current_nonneg hubs i Hc).
  assert (H2 : 0 <= calculate_resistance (segment_length w link_id hubs d i) (cable_area w)).
  { apply calculate_resistance_nonneg; [ | exact HA ].
    destruct i as [ | i ]; [ exact HL | ]. cbn [segment_length].
    rewrite Forall_forall in Hd. apply Hd, nth_In, Hi. }
  assert (H3 := Qmult_le_0_compat _ _ H1 H2).
  set (x := calculate_current hubs i
            * calculate_resistance (segment_length w link_id hubs d i) (cable_area w)) in *.
  lra.
Qed.

End Monotone.

Section Extremes.
Import Py Main2.
Open Scope Q_scope.

Lemma fold_max_spec (xs : list Q) (x : Q) :
  is_max (fold_left (fun m y => if ltb m y then y else m) xs x) (x :: xs).
Proof.
  revert x. induction xs as [ | y ys IH ]; intro x; cbn [fold_left].
  - split; [ left; reflexivity | ].
    intros z [ <- | [] ]. apply Qle_refl.
  - destruct (ltb x y) eqn:E.
    + destruct (IH y) as [Hin Hle]. apply ltb_lt in E. split.
      * destruct Hin as [ <- | Hin ]; [ right; left; reflexivity | right; right; exact Hin ].
      * intros z [ <- | [ <- | Hz ] ].
        -- apply Qle_trans with y; [ apply Qlt_le_weak, E | apply Hle; left; reflexivity ].
        -- apply Hle. left. reflexivity.
        -- apply Hle. right. exact Hz.
    + destruct (IH x) as [Hin Hle]. apply ltb_ge in E. split.
      * destruct Hin as [ <- | Hin ]; [ left; reflexivity | right; right; exact Hin ].
      * intros z [ <- | [ <- | Hz ] ].
        -- apply Hle. left. reflexivity.
        -- apply Qle_trans with x; [ exact E | apply Hle; left; reflexivity ].
        -- apply Hle. right. exact Hz.
Qed.

Lemma max_Done (xs : list Q) (m : Q) : max xs = Done m -> is_max m xs.
Proof.
  destruct xs as [ | x xs ]; cbn [max]; [ discriminate | ].
  intro H. injection H as <-. apply fold_max_spec.
Qed.

(** Every field of the status of a link. *)
Lemma analyse_link_fields (w : widgets) (link_id : string) (link_data : list result_row)
  (s : link_status) :
  analyse_link w link_id link_data = Done s ->
  is_min (link_min_voltage s) (map Remaining_Voltage_V link_data) /\
  is_max (link_max_drop_percent s) (map dVoltage_percent link_data) /\
  is_max (link_max_drop_mV s) (map Cumulative_dVoltage_mV link_data) /\
  link_current s = first_link_current link_data /\
  status_message s
  = (if ltb (max_link_current w) (link_current s)
     then Current_exceeds_maximum link_id (link_current s) (max_link_current w)
     else if ltb (link_min_voltage s) (min_voltage w)
          then Voltage_below_minimum link_id (min_voltage w)
          else System_OK link_id) /\
  problem_nodes s
  = (if ltb (link_min_voltage s) (min_voltage w)
     then map To (filter (fun row => ltb (Remaining_Voltage_V row) (min_voltage w)) link_data)
     else []).
Proof.
  unfold analyse_link. intro H.
  apply bind_Done in H. destruct H as (m & Hm & H).
  apply bind_Done in H. destruct H as (p & Hp & H).
  apply bind_Done in H. destruct H as (d & Hd & H).
  injection H as <-.
  cbn [link_min_voltage link_max_drop_percent link_max_drop_mV link_current
       status_message problem_nodes].
  split; [ apply min_Done, Hm | ]. split; [ apply max_Done, Hp | ].
  split; [ apply max_Done, Hd | ]. split; [ reflexivity | ]. split; [ | reflexivity ].
  destruct (ltb (max_link_current w) (first_link_current link_data));
    destruct (ltb m (min_voltage w)); reflexivity.
Qed.

Lemma min_of_non_increasing (xs : list Q) (m l : Q) :
  non_increasing xs -> is_min m xs ->
  nth_error xs (List.length xs - 1) = Some l -> m == l.
Proof.
  intros Hmono [Hin Hle] Hl. apply Qle_antisym.
  - apply Hle. eapply nth_error_In, Hl.
  - apply In_nth_error in Hin. destruct Hin as (i & Hi).
    apply (Hmono i (List.length xs - 1)%nat m l); [ | exact Hi | exact Hl ].
    assert (i < List.length xs)%nat by (apply nth_error_Some; congruence). lia.
Qed.

Lemma max_of_non_decreasing (xs : list Q) (m l : Q) :
  non_decreasing xs -> is_max m xs ->
  nth_error xs (List.length xs - 1) = Some l -> m == l.
Proof.
  intros Hmono [Hin Hle] Hl. apply Qle_antisym.
  - apply In_nth_error in Hin. destruct Hin as (i & Hi).
    apply (Hmono i (List.length xs - 1)%nat m l); [ | exact Hi | exact Hl ].
    assert (i < List.length xs)%nat by (apply nth_error_Some; congruence). lia.
  - apply Hle. eapply nth_error_In, Hl.
Qed.

(** A filter that, once it lets a row through, lets every later row
    through keeps a tail of the list. *)
Lemma filter_tail {A : Type} (p : A -> bool) (l : list A) :
  (forall i j x y,
      (i <= j)%nat -> nth_error l i = Some x -> nth_error l j = Some y ->
      p x = true -> p y = true) ->
  exists n, filter p l = skipn n l.
Proof.
  induction l as [ | a l IH ]; intro Hmono.
  - exists 0%nat. reflexivity.
  - cbn [filter]. destruct (p a) eqn:E.
    + exists 0%nat. cbn [skipn]. f_equal.
      apply forallb_filter_id. apply forallb_forall. intros y Hy.
      apply In_nth_error in Hy. destruct Hy as (j & Hj).
      apply (Hmono 0%nat (S j) a y); [ lia | reflexivity | exact Hj | exact E ].
    + destruct IH as (n & Hn).
      * intros i j x y Hij Hi Hj. apply (Hmono (S i) (S j)); [ lia | exact Hi | exact Hj ].
      * exists (S n). exact Hn.
Qed.

Lemma map_nth_range {A B : Type} (f : A -> B) (l : list A) (d : A) :
  map (fun i => f (nth i l d)) (seq 0 (List.length l)) = map f l.
Proof.
  induction l as [ | a l IH ]; [ reflexivity | ].
  cbn [List.length seq map nth]. f_equal.
  rewrite <- seq_shift, map_map. exact IH.
Qed.

Lemma propagate_link_to (w : widgets) (link_id : string) (hubs : list hub) (t : link_trace) :
  propagate_link w link_id hubs = Done t -> map To (rows t) = map hub_name hubs.
Proof.
  intro H. destruct (propagate_link_static w link_id hubs t H) as (hub0 & tl & -> & Hs).
  apply (f_equal (map (fun x : string * string * Q * Q * Q => snd (fst (fst (fst x)))))) in Hs.
  rewrite map_map in Hs. cbn [map fst snd] in Hs. rewrite map_map in Hs.
  unfold static, hub_segment in Hs. cbn [fst snd] in Hs.
  change (map (fun x : result_row => To x) (rows t)) with (map To (rows t)) in Hs.
  rewrite Hs. cbn [map]. f_equal.
  rewrite <- seq_shift, map_map. cbn [nth]. apply map_nth_range.
Qed.

End Extremes.

Section Bounds.
Import Py Main2.
Open Scope Q_scope.

Lemma bounded_hub_data (w : widgets) (r : report) :
  in_bounds w -> run w = Done r ->
  Forall (fun h => 0 <= distance h) (report_hub_data r) /\
  Forall (fun h => 0 <= current_mA h)%Z (report_hub_data r).
Proof.
  intros Hb Hrun. destruct (run_Done w r Hrun) as (_ & indices & _ & Hd & _).
  rewrite Hd, configure_hubs_data by apply Hb.
  split; apply Forall_forall; intros h Hh; apply in_map_iff in Hh;
    destruct Hh as ([i a] & <- & _).
  - cbn [hub_of distance fst]. pose proof (bound_distance w Hb i) as H. lra.
  - apply hub_of_nonneg.
    + pose proof (bound_current_per_anode w Hb). lia.
    + intros j k. apply (bound_curr w Hb).
Qed.

Lemma bounded_group (w : widgets) (r : report) (link : string) (hubs : list hub) :
  in_bounds w -> run w = Done r ->
  In (link, hubs) (report_link_groups r) ->
  Forall (fun h => 0 <= distance h) hubs /\
  Forall (fun h => 0 <= current_mA h)%Z hubs.
Proof.
  intros Hb Hrun Hin.
  destruct (bounded_hub_data w r Hb Hrun) as [Hd Hc].
  destruct (run_links_partition w r Hrun) as (Hcat & _).
  assert (Hsub : forall h, In h hubs -> In h (report_hub_data r)).
  { intros h Hh. rewrite <- Hcat. apply in_concat. exists hubs. split; [ | exact Hh ].
    apply in_map_iff. exists (link, hubs). split; [ reflexivity | exact Hin ]. }
  rewrite Forall_forall in Hd, Hc.
  split; apply Forall_forall; intros h Hh; [ apply Hd | apply Hc ]; apply Hsub, Hh.
Qed.

Lemma running_length (ds : list Q) :
  forall acc, List.length (running acc ds) = List.length ds.
Proof.
  induction ds as [ | d ds IH ]; intro acc; cbn [running List.length]; [ | rewrite IH ];
    reflexivity.
Qed.

(** The series of a link within the bounds of the widgets. *)
Lemma bounded_series (w : widgets) (link : string) (hubs : list hub) (t : link_trace) :
  0 < cable_area w -> 0 < reference_voltage w -> 0 <= link_input_length w link ->
  Forall (fun h => 0 <= distance h) hubs ->
  Forall (fun h => 0 <= current_mA h)%Z hubs ->
  propagate_link w link hubs = Done t ->
  exists cs,
    series w t cs /\ List.length cs = List.length hubs /\
    StronglySorted Qle (0 :: cs).
Proof.
  intros HA HR HL Hd Hc Hpl.
  destruct (propagate_link_running w link hubs t Hpl) as (hub0 & tl & E & Hs & _).
  eexists. split; [ exact Hs | ].
  assert (Hpos : Forall (fun d => 0 <= d)
                   (map (segment_drop_mV w link hubs hub0) (range (List.length hubs)))).
  { apply Forall_map, Forall_forall. intros i Hi. apply in_seq in Hi.
    apply segment_drop_nonneg; try assumption. lia. }
  split.
  - rewrite running_length, length_map. unfold range. apply length_seq.
  - constructor.
    + apply running_sorted, Hpos.
    + eapply Forall_impl; [ | apply (running_ge _ Hpos 0.0) ].
      cbn beta. intros a Ha. lra.
Qed.

End Bounds.

Section MonotoneSeries.
Import Py Main2.
Open Scope Q_scope.

Lemma sorted_tail (R : Q -> Q -> Prop) (a : Q) (xs : list Q) :
  StronglySorted R (a :: xs) -> StronglySorted R xs.
Proof. intro H. inversion H. assumption. Qed.

Lemma monotone_series (w : widgets) (t : link_trace) (cs : list Q) :
  0 < reference_voltage w ->
  series w t cs -> StronglySorted Qle (0 :: cs) ->
  non_decreasing (voltage_drop_mV_values t) /\
  non_increasing (voltage_values t) /\
  non_decreasing (percent_values t) /\
  non_decreasing (map Cumulative_dVoltage_mV (rows t)) /\
  non_increasing (map Remaining_Voltage_V (rows t)) /\
  non_decreasing (map dVoltage_percent (rows t)).
Proof.
  intros HR [Hd Hv Hp Hrd Hrv Hrp _] Hs.
  assert (Hs' := sorted_tail _ _ _ Hs).
  assert (Hvolt : forall a b, a <= b -> LINK_VOLTAGE - b / 1000 <= LINK_VOLTAGE - a / 1000).
  { intros a b Hab. assert (a / 1000 <= b / 1000); [ | lra ].
    apply Qmult_le_compat_r; [ exact Hab | ]. apply Qinv_le_0_compat. lra. }
  assert (Hperc : forall a b, a <= b ->
            a / (reference_voltage w * 1000) * 100 <= b / (reference_voltage w * 1000) * 100).
  { intros a b Hab.
    assert (a / (reference_voltage w * 1000) <= b / (reference_voltage w * 1000)); [ | lra ].
    apply Qmult_le_compat_r; [ exact Hab | ]. apply Qinv_le_0_compat.
    apply Qlt_le_weak. apply Qmult_lt_0_compat; [ exact HR | lra ]. }
  rewrite Hd, Hv, Hp, Hrd, Hrv, Hrp.
  split; [ apply sorted_non_decreasing, Hs | ].
  split.
  { apply sorted_non_increasing.
    assert (E : LINK_VOLTAGE :: map (fun c => LINK_VOLTAGE - c / 1000) cs
                = LINK_VOLTAGE :: map (fun c => LINK_VOLTAGE - c / 1000) cs) by reflexivity.
    constructor.
    - apply (sorted_map Qle); [ exact Hvolt | exact Hs' ].
    - apply Forall_map. inversion Hs as [ | ? ? _ Hall ]; subst.
      eapply Forall_impl; [ | exact Hall ]. cbn beta. intros c Hc.
      assert (0 <= c / 1000); [ | lra ].
      apply Qle_shift_div_l; [ reflexivity | lra ]. }
  split.
  { apply sorted_non_decreasing. constructor.
    - apply (sorted_map Qle); [ exact Hperc | exact Hs' ].
    - apply Forall_map. inversion Hs as [ | ? ? _ Hall ]; subst.
      eapply Forall_impl; [ | exact Hall ]. cbn beta. intros c Hc.
      apply Qmult_le_0_compat; [ | lra ].
      apply Qle_shift_div_l; [ apply Qmult_lt_0_compat; [ exact HR | lra ] | lra ]. }
  split.
  { apply sorted_non_decreasing, (sorted_map Qle); [ | exact Hs' ].
    intros a b Hab. apply round_mono, Hab. }
  split.
  { apply sorted_non_increasing, (sorted_map Qle); [ | exact Hs' ].
    intros a b Hab. apply round_mono, Hvolt, Hab. }
  apply sorted_non_decreasing, (sorted_map Qle); [ | exact Hs' ].
  intros a b Hab. apply round_mono, Hperc, Hab.
Qed.

Lemma bounded_link (w : widgets) (r : report) :
  in_bounds w -> run w = Done r ->
  forall k link hubs t s,
    link_view r k link hubs t s ->
    propagate_link w link hubs = Done t /\
    analyse_link w link (rows t) = Done s /\
    exists cs,
      series w t cs /\ List.length cs = List.length hubs /\ StronglySorted Qle (0 :: cs).
Proof.
  intros Hb Hrun k link hubs t s Hview.
  destruct (link_view_sound w r Hrun k link hubs t s Hview) as (Hpl & Han).
  split; [ exact Hpl | ]. split; [ exact Han | ].
  destruct (bounded_group w r link hubs Hb Hrun) as [Hd Hc].
  { eapply nth_error_In. apply (view_group _ _ _ _ _ _ Hview). }
  pose proof (bound_cable_area w Hb). pose proof (bound_reference_voltage w Hb).
  pose proof (bound_link_input_length w Hb link).
  apply (bounded_series w link hubs t); try assumption; lra.
Qed.

End MonotoneSeries.

Section DropExtras.
Import Py Main2.
Open Scope Q_scope.

(** X9: with inputs within the bounds of the widgets, along every link
    the cumulative drop (in mV and in percent) never decreases and the
    remaining voltage never increases from one node to the next, in the
    chart series as well as in the rounded fields of the rows; the
    remaining voltage never exceeds the source voltage. *)
Theorem drop_grows_along_the_link (w : widgets) (r : report) :
  in_bounds w -> run w = Done r ->
  forall k link hubs t s,
    link_view r k link hubs t s ->
    non_decreasing (voltage_drop_mV_values t) /\
    non_increasing (voltage_values t) /\
    non_decreasing (percent_values t) /\
    non_decreasing (map Cumulative_dVoltage_mV (rows t)) /\
    non_increasing (map Remaining_Voltage_V (rows t)) /\
    non_decreasing (map dVoltage_percent (rows t)) /\
    Forall (fun v => v <= LINK_VOLTAGE) (voltage_values t).
Proof.
  intros Hb Hrun k link hubs t s Hview.
  destruct (bounded_link w r Hb Hrun k link hubs t s Hview) as (_ & _ & cs & Hs & _ & Hsort).
  pose proof (bound_reference_voltage w Hb) as HR.
  destruct (monotone_series w t cs) as (H1 & H2 & H3 & H4 & H5 & H6);
    [ lra | exact Hs | exact Hsort | ].
  repeat (split; [ assumption | ]).
  apply Forall_forall. intros v Hv. apply In_nth_error in Hv. destruct Hv as (i & Hi).
  apply (H2 0%nat i LINK_VOLTAGE v); [ lia | | exact Hi ].
  rewrite (series_voltage _ _ _ Hs). reflexivity.
Qed.

End DropExtras.

Section DropWitnesses.
Import Py Main2.
Open Scope Q_scope.

Lemma drop_grows_at_defaults :
  exists r link hubs t s,
    in_bounds default_widgets /\
    run default_widgets = Done r /\
    link_view r 0 link hubs t s /\
    non_decreasing (voltage_drop_mV_values t) /\
    non_increasing (voltage_values t) /\
    non_decreasing (percent_values t) /\
    non_decreasing (map Cumulative_dVoltage_mV (rows t)) /\
    non_increasing (map Remaining_Voltage_V (rows t)) /\
    non_decreasing (map dVoltage_percent (rows t)) /\
    Forall (fun v => v <= LINK_VOLTAGE) (voltage_values t).
Proof.
  assert (Hb : in_bounds default_widgets).
  { constructor; intros; try split; vm_compute; discriminate. }
  eexists. eexists. eexists. eexists. eexists.
  split; [ exact Hb | ].
  split; [ vm_compute; reflexivity | ].
  split; [ constructor; reflexivity | ].
  eapply (drop_grows_along_the_link default_widgets _ Hb ?[Hrun] 0%nat).
  [Hrun]: { vm_compute. reflexivity. }
  constructor; reflexivity.
Defined.

End DropWitnesses.

Section LastHubExtras.
Import Py Main2.
Open Scope Q_scope.

(** X10: with inputs within the bounds of the widgets, the figures of a
    link's status are those of its last hub: the lowest voltage, the
    maximum drop in mV and the maximum drop in percent are the fields of
    the last row, which leads to the last hub of the link; and the nodes
    reported below the minimum voltage are the hubs of a tail of the
    chain (once a hub is below the minimum, so is every hub after it). *)
Theorem lowest_voltage_is_at_the_last_hub (w : widgets) (r : report) :
  in_bounds w -> run w = Done r ->
  forall k link hubs t s,
    link_view r k link hubs t s ->
    (exists row hub_n,
        nth_error (rows t) (List.length hubs - 1) = Some row /\
        nth_error hubs (List.length hubs - 1) = Some hub_n /\
        To row = hub_name hub_n /\
        link_min_voltage s == Remaining_Voltage_V row /\
        link_max_drop_mV s == Cumulative_dVoltage_mV row /\
        link_max_drop_percent s == dVoltage_percent row) /\
    exists n, problem_nodes s = map hub_name (skipn n hubs).
Proof.
  intros Hb Hrun k link hubs t s Hview.
  destruct (bounded_link w r Hb Hrun k link hubs t s Hview)
    as (Hpl & Han & cs & Hs & _ & Hsort).
  pose proof (bound_reference_voltage w Hb) as HR.
  destruct (monotone_series w t cs) as (_ & _ & _ & Hcum & Hrem & Hperc);
    [ lra | exact Hs | exact Hsort | ].
  destruct (propagate_link_row w link hubs t Hpl) as (Hlen & Hrow).
  destruct (analyse_link_fields w link (rows t) s Han) as (Hmin & Hmaxp & Hmaxd & _ & _ & Hpn).
  split.
  - assert (Hne : (0 < List.length hubs)%nat).
    { destruct hubs; [ discriminate Hpl | cbn [List.length]; lia ]. }
    destruct (nth_error hubs (List.length hubs - 1)) as [ hub_n | ] eqn:En;
      [ | apply nth_error_None in En; lia ].
    destruct (Hrow _ hub_n En) as (row & Hn & HT & _).
    exists row, hub_n. split; [ exact Hn | ]. split; [ reflexivity | ]. split; [ exact HT | ].
    split; [ | split ].
    + apply (min_of_non_increasing (map Remaining_Voltage_V (rows t)));
        [ exact Hrem | exact Hmin | ].
      rewrite length_map, Hlen, nth_error_map, Hn. reflexivity.
    + apply (max_of_non_decreasing (map Cumulative_dVoltage_mV (rows t)));
        [ exact Hcum | exact Hmaxd | ].
      rewrite length_map, Hlen, nth_error_map, Hn. reflexivity.
    + apply (max_of_non_decreasing (map dVoltage_percent (rows t)));
        [ exact Hperc | exact Hmaxp | ].
      rewrite length_map, Hlen, nth_error_map, Hn. reflexivity.
  - rewrite Hpn. destruct (ltb (link_min_voltage s) (min_voltage w)).
    + destruct (filter_tail (fun row => ltb (Remaining_Voltage_V row) (min_voltage w))
                  (rows t)) as (n & Hn).
      * intros i j x y Hij Hi Hj Hx. apply ltb_lt in Hx. apply ltb_lt.
        apply Qle_lt_trans with (Remaining_Voltage_V x); [ | exact Hx ].
        apply (Hrem i j); [ exact Hij | | ]; rewrite nth_error_map; [ rewrite Hi | rewrite Hj ];
          reflexivity.
      * exists n. rewrite Hn, <- skipn_map, (propagate_link_to w link hubs t Hpl), skipn_map.
        reflexivity.
    + exists (List.length hubs). rewrite skipn_all. reflexivity.
Qed.

Lemma lowest_voltage_at_defaults :
  exists r link hubs t s,
    in_bounds default_widgets /\
    run default_widgets = Done r /\
    link_view r 0 link hubs t s /\
    (exists row hub_n,
        nth_error (rows t) (List.length hubs - 1) = Some row /\
        nth_error hubs (List.length hubs - 1) = Some hub_n /\
        To row = hub_name hub_n /\
        link_min_voltage s == Remaining_Voltage_V row /\
        link_max_drop_mV s == Cumulative_dVoltage_mV row /\
        link_max_drop_percent s == dVoltage_percent row) /\
    exists n, problem_nodes s = map hub_name (skipn n hubs).
Proof.
  assert (Hb : in_bounds default_widgets).
  { constructor; intros; try split; vm_compute; discriminate. }
  eexists. eexists. eexists. eexists. eexists.
  split; [ exact Hb | ].
  split; [ vm_compute; reflexivity | ].
  split; [ constructor; reflexivity | ].
  eapply (lowest_voltage_is_at_the_last_hub default_widgets _ Hb ?[Hrun] 0%nat).
  [Hrun]: { vm_compute. reflexivity. }
  constructor; reflexivity.
Defined.

End LastHubExtras.

Section IdleSegments.
Import Py Main2.
Open Scope Q_scope.

Lemma round_comp (x y : Q) (n : nat) : x == y -> round x n = round y n.
Proof.
  intro H. unfold round. f_equal. f_equal. apply round_half_even_comp.
  rewrite H. reflexivity.
Qed.

Lemma round_0 (n : nat) : round 0 n == 0.
Proof.
  unfold round. rewrite (round_half_even_comp _ (inject_Z 0)) by ring.
  rewrite round_half_even_Z. unfold Qdiv. apply Qmult_0_l.
Qed.

Lemma map_eq_nth {A B C : Type} (f : A -> C) (g : B -> C) (l : list A) (l' : list B)
  (i : nat) (a : A) :
  map f l = map g l' -> nth_error l i = Some a ->
  exists b, nth_error l' i = Some b /\ f a = g b.
Proof.
  intros E Ha. apply (f_equal (fun xs => nth_error xs i)) in E.
  rewrite !nth_error_map, Ha in E. cbn [option_map] in E.
  destruct (nth_error l' i) as [ b | ]; [ | discriminate ].
  injection E as E. exists b. split; [ reflexivity | exact E ].
Qed.

Lemma nth_error_range (n i j : nat) : nth_error (range n) i = Some j -> i = j /\ (i < n)%nat.
Proof.
  intro H. unfold range in H.
  assert (Hi : (i < n)%nat).
  { assert (Hn : nth_error (seq 0 n) i <> None) by congruence.
    apply nth_error_Some in Hn. rewrite length_seq in Hn. exact Hn. }
  rewrite nth_error_seq in H. apply Nat.ltb_lt in Hi as Hb. rewrite Hb in H.
  injection H as <-. split; [ reflexivity | exact Hi ].
Qed.

Lemma running_nth (ds : list Q) :
  forall acc i c d,
    nth_error (running acc ds) i = Some c -> nth_error ds i = Some d ->
    c = match i with
        | O => acc
        | S i' => nth i' (running acc ds) 0
        end + d.
Proof.
  induction ds as [ | d0 ds IH ]; intros acc i c d Hc Hd; [ destruct i; discriminate | ].
  destruct i as [ | i ]; cbn [running nth_error] in Hc, Hd.
  - injection Hc as <-. injection Hd as <-. reflexivity.
  - rewrite (IH _ _ _ _ Hc Hd). cbn [running nth]. destruct i; reflexivity.
Qed.

Lemma propagate_link_resistance (w : widgets) (link_id : string) (hubs : list hub)
  (t : link_trace) :
  propagate_link w link_id hubs = Done t ->
  exists hub0 tl,
    hubs = hub0 :: tl /\
    map Resistance_ohm (rows t)
    = map (fun i => round (calculate_resistance (segment_length w link_id hubs hub0 i)
                             (cable_area w)) 4)
        (range (List.length hubs)).
Proof.
  intro H. destruct (propagate_link_static w link_id hubs t H) as (hub0 & tl & -> & Hs).
  exists hub0, tl. split; [ reflexivity | ].
  apply (f_equal (map (fun x : string * string * Q * Q * Q => snd (fst x)))) in Hs.
  rewrite map_map in Hs. cbn [map fst snd] in Hs. rewrite map_map in Hs.
  unfold static, hub_segment in Hs. cbn [fst snd] in Hs.
  change (map (fun x : result_row => Resistance_ohm x) (rows t))
    with (map Resistance_ohm (rows t)) in Hs.
  rewrite Hs. cbn [List.length]. unfold range. cbn [seq map segment_length]. f_equal.
  apply map_ext_in. intros i Hi. apply in_seq in Hi.
  destruct i as [ | i ]; [ lia | ]. reflexivity.
Qed.

End IdleSegments.

Section IdleExtras.
Import Py Main2.
Open Scope Q_scope.

Lemma propagate_link_distance (w : widgets) (link_id : string) (hubs : list hub)
  (t : link_trace) :
  propagate_link w link_id hubs = Done t ->
  exists hub0 tl,
    hubs = hub0 :: tl /\
    map Distance_m (rows t)
    = map (segment_length w link_id hubs hub0) (range (List.length hubs)).
Proof.
  intro H. destruct (propagate_link_static w link_id hubs t H) as (hub0 & tl & -> & Hs).
  exists hub0, tl. split; [ reflexivity | ].
  apply (f_equal (map (fun x : string * string * Q * Q * Q => snd (fst (fst x))))) in Hs.
  rewrite map_map in Hs. cbn [map fst snd] in Hs. rewrite map_map in Hs.
  unfold static, hub_segment in Hs. cbn [fst snd] in Hs.
  change (map (fun x : result_row => Distance_m x) (rows t))
    with (map Distance_m (rows t)) in Hs.
  rewrite Hs. cbn [List.length]. unfold range. cbn [seq map segment_length]. f_equal.
  apply map_ext_in. intros i Hi. apply in_seq in Hi.
  destruct i as [ | i ]; [ lia | ]. reflexivity.
Qed.

(** What the pass over a link puts in row [i], from the segment's
    length, current and drop, and the running total [c] after it. *)
Lemma propagate_link_fields (w : widgets) (link_id : string) (hubs : list hub)
  (t : link_trace) (hub0 : hub) (i : nat) (row : result_row) :
  propagate_link w link_id hubs = Done t ->
  hd_error hubs = Some hub0 ->
  nth_error (rows t) i = Some row ->
  let cs := running 0.0 (map (segment_drop_mV w link_id hubs hub0)
                           (range (List.length hubs))) in
  (i < List.length hubs)%nat /\
  Distance_m row = segment_length w link_id hubs hub0 i /\
  Resistance_ohm row
  = round (calculate_resistance (segment_length w link_id hubs hub0 i) (cable_area w)) 4 /\
  Current_A row = round (calculate_current hubs i) 3 /\
  dVoltage_mV row = round (segment_drop_mV w link_id hubs hub0 i) 2 /\
  exists c,
    nth_error cs i = Some c /\
    c = match i with
        | O => 0.0
        | S i' => nth i' cs 0
        end + segment_drop_mV w link_id hubs hub0 i /\
    Cumulative_dVoltage_mV row = round c 2 /\
    Remaining_Voltage_V row = round (LINK_VOLTAGE - c / 1000) 2 /\
    dVoltage_percent row = round (c / (reference_voltage w * 1000) * 100) 2.
Proof.
  intros Hpl Hhd Hrow cs.
  destruct (propagate_link_running w link_id hubs t Hpl) as (h0 & tl & E & Hs & Hd).
  assert (h0 = hub0) by (subst hubs; cbn in Hhd; congruence). subst h0.
  destruct (propagate_link_resistance w link_id hubs t Hpl) as (h0 & tl' & E' & HR).
  assert (h0 = hub0) by (rewrite E' in Hhd; cbn in Hhd; congruence). subst h0.
  destruct (propagate_link_distance w link_id hubs t Hpl) as (h0 & tl'' & E'' & HL).
  assert (h0 = hub0) by (rewrite E'' in Hhd; cbn in Hhd; congruence). subst h0.
  clear tl' tl'' E' E''.
  destruct (propagate_link_row w link_id hubs t Hpl) as (Hlen & Hrows).
  assert (Hi : (i < List.length hubs)%nat).
  { rewrite <- Hlen. apply nth_error_Some. congruence. }
  split; [ exact Hi | ].
  destruct (map_eq_nth _ _ _ _ i row HL Hrow) as (b & Hb & EL).
  apply nth_error_range in Hb. destruct Hb as [<- _].
  destruct (map_eq_nth _ _ _ _ i row HR Hrow) as (b & Hb & ER).
  apply nth_error_range in Hb. destruct Hb as [<- _].
  destruct (map_eq_nth _ _ _ _ i row Hd Hrow) as (b & Hb & ED).
  apply nth_error_range in Hb. destruct Hb as [<- _].
  split; [ exact EL | ]. split; [ exact ER | ].
  split.
  { destruct (nth_error hubs i) as [ hub_i | ] eqn:Eh; [ | apply nth_error_None in Eh; lia ].
    destruct (Hrows i hub_i Eh) as (row' & Hr' & _ & _ & HC).
    rewrite Hrow in Hr'. injection Hr' as <-. exact HC. }
  split; [ exact ED | ].
  destruct Hs as [_ _ _ Hrd Hrv Hrp _]. fold cs in Hrd, Hrv, Hrp.
  destruct (map_eq_nth _ _ _ _ i row Hrd Hrow) as (c & Hc & EC).
  destruct (map_eq_nth _ _ _ _ i row Hrv Hrow) as (c' & Hc' & EV).
  destruct (map_eq_nth _ _ _ _ i row Hrp Hrow) as (c'' & Hc'' & EP).
  rewrite Hc in Hc', Hc''. injection Hc' as <-. injection Hc'' as <-.
  exists c. split; [ exact Hc | ].
  split; [ | split; [ exact EC | split; [ exact EV | exact EP ] ] ].
  apply (running_nth _ _ _ _ _ Hc).
  rewrite nth_error_map. unfold range. rewrite nth_error_seq.
  apply Nat.ltb_lt in Hi. rewrite Hi. reflexivity.
Qed.

(** X11: a segment of length zero has resistance zero, and a segment of
    length zero or carrying no current has no drop: its row shows a drop
    of 0 mV and the cumulative drop, remaining voltage and percentage of
    the row before it (0 mV, the source voltage and 0 % on the first
    row). *)
Theorem idle_segment_has_no_drop (w : widgets) (r : report) :
  0 < cable_area w -> run w = Done r ->
  forall k link hubs t s,
    link_view r k link hubs t s ->
    forall i row,
      nth_error (rows t) i = Some row ->
      (Distance_m row == 0 -> Resistance_ohm row == 0) /\
      (Distance_m row == 0 \/ Current_A row == 0 ->
       dVoltage_mV row == 0 /\
       match i with
       | O => Cumulative_dVoltage_mV row == 0 /\
              Remaining_Voltage_V row == LINK_VOLTAGE /\
              dVoltage_percent row == 0
       | S i' => forall prev,
           nth_error (rows t) i' = Some prev ->
           Cumulative_dVoltage_mV row = Cumulative_dVoltage_mV prev /\
           Remaining_Voltage_V row = Remaining_Voltage_V prev /\
           dVoltage_percent row = dVoltage_percent prev
       end).
Proof.
  intros HA Hrun k link hubs t s Hview i row Hrow.
  destruct (link_view_sound w r Hrun k link hubs t s Hview) as (Hpl & _).
  destruct hubs as [ | hub0 tl ] eqn:Eh; [ discriminate Hpl | ]. rewrite <- Eh in *.
  assert (Hhd : hd_error hubs = Some hub0) by (rewrite Eh; reflexivity).
  destruct (propagate_link_fields w link hubs t hub0 i row Hpl Hhd Hrow)
    as (Hi & EL & ER & EC & ED & c & Hc & Ec & ECum & ERem & EPer).
  assert (HR0 : Distance_m row == 0 ->
                calculate_resistance (segment_length w link hubs hub0 i) (cable_area w) == 0).
  { intro H0. rewrite <- EL. unfold calculate_resistance. rewrite H0. field. lra. }
  split.
  { intro H0. rewrite ER, (round_comp _ 0 4 (HR0 H0)). apply round_0. }
  intro Hidle.
  assert (Hd0 : segment_drop_mV w link hubs hub0 i == 0).
  { unfold segment_drop_mV. destruct Hidle as [ H0 | H0 ].
    - rewrite (HR0 H0). ring.
    - rewrite EC, calculate_current_milli in H0. rewrite H0. ring. }
  split.
  { rewrite ED, (round_comp _ 0 2 Hd0). apply round_0. }
  destruct i as [ | i' ].
  - assert (Hc0 : c == 0) by (rewrite Ec, Hd0; reflexivity).
    split; [ rewrite ECum, (round_comp _ 0 2 Hc0); apply round_0 | ].
    split.
    + rewrite ERem, (round_comp _ 48 2) by (rewrite Hc0; reflexivity).
      unfold LINK_VOLTAGE. vm_compute. reflexivity.
    + rewrite EPer, (round_comp _ 0 2);
        [ apply round_0 | rewrite Hc0; unfold Qdiv; ring ].
  - intros prev Hprev.
    destruct (propagate_link_fields w link hubs t hub0 i' prev Hpl Hhd Hprev)
      as (_ & _ & _ & _ & _ & c' & Hc' & _ & ECum' & ERem' & EPer').
    rewrite (nth_error_nth _ _ 0 Hc') in Ec.
    assert (Hcc : c == c') by (rewrite Ec, Hd0; ring).
    rewrite ECum, ERem, EPer, ECum', ERem', EPer'.
    split; [ apply round_comp, Hcc | ].
    split; apply round_comp; rewrite Hcc; reflexivity.
Qed.

End IdleExtras.

Section IdleWitness.
Import Py Main2.
Open Scope Q_scope.

Lemma idle_segment_between_adjacent_hubs :
  exists r link hubs t s row prev,
    0 < cable_area adjacent_hubs_widgets /\
    run adjacent_hubs_widgets = Done r /\
    link_view r 0 link hubs t s /\
    nth_error (rows t) 1 = Some row /\
    nth_error (rows t) 0 = Some prev /\
    Distance_m row == 0 /\
    Resistance_ohm row == 0 /\
    dVoltage_mV row == 0 /\
    Cumulative_dVoltage_mV row = Cumulative_dVoltage_mV prev /\
    Remaining_Voltage_V row = Remaining_Voltage_V prev.
Proof.
  assert (HA : 0 < cable_area adjacent_hubs_widgets) by (vm_compute; reflexivity).
  eexists. eexists. eexists. eexists. eexists. eexists. eexists.
  split; [ exact HA | ].
  split; [ vm_compute; reflexivity | ].
  split; [ constructor; reflexivity | ].
  split; [ reflexivity | ].
  split; [ reflexivity | ].
  assert (H0 : 0.0 == 0) by reflexivity.
  split; [ exact H0 | ].
  edestruct idle_segment_has_no_drop
    with (w := adjacent_hubs_widgets) (k := 0%nat) (i := 1%nat) as (HR & Hdrop);
    [ exact HA | vm_compute; reflexivity | constructor; reflexivity | reflexivity | ].
  split; [ apply HR, H0 | ].
  cbv beta iota in Hdrop.
  destruct (Hdrop (or_introl H0)) as (Hd & Hprev).
  split; [ exact Hd | ].
  destruct (Hprev _ eq_refl) as (H1 & H2 & _).
  split; [ exact H1 | exact H2 ].
Defined.

End IdleWitness.

(** ** The source segment and the running total, up to the margin *)

Section SourceExtras.
Import Py Main2.
Open Scope Q_scope.

(** X2 (C2 on [src/main2.py]): for every link the first row is the
    segment from the source: it starts at "APWRLINK", its length is the
    length entered for the link, its resistance field is
    [calculate_resistance] of that length and the cable area to four
    decimals, and its drop field is current times resistance times 1000
    (mV) to two decimals, the value the cumulative series starts with;
    a drop of 0.01 mV or more shows as a field above zero.  A smaller
    one can show as 0.0 (1 mA over half a metre of 4 mm^2: 0.0021875
    mV), and at a tie binary64 decides the last digit (30 m of 4 mm^2:
    0.13125 Ohm is shown as 0.1313). *)
Theorem source_segment_drop :
  (forall (w : widgets) (r : report),
      in_bounds w -> practical w -> run w = Done r ->
      forall k link hubs t s,
        link_view r k link hubs t s ->
        exists seg0 rest c0 cs,
          rows t = seg0 :: rest /\
          From seg0 = "APWRLINK"%string /\
          Distance_m seg0 = link_input_length w link /\
          near 0.00005 (Resistance_ohm seg0)
            (calculate_resistance (link_input_length w link) (cable_area w)) /\
          near 0.005 (dVoltage_mV seg0)
            (calculate_current hubs 0
             * calculate_resistance (link_input_length w link) (cable_area w) * 1000) /\
          voltage_drop_mV_values t = 0 :: c0 :: cs /\
          near 0 c0
            (calculate_current hubs 0
             * calculate_resistance (link_input_length w link) (cable_area w) * 1000) /\
          (0.01 <= calculate_current hubs 0
                   * calculate_resistance (link_input_length w link) (cable_area w) * 1000 ->
           0 < dVoltage_mV seg0 /\ 0 < c0)) /\
  (exists r t seg0 c0,
      run (one_hub_at 1 1 0.5 4 48 36) = Done r /\
      link_traces (report_propagation r) = [("APWRLINK 1"%string, t)] /\
      rows t = [seg0] /\
      voltage_drop_mV_values t = [0; c0] /\
      c0 == 7 # 3200 /\
      dVoltage_mV seg0 == 0 /\
      (0 <? Binary64.U_drop_mV
              (Binary64.first_segment 0.5 4 48 [hub_drawing "APWRHUB 1" 1]))%float = true /\
      Binary64.dVoltage_mV (Binary64.first_segment 0.5 4 48 [hub_drawing "APWRHUB 1" 1])
      = 0%float) /\
  (round (calculate_resistance 30 4) 4 == 0.1312 /\
   Binary64.Resistance_ohm (Binary64.first_segment 30 4 48 one_full_hub) = 0.1313%float).
Proof.
  split; [ | split ].
  - intros w r _ _ Hrun k link hubs t s Hview.
    destruct (link_view_sound w r Hrun k link hubs t s Hview) as (Hpl & _).
    destruct (propagate_link_series w link hubs t Hpl) as (cs & [Hd _ _ _ _ _ _]).
    destruct (propagate_link_Done w link hubs t Hpl)
      as (hub0 & tl & seg0 & rest & -> & Hrows & Hfrom & _ & _).
    assert (Hn : nth_error (rows t) 0 = Some seg0) by (rewrite Hrows; reflexivity).
    pose proof (propagate_link_fields w link (hub0 :: tl) t hub0 0%nat seg0 Hpl eq_refl Hn)
      as H.
    cbv zeta in H. destruct H as (_ & HD & HR & _ & HU & _).
    cbn [segment_length] in HD, HR. unfold segment_drop_mV in HU. cbn [segment_length] in HU.
    set (U := calculate_current (hub0 :: tl) 0
              * calculate_resistance (link_input_length w link) (cable_area w) * 1000) in *.
    assert (E0 : 0.0 + U == U) by (setoid_replace 0.0 with 0 by reflexivity; apply Qplus_0_l).
    eexists seg0, rest, _, cs.
    split; [ exact Hrows | ]. split; [ exact Hfrom | ]. split; [ exact HD | ].
    split; [ rewrite HR; apply near_round_4; reflexivity | ].
    split; [ rewrite HU; apply near_round_2; reflexivity | ].
    split; [ exact Hd | ].
    split; [ apply near_eq; [ lra | exact E0 ] | ].
    intro Hbig. split; [ | lra ].
    rewrite HU. pose proof (round_near_2 U) as [Hlo _]. lra.
  - eexists. eexists. eexists. eexists.
    split; [ vm_compute; reflexivity | ].
    do 3 (split; [ reflexivity | ]).
    repeat split; vm_compute; reflexivity.
  - split; vm_compute; reflexivity.
Qed.

Lemma source_segment_at_defaults :
  exists r link hubs t s,
    in_bounds default_widgets /\
    practical default_widgets /\
    run default_widgets = Done r /\
    link_view r 0 link hubs t s /\
    exists seg0 rest c0 cs,
      rows t = seg0 :: rest /\
      From seg0 = "APWRLINK"%string /\
      Distance_m seg0 = link_input_length default_widgets link /\
      near 0.00005 (Resistance_ohm seg0)
        (calculate_resistance (link_input_length default_widgets link)
           (cable_area default_widgets)) /\
      near 0.005 (dVoltage_mV seg0)
        (calculate_current hubs 0
         * calculate_resistance (link_input_length default_widgets link)
             (cable_area default_widgets) * 1000) /\
      voltage_drop_mV_values t = 0 :: c0 :: cs /\
      near 0 c0
        (calculate_current hubs 0
         * calculate_resistance (link_input_length default_widgets link)
             (cable_area default_widgets) * 1000) /\
      (0.01 <= calculate_current hubs 0
               * calculate_resistance (link_input_length default_widgets link)
                   (cable_area default_widgets) * 1000 ->
       0 < dVoltage_mV seg0 /\ 0 < c0).
Proof.
  assert (Hb : in_bounds default_widgets).
  { constructor; intros; try split; vm_compute; discriminate. }
  assert (Hp : practical default_widgets).
  { constructor; intros; vm_compute; discriminate. }
  eexists. eexists. eexists. eexists. eexists.
  split; [ exact Hb | ]. split; [ exact Hp | ].
  split; [ vm_compute; reflexivity | ].
  split; [ constructor; reflexivity | ].
  eapply (proj1 source_segment_drop default_widgets _ Hb Hp ?[Hrun] 0%nat).
  [Hrun]: { vm_compute. reflexivity. }
  constructor; reflexivity.
Defined.

(** X8: along every link the cumulative drop is the running total,
    started at 0.0, of the unrounded segment drops [I_A * R * 1000]:
    the chart series hold the total after each segment, the remaining
    voltage [LINK_VOLTAGE - total / 1000] and the percentage computed
    from it, and each row holds these values to two decimals, within
    0.005 of them; the per-segment drop field of a row is the drop of
    its own segment to two decimals.  All this up to the margin: with 20
    anodes the drop of the second segment, 328.125 mV, is computed as
    328.12500000000006 in binary64 and shown as 328.13 where exact
    arithmetic rounds the tie to 328.12, and the total of 875 mV after
    it is the same in both. *)
Theorem cumulative_drop_is_running_total :
  (forall (w : widgets) (r : report),
      in_bounds w -> practical w -> run w = Done r ->
      forall k link hubs t s,
        link_view r k link hubs t s ->
        exists hub0 ds cs,
          hd_error hubs = Some hub0 /\
          ds = map (segment_drop_mV w link hubs hub0) (range (List.length hubs)) /\
          cs = running 0.0 ds /\
          Forall2 (near 0) (List.tl (voltage_drop_mV_values t)) cs /\
          Forall2 (fun v c => near 0 v (LINK_VOLTAGE - c / 1000))
            (List.tl (voltage_values t)) cs /\
          Forall2 (fun p c => near 0 p (c / (reference_voltage w * 1000) * 100))
            (List.tl (percent_values t)) cs /\
          Forall2 (fun row c => near 0.005 (Cumulative_dVoltage_mV row) c) (rows t) cs /\
          Forall2 (fun row c => near 0.005 (Remaining_Voltage_V row)
                                  (LINK_VOLTAGE - c / 1000)) (rows t) cs /\
          Forall2 (fun row c => near 0.005 (dVoltage_percent row)
                                  (c / (reference_voltage w * 1000) * 100)) (rows t) cs /\
          Forall2 (fun row d => near 0.005 (dVoltage_mV row) d) (rows t) ds) /\
  (exists r t hubs hub0 row,
      run (default_page 20 36) = Done r /\
      link_traces (report_propagation r) = [("APWRLINK 1"%string, t)] /\
      report_link_groups r = [("APWRLINK 1"%string, hubs)] /\
      hd_error hubs = Some hub0 /\
      nth_error (rows t) 1 = Some row /\
      segment_drop_mV (default_page 20 36) "APWRLINK 1" hubs hub0 1 == 328.125 /\
      dVoltage_mV row == 328.12 /\
      map Binary64.U_drop_mV
        (Binary64.propagate_link 10 4 48
           [hub_drawing "APWRHUB 1" 5000; hub_drawing "APWRHUB 2" 5000;
            hub_drawing "APWRHUB 3" 2500] (fun _ => 10%float))
      = [546.875; 328.12500000000006; 109.37500000000001]%float /\
      map Binary64.dVoltage_mV
        (Binary64.propagate_link 10 4 48
           [hub_drawing "APWRHUB 1" 5000; hub_drawing "APWRHUB 2" 5000;
            hub_drawing "APWRHUB 3" 2500] (fun _ => 10%float))
      = [546.88; 328.13; 109.38]%float /\
      map Binary64.Cumulative_dVoltage_mV
        (Binary64.propagate_link 10 4 48
           [hub_drawing "APWRHUB 1" 5000; hub_drawing "APWRHUB 2" 5000;
            hub_drawing "APWRHUB 3" 2500] (fun _ => 10%float))
      = [546.88; 875; 984.38]%float).
Proof.
  split.
  - intros w r _ _ Hrun k link hubs t s Hview.
    destruct (link_view_sound w r Hrun k link hubs t s Hview) as (Hpl & _).
    destruct (propagate_link_running w link hubs t Hpl)
      as (hub0 & tl & -> & [Hd Hv Hp Hrd Hrv Hrp _] & HU).
    eexists hub0, _, _.
    split; [ reflexivity | ]. split; [ reflexivity | ]. split; [ reflexivity | ].
    set (ds := map (segment_drop_mV w link (hub0 :: tl) hub0)
                 (range (List.length (hub0 :: tl)))) in *.
    set (cs := running 0.0 ds) in *.
    rewrite Hd, Hv, Hp. cbn [List.tl].
    split.
    { rewrite <- (map_id cs) at 1.
      apply (Forall2_values_self (near 0)). intro c. apply near_eq; [ lra | reflexivity ]. }
    split.
    { apply (Forall2_values_self (fun v c => near 0 v (LINK_VOLTAGE - c / 1000))).
      intro c. apply near_eq; [ lra | reflexivity ]. }
    split.
    { apply (Forall2_values_self
               (fun p c => near 0 p (c / (reference_voltage w * 1000) * 100))).
      intro c. apply near_eq; [ lra | reflexivity ]. }
    split.
    { apply (Forall2_fields_self (near 0.005) _ _ _ _ Hrd).
      intro c. apply near_round_2. reflexivity. }
    split.
    { apply (Forall2_fields_self (fun v c => near 0.005 v (LINK_VOLTAGE - c / 1000))
               _ _ _ _ Hrv).
      intro c. apply near_round_2. reflexivity. }
    split.
    { apply (Forall2_fields_self
               (fun p c => near 0.005 p (c / (reference_voltage w * 1000) * 100))
               _ _ _ _ Hrp).
      intro c. apply near_round_2. reflexivity. }
    apply (Forall2_fields (near 0.005) dVoltage_mV _ _ _ _ HU).
    intro i. apply near_round_2. reflexivity.
  - eexists. eexists. eexists. eexists. eexists.
    split; [ vm_compute; reflexivity | ].
    do 4 (split; [ reflexivity | ]).
    repeat split; vm_compute; reflexivity.
Qed.

Lemma cumulative_drop_at_defaults :
  exists r link hubs t s,
    in_bounds default_widgets /\
    practical default_widgets /\
    run default_widgets = Done r /\
    link_view r 0 link hubs t s /\
    exists hub0 ds cs,
      hd_error hubs = Some hub0 /\
      ds = map (segment_drop_mV default_widgets link hubs hub0) (range (List.length hubs)) /\
      cs = running 0.0 ds /\
      Forall2 (near 0) (List.tl (voltage_drop_mV_values t)) cs /\
      Forall2 (fun v c => near 0 v (LINK_VOLTAGE - c / 1000))
        (List.tl (voltage_values t)) cs /\
      Forall2 (fun p c => near 0 p (c / (reference_voltage default_widgets * 1000) * 100))
        (List.tl (percent_values t)) cs /\
      Forall2 (fun row c => near 0.005 (Cumulative_dVoltage_mV row) c) (rows t) cs /\
      Forall2 (fun row c => near 0.005 (Remaining_Voltage_V row)
                              (LINK_VOLTAGE - c / 1000)) (rows t) cs /\
      Forall2 (fun row c => near 0.005 (dVoltage_percent row)
                              (c / (reference_voltage default_widgets * 1000) * 100))
        (rows t) cs /\
      Forall2 (fun row d => near 0.005 (dVoltage_mV row) d) (rows t) ds.
Proof.
  assert (Hb : in_bounds default_widgets).
  { constructor; intros; try split; vm_compute; discriminate. }
  assert (Hp : practical default_widgets).
  { constructor; intros; vm_compute; discriminate. }
  eexists. eexists. eexists. eexists. eexists.
  split; [ exact Hb | ]. split; [ exact Hp | ].
  split; [ vm_compute; reflexivity | ].
  split; [ constructor; reflexivity | ].
  eapply (proj1 cumulative_drop_is_running_total default_widgets _ Hb Hp ?[Hrun] 0%nat).
  [Hrun]: { vm_compute. reflexivity. }
  constructor; reflexivity.
Defined.

End SourceExtras.

(** ** The status of the system *)

Section SystemFacts.
Import Py Main2.
Open Scope Q_scope.

Variable w : widgets.

Lemma current_check_currents (ls : list (string * list result_row)) :
  forall (c : color) (m : overall_message) (lc : list (string * Q)),
    snd (fold_left (current_check w) ls (c, m, lc)) = lc ++ map current_entry ls.
Proof.
  induction ls as [ | l ls IH ]; intros c m lc; cbn [fold_left map].
  - rewrite app_nil_r. reflexivity.
  - unfold current_check at 2.
    destruct (ltb (max_link_current w) (first_link_current (snd l)));
      rewrite IH, <- app_assoc; reflexivity.
Qed.

Lemma current_check_message (ls : list (string * list result_row)) :
  forall (c : color) (m : overall_message) (lc : list (string * Q)),
    snd (fst (fold_left (current_check w) ls (c, m, lc)))
    = if existsb (fun l => ltb (max_link_current w) (first_link_current (snd l))) ls
      then Current_limit_exceeded else m.
Proof.
  induction ls as [ | l ls IH ]; intros c m lc; cbn [fold_left existsb].
  - reflexivity.
  - unfold current_check at 2.
    destruct (ltb (max_link_current w) (first_link_current (snd l))); rewrite IH; cbn [orb].
    + destruct (existsb _ ls); reflexivity.
    + reflexivity.
Qed.

(** Every field of the overall status but its colour. *)
Lemma analyse_system_fields (hub_data : list hub) (p : propagation) (o : overall_status) :
  analyse_system w hub_data p = Done o ->
  total_current_A o = inject_Z (sum (map current_mA hub_data)) / 1000 /\
  is_min (min_voltage_overall o) (map Remaining_Voltage_V (results p)) /\
  is_max (max_drop_percent o) (map dVoltage_percent (results p)) /\
  is_max (max_drop_mV o) (map Cumulative_dVoltage_mV (results p)) /\
  link_currents o = map current_entry (link_results p) /\
  overall_status_message o
  = (if existsb (fun l => ltb (max_link_current w) (first_link_current (snd l)))
          (link_results p)
     then Current_limit_exceeded
     else if ltb (min_voltage_overall o) (min_voltage w)
          then Voltage_issues_detected else All_Systems_OK).
Proof.
  unfold analyse_system. intro H.
  apply bind_Done in H. destruct H as (m & Hm & H).
  apply bind_Done in H. destruct H as (dp & Hdp & H).
  apply bind_Done in H. destruct H as (dm & Hdm & H).
  match type of H with context [fold_left ?f ?ls ?init] =>
    pose proof (current_check_currents ls (fst (fst init)) (snd (fst init)) (snd init)) as HC;
    pose proof (current_check_message ls (fst (fst init)) (snd (fst init)) (snd init)) as HM;
    cbn [fst snd] in HC, HM; destruct (fold_left f ls init) as [[c' m'] lc'] eqn:EF end.
  injection H as <-.
  cbn [total_current_A min_voltage_overall max_drop_percent max_drop_mV link_currents
       overall_status_message].
  cbn [fst snd app] in HC, HM.
  split; [ reflexivity | ]. split; [ apply min_Done, Hm | ].
  split; [ apply max_Done, Hdp | ]. split; [ apply max_Done, Hdm | ].
  split; [ exact HC | ]. rewrite HM.
  destruct (ltb m (min_voltage w)); reflexivity.
Qed.

Lemma total_app (xs ys : list Q) : total (xs ++ ys) == total xs + total ys.
Proof.
  unfold total. induction xs as [ | x xs IH ]; cbn [app fold_right].
  - symmetry. apply Qplus_0_l.
  - rewrite IH. apply Qplus_assoc.
Qed.

(** The currents of the first rows add up to the load of all hubs. *)
Lemma link_currents_total (groups : list (string * list hub))
  (ts : list (string * link_trace)) :
  Forall2 (pass_of w) groups ts ->
  total (map snd (map current_entry (map rows_of ts)))
  == inject_Z (sum (map current_mA (List.concat (map snd groups)))) / 1000.
Proof.
  induction 1 as [ | g kt groups ts [_ Hpl] _ IH ].
  - cbn. reflexivity.
  - cbn [map List.concat]. unfold total in *. cbn [fold_right].
    rewrite IH, map_app, sum_app, inject_Z_plus.
    destruct (propagate_link_Done w _ _ _ Hpl) as (hub0 & tl & seg0 & rest & E & Hrows & HF & _ & HC).
    unfold current_entry, rows_of. cbn [fst snd]. rewrite Hrows.
    rewrite (first_link_current_seg0 seg0 rest HF), HC, calculate_current_milli.
    unfold calculate_current. cbn [skipn]. field.
Qed.

End SystemFacts.

Section SystemExtras.
Import Py Main2.
Open Scope Q_scope.

Lemma pass_of_keys (w : widgets) (groups : list (string * list hub))
  (ts : list (string * link_trace)) :
  Forall2 (pass_of w) groups ts -> map fst ts = map fst groups.
Proof.
  induction 1 as [ | g kt groups ts [E _] _ IH ]; [ reflexivity | ].
  cbn [map]. rewrite E, IH. reflexivity.
Qed.

(** X12: the per-link currents of the overall status are listed in the
    order of the links, each is the current shown in that link's own
    status, which is the load of the link's hubs in amperes, and the
    total system current is their sum (exact arithmetic). *)
Theorem system_current_is_sum_of_link_currents (w : widgets) (r : report) :
  run w = Done r ->
  map fst (link_currents (report_system r)) = map fst (report_link_groups r) /\
  (forall k link hubs t s,
      link_view r k link hubs t s ->
      nth_error (link_currents (report_system r)) k = Some (link, link_current s) /\
      link_current s == inject_Z (sum (map current_mA hubs)) / 1000) /\
  total_current_A (report_system r) == total (map snd (link_currents (report_system r))).
Proof.
  intro Hrun.
  destruct (run_Done w r Hrun) as (_ & indices & _ & _ & _ & Hp & _ & Hs).
  destruct (propagate_Done w _ _ Hp) as (HF & Hlr & _).
  destruct (analyse_system_fields w _ _ _ Hs) as (Htot & _ & _ & _ & Hlc & _).
  destruct (run_links_partition w r Hrun) as (Hcat & _).
  split; [ | split ].
  - rewrite Hlc, Hlr, !map_map. cbn [current_entry rows_of fst].
    rewrite <- (pass_of_keys w _ _ HF). reflexivity.
  - intros k link hubs t s Hview.
    destruct (link_view_sound w r Hrun k link hubs t s Hview) as (Hpl & Han).
    destruct (analyse_link_Done w _ _ _ Han) as (m & _ & _ & Hcur & _).
    split.
    + rewrite Hlc, nth_error_map, (view_rows _ _ _ _ _ _ Hview). cbn [option_map].
      unfold current_entry. cbn [fst snd]. rewrite Hcur. reflexivity.
    + destruct (propagate_link_Done w _ _ _ Hpl)
        as (hub0 & tl & seg0 & rest & _ & Hrows & Hfrom & _ & HC).
      rewrite Hcur, Hrows, (first_link_current_seg0 seg0 rest Hfrom), HC.
      rewrite calculate_current_milli. reflexivity.
  - rewrite Htot, Hlc, Hlr, (link_currents_total w _ _ HF), Hcat. reflexivity.
Qed.

Lemma system_current_at_defaults :
  exists r,
    run default_widgets = Done r /\
    map fst (link_currents (report_system r)) = map fst (report_link_groups r) /\
    total_current_A (report_system r) == total (map snd (link_currents (report_system r))).
Proof.
  eexists. split; [ vm_compute; reflexivity | ].
  edestruct (system_current_is_sum_of_link_currents default_widgets) as (H1 & _ & H3);
    [ vm_compute; reflexivity | ].
  split; [ exact H1 | exact H3 ].
Defined.

End SystemExtras.

Section Reduction.
Import Py Main2.
Open Scope Q_scope.

Lemma analysed_Done (w : widgets) (l : string * list result_row) (ls : string * link_status) :
  analysed w l = Done ls -> fst ls = fst l /\ analyse_link w (fst l) (snd l) = Done (snd ls).
Proof.
  unfold analysed. intro H. apply bind_Done in H. destruct H as (s & Ha & E).
  injection E as <-. split; [ reflexivity | exact Ha ].
Qed.

(** An extreme over all rows is the extreme of the links' extremes. *)
Lemma extreme_of_links (R : Q -> Q -> Prop) (f : result_row -> Q) (g : link_status -> Q)
  (w : widgets) (r : report) (m : Q) :
  (forall a b, R a b -> R b a -> a == b) ->
  run w = Done r ->
  (forall l s, analyse_link w (fst l) (snd l) = Done s ->
               In (g s) (map f (snd l)) /\ forall x, In x (map f (snd l)) -> R (g s) x) ->
  In m (map f (results (report_propagation r))) ->
  (forall x, In x (map f (results (report_propagation r))) -> R m x) ->
  (exists link s, In (link, s) (report_links r) /\ g s == m) /\
  (forall link s, In (link, s) (report_links r) -> R m (g s)).
Proof.
  intros Hanti Hrun Hg Hin Hle.
  destruct (run_Done w r Hrun) as (_ & indices & _ & _ & _ & Hp & Hl & _).
  pose proof (results_in_links w _ _ Hp) as Hres.
  apply mapM_Done in Hl.
  assert (Hsub : forall l x, In l (link_results (report_propagation r)) ->
                             In x (map f (snd l)) ->
                             In x (map f (results (report_propagation r)))).
  { intros l x Hl' Hx. apply in_map_iff in Hx. destruct Hx as (row & <- & Hrow).
    apply in_map, Hres. exists l. split; assumption. }
  split.
  - apply in_map_iff in Hin. destruct Hin as (row & Hrow & Hin).
    apply Hres in Hin. destruct Hin as (l & Hl' & Hin).
    destruct (Forall2_In_l _ _ _ Hl l Hl') as ([link s] & Hls & Ha).
    apply analysed_Done in Ha. cbn [fst snd] in Ha. destruct Ha as [_ Ha].
    destruct (Hg l s Ha) as [Hgin Hgle].
    exists link, s. split; [ exact Hls | ].
    apply Hanti.
    + rewrite <- Hrow. apply Hgle, in_map, Hin.
    + apply Hle. apply (Hsub l); assumption.
  - intros link s Hls.
    destruct (Forall2_In_r _ _ _ Hl _ Hls) as (l & Hl' & Ha).
    apply analysed_Done in Ha. cbn [fst snd] in Ha. destruct Ha as [_ Ha].
    destruct (Hg l s Ha) as [Hgin _].
    apply Hle. apply (Hsub l); assumption.
Qed.

Lemma existsb_links (w : widgets) (r : report) :
  run w = Done r ->
  existsb (fun l => ltb (max_link_current w) (first_link_current (snd l)))
    (link_results (report_propagation r)) = true <->
  exists link s, In (link, s) (report_links r) /\ max_link_current w < link_current s.
Proof.
  intro Hrun.
  destruct (run_Done w r Hrun) as (_ & indices & _ & _ & _ & _ & Hl & _).
  apply mapM_Done in Hl. rewrite existsb_exists. split.
  - intros (l & Hin & Hlt). apply ltb_lt in Hlt.
    destruct (Forall2_In_l _ _ _ Hl l Hin) as ([link s] & Hls & Ha).
    apply analysed_Done in Ha. cbn [fst snd] in Ha. destruct Ha as [_ Ha].
    destruct (analyse_link_Done w _ _ _ Ha) as (m & _ & _ & Hc & _).
    exists link, s. split; [ exact Hls | ]. rewrite Hc. exact Hlt.
  - intros (link & s & Hls & Hlt).
    destruct (Forall2_In_r _ _ _ Hl _ Hls) as (l & Hin & Ha).
    apply analysed_Done in Ha. cbn [fst snd] in Ha. destruct Ha as [_ Ha].
    destruct (analyse_link_Done w _ _ _ Ha) as (m & _ & _ & Hc & _).
    exists l. split; [ exact Hin | ]. apply ltb_lt. rewrite <- Hc. exact Hlt.
Qed.

End Reduction.

Section ReductionExtras.
Import Py Main2.
Open Scope Q_scope.

(** X13: the figures of the overall status are a reduction of the
    figures of the links: the lowest voltage of the system is the
    lowest of the links' lowest voltages, and the maximum drop (in mV
    and in percent) the highest of the links' maximum drops. *)
Theorem overall_figures_reduce_the_links (w : widgets) (r : report) :
  run w = Done r ->
  ((exists link s, In (link, s) (report_links r) /\
                   link_min_voltage s == min_voltage_overall (report_system r)) /\
   forall link s, In (link, s) (report_links r) ->
                  min_voltage_overall (report_system r) <= link_min_voltage s) /\
  ((exists link s, In (link, s) (report_links r) /\
                   link_max_drop_mV s == max_drop_mV (report_system r)) /\
   forall link s, In (link, s) (report_links r) ->
                  link_max_drop_mV s <= max_drop_mV (report_system r)) /\
  ((exists link s, In (link, s) (report_links r) /\
                   link_max_drop_percent s == max_drop_percent (report_system r)) /\
   forall link s, In (link, s) (report_links r) ->
                  link_max_drop_percent s <= max_drop_percent (report_system r)).
Proof.
  intro Hrun.
  destruct (run_Done w r Hrun) as (_ & indices & _ & _ & _ & _ & _ & Hs).
  destruct (analyse_system_fields w _ _ _ Hs) as (_ & [Hm1 Hm2] & [Hp1 Hp2] & [Hd1 Hd2] & _).
  split; [ | split ].
  - apply (extreme_of_links Qle Remaining_Voltage_V link_min_voltage w r);
      [ intros a b; apply Qle_antisym | exact Hrun | | exact Hm1 | exact Hm2 ].
    intros l s Ha. apply (analyse_link_fields w _ _ _ Ha).
  - apply (extreme_of_links (fun a b => b <= a) Cumulative_dVoltage_mV link_max_drop_mV w r);
      [ intros a b H1 H2; apply Qle_antisym; assumption | exact Hrun | | exact Hd1 | exact Hd2 ].
    intros l s Ha. apply (analyse_link_fields w _ _ _ Ha).
  - apply (extreme_of_links (fun a b => b <= a) dVoltage_percent link_max_drop_percent w r);
      [ intros a b H1 H2; apply Qle_antisym; assumption | exact Hrun | | exact Hp1 | exact Hp2 ].
    intros l s Ha. apply (analyse_link_fields w _ _ _ Ha).
Qed.

Lemma overall_figures_at_defaults :
  exists r,
    run default_widgets = Done r /\
    forall link s, In (link, s) (report_links r) ->
                   min_voltage_overall (report_system r) <= link_min_voltage s.
Proof.
  eexists. split; [ vm_compute; reflexivity | ].
  edestruct (overall_figures_reduce_the_links default_widgets) as ((_ & H) & _);
    [ vm_compute; reflexivity | ].
  exact H.
Defined.

(** X14: which message is shown.  For a link, a current above the
    maximum takes precedence over a voltage below the minimum, and the
    nodes below the minimum are listed whenever the lowest voltage is
    below it, whatever the message; for the system, "Current limit
    exceeded!" is shown exactly when some link's current is above the
    maximum, "Voltage issues detected!" exactly when no link's current
    is and the lowest voltage of the system is below the minimum, and
    "All Systems OK" otherwise. *)
Theorem message_precedence (w : widgets) (r : report) :
  run w = Done r ->
  (forall k link hubs t s,
      link_view r k link hubs t s ->
      (max_link_current w < link_current s ->
       status_message s = Current_exceeds_maximum link (link_current s) (max_link_current w)) /\
      (link_current s <= max_link_current w -> link_min_voltage s < min_voltage w ->
       status_message s = Voltage_below_minimum link (min_voltage w)) /\
      (link_current s <= max_link_current w -> min_voltage w <= link_min_voltage s ->
       status_message s = System_OK link) /\
      (problem_nodes s <> [] <-> link_min_voltage s < min_voltage w)) /\
  (overall_status_message (report_system r) = Current_limit_exceeded <->
   over_current w r) /\
  (overall_status_message (report_system r) = Voltage_issues_detected <->
   ~ over_current w r /\ min_voltage_overall (report_system r) < min_voltage w) /\
  (overall_status_message (report_system r) = All_Systems_OK <->
   ~ over_current w r /\ min_voltage w <= min_voltage_overall (report_system r)).
Proof.
  intro Hrun. split.
  - intros k link hubs t s Hview.
    destruct (link_view_sound w r Hrun k link hubs t s Hview) as (_ & Han).
    destruct (analyse_link_fields w _ _ _ Han) as ([Hmin _] & _ & _ & _ & Hmsg & Hpn).
    rewrite Hmsg, Hpn. repeat split.
    + intro H. apply ltb_lt in H. rewrite H. reflexivity.
    + intros H1 H2. apply ltb_ge in H1. apply ltb_lt in H2. rewrite H1, H2. reflexivity.
    + intros H1 H2. apply ltb_ge in H1. apply ltb_ge in H2. rewrite H1, H2. reflexivity.
    + destruct (ltb (link_min_voltage s) (min_voltage w)) eqn:E; [ | congruence ].
      intros _. apply ltb_lt, E.
    + intro H. apply ltb_lt in H as Hb. rewrite Hb.
      apply in_map_iff in Hmin. destruct Hmin as (row & Hrow & Hin).
      intro E. apply map_eq_nil in E.
      assert (Hf : In row (filter (fun row => ltb (Remaining_Voltage_V row) (min_voltage w))
                             (rows t))).
      { apply filter_In. split; [ exact Hin | ]. rewrite Hrow. exact Hb. }
      rewrite E in Hf. exact Hf.
  - destruct (run_Done w r Hrun) as (_ & indices & _ & _ & _ & _ & _ & Hs).
    destruct (analyse_system_fields w _ _ _ Hs) as (_ & _ & _ & _ & _ & Hmsg).
    pose proof (existsb_links w r Hrun) as Hex.
    change (exists link s, In (link, s) (report_links r) /\
                           max_link_current w < link_current s)
      with (over_current w r) in Hex.
    set (over := over_current w r) in *.
    rewrite Hmsg.
    destruct (existsb _ (link_results (report_propagation r))).
    + assert (Hover : over) by (apply Hex; reflexivity).
      repeat split; try discriminate; try (intros [Hno _]; exfalso; exact (Hno Hover)).
      intros _. exact Hover.
    + assert (Hno : ~ over) by (intro H; apply Hex in H; discriminate).
      destruct (ltb (min_voltage_overall (report_system r)) (min_voltage w)) eqn:E.
      * apply ltb_lt in E. repeat split; try discriminate; try assumption.
        -- intro H. exfalso. exact (Hno H).
        -- intros [_ H]. exfalso. exact (Qlt_not_le _ _ E H).
      * apply ltb_ge in E. repeat split; try discriminate; try assumption.
        -- intro H. exfalso. exact (Hno H).
        -- intros [_ H]. exfalso. exact (Qlt_not_le _ _ H E).
Qed.

Lemma message_at_defaults :
  exists r,
    run default_widgets = Done r /\
    (overall_status_message (report_system r) = Current_limit_exceeded <->
     over_current default_widgets r).
Proof.
  eexists. split; [ vm_compute; reflexivity | ].
  edestruct (message_precedence default_widgets) as (_ & H & _);
    [ vm_compute; reflexivity | ].
  exact H.
Defined.

End ReductionExtras.

(** ** The chart *)

Section ChartExtras.
Import Py Main2.
Open Scope Q_scope.

Lemma threshold_agrees (ref minv c : Q) :
  0 < ref ->
  ((LINK_VOLTAGE - minv) / ref * 100 < c / (ref * 1000) * 100 <->
   LINK_VOLTAGE - c / 1000 < minv).
Proof.
  intro Href.
  assert (E : c / (ref * 1000) * 100 == (c / 1000) / ref * 100) by (field; lra).
  rewrite E.
  assert (Hdiv : forall a b, a / ref < b / ref <-> a < b).
  { intros a b. unfold Qdiv. apply Qmult_lt_r. apply Qinv_lt_0_compat, Href. }
  specialize (Hdiv (LINK_VOLTAGE - minv) (c / 1000)).
  set (x := (LINK_VOLTAGE - minv) / ref) in *. set (y := c / 1000 / ref) in *.
  set (z := c / 1000) in *. split; intro H.
  - assert (Hxy : x < y) by lra. apply Hdiv in Hxy. lra.
  - assert (Hxy : x < y) by (apply Hdiv; lra). lra.
Qed.

Lemma threshold_below (ref minv c : Q) :
  0 < ref ->
  (c / (ref * 1000) * 100 < (LINK_VOLTAGE - minv) / ref * 100 <->
   minv < LINK_VOLTAGE - c / 1000).
Proof.
  intro Href.
  assert (E : c / (ref * 1000) * 100 == (c / 1000) / ref * 100) by (field; lra).
  rewrite E.
  assert (Hdiv : forall a b, a / ref < b / ref <-> a < b).
  { intros a b. unfold Qdiv. apply Qmult_lt_r. apply Qinv_lt_0_compat, Href. }
  specialize (Hdiv (c / 1000) (LINK_VOLTAGE - minv)).
  set (x := (LINK_VOLTAGE - minv) / ref) in *. set (y := c / 1000 / ref) in *.
  set (z := c / 1000) in *. split; intro H.
  - assert (Hxy : y < x) by lra. apply Hdiv in Hxy. lra.
  - assert (Hxy : y < x) by (apply Hdiv; lra). lra.
Qed.

(** X15: the two threshold lines of a link's chart agree: the percent
    series and the voltage series have the same length, a node whose
    voltage lies below the line drawn at [min_voltage] lies above the
    line drawn at [max_drop_percent] on the percentage axis, and a node
    above the one lies below the other; this for every node further
    than the margin from the voltage line.  A node on the line is on the
    other line in exact arithmetic and may be off it in binary64: at
    the defaults with a minimum of 47.34375 V the first hub is at
    47.34375 V, the line at 1.3671875 % and the node at
    1.3671875000000002 %. *)
Theorem chart_thresholds_agree :
  (forall (w : widgets) (r : report),
      in_bounds w -> practical w -> run w = Done r ->
      forall k link hubs t s,
        link_view r k link hubs t s ->
        List.length (percent_values t) = List.length (voltage_values t) /\
        forall i v p,
          nth_error (voltage_values t) i = Some v ->
          nth_error (percent_values t) i = Some p ->
          (v + margin v < min_voltage w -> Chart.max_drop_percent w < p) /\
          (min_voltage w + margin v < v -> p < Chart.max_drop_percent w)) /\
  (exists r t v p,
      run (default_page 24 47.34375) = Done r /\
      link_traces (report_propagation r) = [("APWRLINK 1"%string, t)] /\
      nth_error (voltage_values t) 1 = Some v /\
      nth_error (percent_values t) 1 = Some p /\
      v == 47.34375 /\
      p == Chart.max_drop_percent (default_page 24 47.34375) /\
      map Binary64.remaining_voltage
        (Binary64.propagate_link 10 4 48
           [hub_drawing "APWRHUB 1" 5000; hub_drawing "APWRHUB 2" 5000;
            hub_drawing "APWRHUB 3" 5000] (fun _ => 10%float))
      = [47.34375; 46.90625; 46.6875]%float /\
      map Binary64.percent_drop
        (Binary64.propagate_link 10 4 48
           [hub_drawing "APWRHUB 1" 5000; hub_drawing "APWRHUB 2" 5000;
            hub_drawing "APWRHUB 3" 5000] (fun _ => 10%float))
      = [1.3671875000000002; 2.2786458333333339; 2.7343750000000004]%float /\
      Binary64.max_drop_percent 47.34375 48 = 1.3671875%float).
Proof.
  split.
  - intros w r Hb _ Hrun k link hubs t s Hview.
    destruct (link_view_sound w r Hrun k link hubs t s Hview) as (Hpl & _).
    destruct (propagate_link_series w link hubs t Hpl) as (cs & [_ Hv Hp _ _ _ _]).
    pose proof (bound_reference_voltage w Hb) as Href1.
    assert (Href : 0 < reference_voltage w) by lra.
    rewrite Hv, Hp. split; [ cbn [List.length]; rewrite !length_map; reflexivity | ].
    intros i v p Hiv Hip. unfold Chart.max_drop_percent.
    pose proof (margin_pos v) as Hmg.
    destruct i as [ | i ]; cbn [nth_error] in Hiv, Hip.
    + injection Hiv as <-. injection Hip as <-.
      pose proof (threshold_agrees (reference_voltage w) (min_voltage w) 0 Href) as H.
      pose proof (threshold_below (reference_voltage w) (min_voltage w) 0 Href) as H'.
      assert (E : 0 / (reference_voltage w * 1000) * 100 == 0) by (unfold Qdiv; ring).
      assert (E2 : LINK_VOLTAGE - 0 / 1000 == LINK_VOLTAGE) by (unfold Qdiv; ring).
      rewrite E, E2 in H, H'. split; intro Hlt; [ apply H | apply H' ]; lra.
    + apply nth_error_map_Some in Hiv. destruct Hiv as (c & Hc & <-).
      apply nth_error_map_Some in Hip. destruct Hip as (c' & Hc' & <-).
      rewrite Hc in Hc'. injection Hc' as <-.
      split; intro Hlt;
        [ apply threshold_agrees | apply threshold_below ]; try exact Href; lra.
  - eexists. eexists. eexists. eexists.
    split; [ vm_compute; reflexivity | ].
    do 3 (split; [ reflexivity | ]).
    repeat split; vm_compute; reflexivity.
Qed.

Lemma chart_thresholds_at_defaults :
  exists r link hubs t s,
    in_bounds default_widgets /\
    practical default_widgets /\
    run default_widgets = Done r /\
    link_view r 0 link hubs t s /\
    List.length (percent_values t) = List.length (voltage_values t) /\
    forall i v p,
      nth_error (voltage_values t) i = Some v ->
      nth_error (percent_values t) i = Some p ->
      (v + margin v < min_voltage default_widgets ->
       Chart.max_drop_percent default_widgets < p) /\
      (min_voltage default_widgets + margin v < v ->
       p < Chart.max_drop_percent default_widgets).
Proof.
  assert (Hb : in_bounds default_widgets).
  { constructor; intros; try split; vm_compute; discriminate. }
  assert (Hp : practical default_widgets).
  { constructor; intros; vm_compute; discriminate. }
  eexists. eexists. eexists. eexists. eexists.
  split; [ exact Hb | ]. split; [ exact Hp | ].
  split; [ vm_compute; reflexivity | ].
  split; [ constructor; reflexivity | ].
  eapply (proj1 chart_thresholds_agree default_widgets _ Hb Hp ?[Hrun] 0%nat).
  [Hrun]: { vm_compute. reflexivity. }
  constructor; reflexivity.
Defined.

End ChartExtras.

Section AxisExtras.
Import Py Main2.
Open Scope Q_scope.

(** X22: with inputs within the bounds of the widgets, the percentage
    axis of a link's chart, drawn from 0 to [max_percent], covers the
    series: no percentage is negative and none lies above the upper
    limit. *)
Theorem chart_axis_covers_the_series (w : widgets) (r : report) :
  in_bounds w -> run w = Done r ->
  forall k link hubs t s,
    link_view r k link hubs t s ->
    exists top,
      Chart.max_percent (percent_values t) = Done top /\
      forall p, In p (percent_values t) -> 0 <= p <= top.
Proof.
  intros Hb Hrun k link hubs t s Hview.
  destruct (bounded_link w r Hb Hrun k link hubs t s Hview) as (_ & _ & cs & Hs & _ & Hsort).
  pose proof (bound_reference_voltage w Hb) as HR.
  destruct (monotone_series w t cs) as (_ & _ & Hperc & _);
    [ lra | exact Hs | exact Hsort | ].
  pose proof (series_percent _ _ _ Hs) as Hp.
  destruct (percent_values t) as [ | p0 ps ] eqn:E; [ discriminate Hp | ].
  injection Hp as -> Hps.
  unfold Chart.max_percent. cbn [max bind].
  pose proof (fold_max_spec ps 0) as [Hin Hle].
  eexists. split; [ reflexivity | ].
  intros p Hp.
  assert (H0 : 0 <= p).
  { apply In_nth_error in Hp. destruct Hp as (i & Hi).
    apply (Hperc 0%nat i 0 p); [ lia | reflexivity | exact Hi ]. }
  split; [ exact H0 | ].
  specialize (Hle p Hp).
  set (m := fold_left (fun m y => if ltb m y then y else m) ps 0) in *.
  lra.
Qed.

Lemma chart_axis_at_defaults :
  exists r link hubs t s,
    in_bounds default_widgets /\
    run default_widgets = Done r /\
    link_view r 0 link hubs t s /\
    exists top,
      Chart.max_percent (percent_values t) = Done top /\
      forall p, In p (percent_values t) -> 0 <= p <= top.
Proof.
  assert (Hb : in_bounds default_widgets).
  { constructor; intros; try split; vm_compute; discriminate. }
  eexists. eexists. eexists. eexists. eexists.
  split; [ exact Hb | ].
  split; [ vm_compute; reflexivity | ].
  split; [ constructor; reflexivity | ].
  eapply (chart_axis_covers_the_series default_widgets _ Hb ?[Hrun] 0%nat).
  [Hrun]: { vm_compute. reflexivity. }
  constructor; reflexivity.
Defined.

End AxisExtras.

(** ** The PDF report *)

Section Pages.
Import Py Main2.

Lemma firstn_skipn_firstn {A : Type} (l : list A) (a b : nat) :
  (a <= b)%nat -> firstn a l ++ skipn a (firstn b l) = firstn b l.
Proof.
  intro Hab. rewrite <- (firstn_skipn a (firstn b l)) at 2.
  f_equal. rewrite firstn_firstn. f_equal. lia.
Qed.

Lemma chunks_concat {A : Type} (l : list A) (m P : nat) :
  List.concat (map (fun page => skipn (page * m)
                                  (firstn (Nat.min ((page + 1) * m) (List.length l)) l))
                 (seq 0 P))
  = firstn (P * m) l.
Proof.
  induction P as [ | P IH ]; [ reflexivity | ].
  rewrite seq_S, map_app, concat_app, IH. cbn [Nat.add map List.concat].
  rewrite app_nil_r.
  replace (firstn (Nat.min ((P + 1) * m) (List.length l)) l) with (firstn ((P + 1) * m) l).
  - replace (S P * m)%nat with ((P + 1) * m)%nat by lia.
    apply firstn_skipn_firstn. lia.
  - destruct (Nat.le_ge_cases ((P + 1) * m) (List.length l)) as [ H | H ].
    + rewrite Nat.min_l by exact H. reflexivity.
    + rewrite Nat.min_r by exact H. rewrite !firstn_all2 by lia. reflexivity.
Qed.

End Pages.

Section PdfExtras.
Import Py Main2.

(** X17: the table pages of the PDF report partition the table: put one
    after the other they are the rows of the table in their order; their
    number is [ceil(len(df) / 20)]; no page is empty, none has more than
    20 rows, and every page but the last has exactly 20. *)
Theorem table_pages_partition (df : list result_row) :
  List.concat (Pdf.table_pages df) = df /\
  Z.of_nat (List.length (Pdf.table_pages df)) = ceil_div (Z.of_nat (List.length df)) 20 /\
  forall i page,
    nth_error (Pdf.table_pages df) i = Some page ->
    page <> [] /\ (List.length page <= 20)%nat /\
    ((S i < List.length (Pdf.table_pages df))%nat -> List.length page = 20%nat).
Proof.
  pose proof (ceil_div_spec (Z.of_nat (List.length df)) 20 eq_refl) as Hspec.
  destruct df as [ | row df ].
  { cbn [Pdf.table_pages List.concat List.length] in *.
    split; [ reflexivity | ]. split; [ lia | ]. intros [ | i ] page H; discriminate H. }
  set (rows := row :: df) in *.
  assert (Hlen : (0 < List.length rows)%nat) by (cbn; lia).
  change (Pdf.table_pages rows)
    with (map (fun page =>
                 skipn (page * 20) (firstn (Nat.min ((page + 1) * 20) (List.length rows)) rows))
            (range (Z.to_nat (ceil_div (Z.of_nat (List.length rows)) 20)))).
  set (P := Z.to_nat (ceil_div (Z.of_nat (List.length rows)) 20)) in *.
  assert (HP : Z.of_nat P = ceil_div (Z.of_nat (List.length rows)) 20) by (unfold P; lia).
  split; [ | split ].
  - unfold range. rewrite chunks_concat. apply firstn_all2. lia.
  - rewrite length_map. unfold range. rewrite length_seq. exact HP.
  - intros i page Hpage. rewrite length_map. unfold range in *. rewrite length_seq.
    apply nth_error_map_Some in Hpage. destruct Hpage as (p & Hp & <-).
    assert (Hi : (i < P)%nat).
    { assert (Hn : nth_error (seq 0 P) i <> None) by congruence.
      apply nth_error_Some in Hn. rewrite length_seq in Hn. exact Hn. }
    rewrite nth_error_seq in Hp. apply Nat.ltb_lt in Hi as Hb. rewrite Hb in Hp.
    injection Hp as <-. cbn [Nat.add].
    assert (Hl : List.length (skipn (i * 20)
                   (firstn (Nat.min ((i + 1) * 20) (List.length rows)) rows))
                 = (Nat.min ((i + 1) * 20) (List.length rows) - i * 20)%nat).
    { rewrite length_skipn, length_firstn. lia. }
    split; [ | split ].
    + intro E. rewrite E in Hl. cbn [List.length] in Hl. lia.
    + rewrite Hl. lia.
    + intro Hlast. rewrite Hl. lia.
Qed.

End PdfExtras.

Section PdfFacts.
Import Py Main2.
Open Scope Q_scope.

Lemma hub_to_hub_labels (w : widgets) (link_id : string) (hubs : list hub) (d : hub)
  (l : list nat) :
  forall t,
    Forall (fun row => APWRLINK row = link_id) (rows t) ->
    Forall (fun row => APWRLINK row = link_id)
      (rows (fold_left (hub_to_hub w link_id hubs d) l t)).
Proof.
  induction l as [ | i l IH ]; intros t Ht; cbn [fold_left]; [ exact Ht | ].
  apply IH. unfold hub_to_hub. destruct (0 <? i)%nat; [ | exact Ht ].
  cbn [segment rows]. apply Forall_app. split; [ exact Ht | ].
  constructor; [ reflexivity | constructor ].
Qed.

Lemma propagate_link_labels (w : widgets) (link_id : string) (hubs : list hub)
  (t : link_trace) :
  propagate_link w link_id hubs = Done t ->
  Forall (fun row => APWRLINK row = link_id) (rows t).
Proof.
  destruct hubs as [ | hub0 tl ]; [ discriminate | ].
  cbn [propagate_link]. cbv zeta. intro H. injection H as <-.
  apply hub_to_hub_labels. cbn [segment rows app].
  constructor; [ reflexivity | constructor ].
Qed.

Lemma pass_of_labelled (w : widgets) (groups : list (string * list hub))
  (ts : list (string * link_trace)) :
  Forall2 (pass_of w) groups ts -> Forall labelled (map rows_of ts).
Proof.
  induction 1 as [ | g kt groups ts [E Hpl] _ IH ]; cbn [map]; constructor; [ | exact IH ].
  unfold labelled, rows_of. cbn [fst snd]. split.
  - destruct (propagate_link_Done w _ _ _ Hpl) as (hub0 & tl & seg0 & rest & _ & Hr & HF & _).
    exists seg0, rest. split; assumption.
  - rewrite E. apply (propagate_link_labels w _ _ _ Hpl).
Qed.

Lemma find_app_none {A : Type} (p : A -> bool) (l l' : list A) :
  Forall (fun x => p x = false) l -> find p (l ++ l') = find p l'.
Proof.
  induction 1 as [ | x l Hx _ IH ]; cbn [app find]; [ reflexivity | ].
  rewrite Hx. exact IH.
Qed.

Lemma pdf_link_current_found (ls : list (string * list result_row)) :
  Forall labelled ls -> NoDup (map fst ls) ->
  forall l, In l ls ->
    Pdf.link_current (flat_map snd ls) (fst l) = first_link_current (snd l).
Proof.
  induction 1 as [ | l0 ls [(seg0 & rest & Hr & HF) Hlab] _ IH ]; intros Hnd l Hin;
    [ destruct Hin | ].
  cbn [map] in Hnd. inversion Hnd as [ | ? ? Hnotin Hnd' ]; subst.
  cbn [flat_map]. destruct Hin as [ <- | Hin ].
  - rewrite Hr. rewrite Hr in Hlab. inversion Hlab as [ | ? ? Hk _ ]; subst.
    unfold Pdf.link_current. cbn [app find]. rewrite Hk, HF, !String.eqb_refl. cbn [andb].
    symmetry. apply first_link_current_seg0, HF.
  - unfold Pdf.link_current. rewrite find_app_none.
    + apply (IH Hnd' l Hin).
    + eapply Forall_impl; [ | exact Hlab ]. cbn beta. intros row Hrow. rewrite Hrow.
      destruct (String.eqb (fst l0) (fst l)) eqn:E; [ | reflexivity ].
      apply String.eqb_eq in E. exfalso. apply Hnotin. rewrite E. apply in_map, Hin.
Qed.

Lemma pdf_body_same_link (all : list result_row) (k : string) (rows : list result_row) :
  Forall (fun row => APWRLINK row = k) rows ->
  forall lc, In k (map fst lc) -> fold_left (Pdf.link_currents_body all) rows lc = lc.
Proof.
  induction 1 as [ | row rows Hk _ IH ]; intros lc Hin; cbn [fold_left]; [ reflexivity | ].
  unfold Pdf.link_currents_body at 2. rewrite Hk.
  assert (E : existsb (String.eqb k) (map fst lc) = true).
  { apply existsb_exists. exists k. split; [ exact Hin | apply String.eqb_refl ]. }
  rewrite E. apply IH, Hin.
Qed.

Lemma pdf_body_new (all : list result_row) (lc : list (string * Q)) (row : result_row) :
  ~ In (APWRLINK row) (map fst lc) ->
  Pdf.link_currents_body all lc row
  = lc ++ [(APWRLINK row, Pdf.link_current all (APWRLINK row))].
Proof.
  intro Hnotin. unfold Pdf.link_currents_body.
  destruct (existsb (String.eqb (APWRLINK row)) (map fst lc)) eqn:E; [ | reflexivity ].
  apply existsb_exists in E. destruct E as (k & Hin & E). apply String.eqb_eq in E.
  subst k. exfalso. exact (Hnotin Hin).
Qed.

Lemma pdf_link_currents_fold (all : list result_row) (ls : list (string * list result_row)) :
  Forall labelled ls ->
  forall lc,
    NoDup (map fst lc ++ map fst ls) ->
    fold_left (Pdf.link_currents_body all) (flat_map snd ls) lc
    = lc ++ map (fun l => (fst l, Pdf.link_current all (fst l))) ls.
Proof.
  induction 1 as [ | l0 ls [(seg0 & rest & Hr & HF) Hlab] _ IH ]; intros lc Hnd.
  - cbn. rewrite app_nil_r. reflexivity.
  - cbn [flat_map map]. rewrite fold_left_app, Hr. cbn [fold_left].
    rewrite Hr in Hlab. inversion Hlab as [ | ? ? Hk Hrest ]; subst.
    rewrite pdf_body_new.
    2: { rewrite Hk. cbn [map] in Hnd. apply NoDup_remove_2 in Hnd.
         intro Hin. apply Hnd, in_or_app. left. exact Hin. }
    rewrite Hk.
    rewrite (pdf_body_same_link all (fst l0) rest Hrest).
    + rewrite IH.
      * rewrite <- app_assoc. reflexivity.
      * rewrite map_app, <- app_assoc. exact Hnd.
    + rewrite map_app. apply in_or_app. right. left. reflexivity.
Qed.

Lemma filter_nil {A : Type} (p : A -> bool) (l : list A) :
  Forall (fun x => p x = false) l -> filter p l = [].
Proof.
  induction 1 as [ | x l Hx _ IH ]; cbn [filter]; [ reflexivity | ].
  rewrite Hx. exact IH.
Qed.

Lemma link_hubs_of_group (groups : list (string * list hub)) :
  well_keyed groups -> NoDup (map fst groups) ->
  forall k hs, In (k, hs) groups -> Pdf.link_hubs (List.concat (map snd groups)) k = hs.
Proof.
  unfold Pdf.link_hubs.
  induction groups as [ | [k0 hs0] groups IH ]; intros Hw Hnd k hs Hin; [ destruct Hin | ].
  cbn [map fst] in Hnd. inversion Hnd as [ | ? ? Hnotin Hnd' ]; subst.
  assert (Hw' : well_keyed groups).
  { intros k' hs' Hin'. apply Hw. right. exact Hin'. }
  destruct (Hw k0 hs0 (or_introl eq_refl)) as [_ Hk0].
  cbn [map snd List.concat]. rewrite filter_app. destruct Hin as [ E | Hin ].
  - injection E as <- <-.
    rewrite forallb_filter_id.
    + rewrite filter_nil; [ apply app_nil_r | ].
      apply Forall_forall. intros h Hh. apply in_concat in Hh.
      destruct Hh as (hs' & Hhs' & Hh). apply in_map_iff in Hhs'.
      destruct Hhs' as ([k' hs''] & E & Hin'). cbn [snd] in E. subst hs''.
      destruct (Hw' k' hs' Hin') as [_ Hk']. rewrite (Hk' h Hh).
      apply String.eqb_neq. intro E. subst k'. apply Hnotin.
      apply in_map_iff. exists (k0, hs'). split; [ reflexivity | exact Hin' ].
    + apply forallb_forall. intros h Hh. rewrite (Hk0 h Hh). apply String.eqb_refl.
  - rewrite filter_nil.
    + apply (IH Hw' Hnd' k hs Hin).
    + apply Forall_forall. intros h Hh. rewrite (Hk0 h Hh).
      apply String.eqb_neq. intro E. subst k0. apply Hnotin.
      apply in_map_iff. exists (k, hs). split; [ reflexivity | exact Hin ].
Qed.

End PdfFacts.

Section PdfAgreement.
Import Py Main2.
Open Scope Q_scope.

Lemma flat_map_rows_of (ts : list (string * link_trace)) :
  flat_map snd (map rows_of ts) = flat_map (fun kt => rows (snd kt)) ts.
Proof.
  induction ts as [ | kt ts IH ]; [ reflexivity | ].
  cbn [map flat_map rows_of snd]. rewrite IH. reflexivity.
Qed.

(** X16: the PDF reports recompute what the page shows and agree with
    it.  In the complete report the per-link currents, looked up in the
    flat list of all rows, are those of the overall status, and the links
    reported as overloaded are those whose status current is above the
    maximum; in the report of one link the hubs filtered from [hub_data]
    by link id are the hubs of the link, and the per-link currents are
    the single entry of that link with its status current. *)
Theorem pdf_report_agrees_with_the_page (w : widgets) (r : report) :
  run w = Done r ->
  Pdf.link_currents (results (report_propagation r)) = link_currents (report_system r) /\
  (forall link,
      In link (Pdf.overloaded_links w (results (report_propagation r))) <->
      exists s, In (link, s) (report_links r) /\ max_link_current w < link_current s) /\
  forall k link hubs t s,
    link_view r k link hubs t s ->
    Pdf.link_hubs (report_hub_data r) link = hubs /\
    Pdf.link_currents (rows t) = [(link, link_current s)].
Proof.
  intro Hrun.
  destruct (run_Done w r Hrun) as (_ & indices & _ & _ & _ & Hp & Hl & Hs).
  destruct (propagate_Done w _ _ Hp) as (HF & Hlr & Hres).
  destruct (analyse_system_fields w _ _ _ Hs) as (_ & _ & _ & _ & Hlc & _).
  destruct (run_links_partition w r Hrun) as (Hcat & Hnd & Hkeys).
  assert (Hlab : Forall labelled (link_results (report_propagation r))).
  { rewrite Hlr. apply (pass_of_labelled w _ _ HF). }
  assert (Hnd' : NoDup (map fst (link_results (report_propagation r)))).
  { rewrite Hlr, map_map. cbn [rows_of fst].
    change (map (fun x : string * link_trace => fst x) (link_traces (report_propagation r)))
      with (map fst (link_traces (report_propagation r))).
    rewrite (pass_of_keys w _ _ HF). exact Hnd. }
  assert (Hall : Pdf.link_currents (results (report_propagation r))
                 = link_currents (report_system r)).
  { unfold Pdf.link_currents. rewrite Hres at 2. rewrite <- flat_map_rows_of, <- Hlr.
    rewrite (pdf_link_currents_fold _ _ Hlab []) by exact Hnd'.
    rewrite Hlc. cbn [app]. apply map_ext_in. intros l Hin. unfold current_entry. f_equal.
    rewrite Hres, <- flat_map_rows_of, <- Hlr.
    apply (pdf_link_current_found _ Hlab Hnd' l Hin). }
  split; [ exact Hall | ]. split.
  - intro link. unfold Pdf.overloaded_links. rewrite Hall, Hlc.
    apply mapM_Done in Hl. rewrite in_map_iff. split.
    + intros ([k c] & E & Hin). cbn [fst] in E. subst k.
      apply filter_In in Hin. destruct Hin as [Hin Hlt]. cbn [snd] in Hlt.
      apply ltb_lt in Hlt. apply in_map_iff in Hin. destruct Hin as (l & E & Hin).
      unfold current_entry in E. injection E as E1 E2.
      destruct (Forall2_In_l _ _ _ Hl l Hin) as ([link' s] & Hls & Ha).
      apply analysed_Done in Ha. cbn [fst snd] in Ha. destruct Ha as [Ek Ha].
      destruct (analyse_link_Done w _ _ _ Ha) as (m & _ & _ & Hc & _).
      exists s. split; [ rewrite <- E1, <- Ek; exact Hls | ].
      rewrite Hc, E2. exact Hlt.
    + intros (s & Hls & Hlt).
      destruct (Forall2_In_r _ _ _ Hl _ Hls) as (l & Hin & Ha).
      apply analysed_Done in Ha. cbn [fst snd] in Ha. destruct Ha as [Ek Ha].
      destruct (analyse_link_Done w _ _ _ Ha) as (m & _ & _ & Hc & _).
      exists (current_entry l). split; [ symmetry; exact Ek | ].
      apply filter_In. split; [ apply in_map, Hin | ].
      unfold current_entry. cbn [snd]. apply ltb_lt. rewrite <- Hc. exact Hlt.
  - intros k link hubs t s Hview.
    destruct (link_view_sound w r Hrun k link hubs t s Hview) as (Hpl & Han).
    split.
    + rewrite <- Hcat. apply link_hubs_of_group; [ exact Hkeys | exact Hnd | ].
      eapply nth_error_In. apply (view_group _ _ _ _ _ _ Hview).
    + assert (Hone : Forall labelled [(link, rows t)]).
      { constructor; [ | constructor ]. rewrite Forall_forall in Hlab. apply Hlab.
        eapply nth_error_In. apply (view_rows _ _ _ _ _ _ Hview). }
      assert (Hnd1 : NoDup (map fst [(link, rows t)])).
      { cbn. constructor; [ intros [] | constructor ]. }
      unfold Pdf.link_currents.
      pose proof (pdf_link_currents_fold (rows t) _ Hone [] Hnd1) as Hfold.
      cbn [flat_map snd app map fst] in Hfold. rewrite app_nil_r in Hfold.
      rewrite Hfold. do 2 f_equal.
      pose proof (pdf_link_current_found _ Hone Hnd1 (link, rows t) (or_introl eq_refl))
        as Hcur.
      cbn [flat_map snd fst] in Hcur. rewrite app_nil_r in Hcur. rewrite Hcur.
      destruct (analyse_link_Done w _ _ _ Han) as (m & _ & _ & Hc & _).
      symmetry. exact Hc.
Qed.

Lemma pdf_report_at_defaults :
  exists r,
    run default_widgets = Done r /\
    Pdf.link_currents (results (report_propagation r)) = link_currents (report_system r).
Proof.
  eexists. split; [ vm_compute; reflexivity | ].
  edestruct (pdf_report_agrees_with_the_page default_widgets) as (H & _);
    [ vm_compute; reflexivity | ].
  exact H.
Defined.

End PdfAgreement.

Section PdfWarning.
Import Py Main2.
Open Scope Q_scope.

Variable w : widgets.

Lemma filter_below (rows : list result_row) (m : Q) :
  is_min m (map Remaining_Voltage_V rows) ->
  ltb m (min_voltage w) = false ->
  filter (fun row => ltb (Remaining_Voltage_V row) (min_voltage w)) rows = [].
Proof.
  intros [_ Hle] Hm. apply ltb_ge in Hm. apply filter_nil, Forall_forall.
  intros row Hrow. apply ltb_ge. apply Qle_trans with m; [ exact Hm | ].
  apply Hle, in_map, Hrow.
Qed.

(** The nodes listed are the rows below the minimum, warning or not. *)
Lemma problem_nodes_filter (link_id : string) (rows : list result_row) (s : link_status) :
  analyse_link w link_id rows = Done s ->
  problem_nodes s
  = map To (filter (fun row => ltb (Remaining_Voltage_V row) (min_voltage w)) rows) /\
  Pdf.problem_nodes w rows = Done (problem_nodes s).
Proof.
  intro Ha. destruct (analyse_link_fields w _ _ _ Ha) as (Hmin & _ & _ & _ & _ & Hpn).
  destruct (analyse_link_Done w _ _ _ Ha) as (m & Hm & Em & _).
  unfold Pdf.problem_nodes. rewrite Hm. cbn [bind]. rewrite <- Em, <- Hpn.
  split; [ | reflexivity ].
  rewrite Hpn. destruct (ltb (link_min_voltage s) (min_voltage w)) eqn:E; [ reflexivity | ].
  rewrite (filter_below rows _ Hmin E). reflexivity.
Qed.

Lemma filter_flat_map {A B : Type} (p : B -> bool) (g : A -> list B) (l : list A) :
  filter p (flat_map g l) = flat_map (fun a => filter p (g a)) l.
Proof.
  induction l as [ | a l IH ]; [ reflexivity | ].
  cbn [flat_map]. rewrite filter_app, IH. reflexivity.
Qed.

Lemma map_flat_map {A B C : Type} (f : B -> C) (g : A -> list B) (l : list A) :
  map f (flat_map g l) = flat_map (fun a => map f (g a)) l.
Proof.
  induction l as [ | a l IH ]; [ reflexivity | ].
  cbn [flat_map]. rewrite map_app, IH. reflexivity.
Qed.

Lemma analysed_problem_nodes (ls : list (string * list result_row))
  (links : list (string * link_status)) :
  Forall2 (fun l ks => analysed w l = Done ks) ls links ->
  List.concat (map (fun ks => problem_nodes (snd ks)) links)
  = flat_map (fun l => map To (filter (fun row => ltb (Remaining_Voltage_V row)
                                                     (min_voltage w)) (snd l))) ls.
Proof.
  induction 1 as [ | l ks ls links Ha _ IH ]; [ reflexivity | ].
  cbn [map List.concat flat_map]. rewrite IH. f_equal.
  apply analysed_Done in Ha. destruct Ha as [_ Ha].
  apply (problem_nodes_filter _ _ _ Ha).
Qed.

End PdfWarning.

Section PdfWarningExtras.
Import Py Main2.
Open Scope Q_scope.

(** X23: the voltage warning of the PDF reports names the nodes the page
    names: in the complete report, the problem nodes of all links, link
    after link; in the report of one link, the problem nodes of that
    link's status. *)
Theorem pdf_warning_names_the_problem_nodes (w : widgets) (r : report) :
  run w = Done r ->
  Pdf.problem_nodes w (results (report_propagation r))
  = Done (List.concat (map (fun ks => problem_nodes (snd ks)) (report_links r))) /\
  forall k link hubs t s,
    link_view r k link hubs t s ->
    Pdf.problem_nodes w (rows t) = Done (problem_nodes s).
Proof.
  intro Hrun.
  destruct (run_Done w r Hrun) as (_ & indices & _ & _ & _ & Hp & Hl & Hs).
  destruct (propagate_Done w _ _ Hp) as (_ & Hlr & Hres).
  apply mapM_Done in Hl.
  split.
  - destruct (analyse_system_Done w _ _ _ Hs) as (m & Hm & _).
    rewrite (analysed_problem_nodes w _ _ Hl).
    unfold Pdf.problem_nodes. rewrite Hm. cbn [bind]. f_equal.
    assert (E : map To (filter (fun row => ltb (Remaining_Voltage_V row) (min_voltage w))
                          (results (report_propagation r)))
                = flat_map (fun l => map To (filter (fun row => ltb (Remaining_Voltage_V row)
                                                                  (min_voltage w)) (snd l)))
                    (link_results (report_propagation r))).
    { rewrite Hres, Hlr, <- flat_map_rows_of, filter_flat_map, map_flat_map. reflexivity. }
    rewrite <- E.
    destruct (ltb m (min_voltage w)) eqn:Em; [ reflexivity | ].
    rewrite (filter_below w _ m (min_Done _ _ Hm) Em). reflexivity.
  - intros k link hubs t s Hview.
    destruct (link_view_sound w r Hrun k link hubs t s Hview) as (_ & Han).
    apply (problem_nodes_filter w _ _ _ Han).
Qed.

Lemma pdf_warning_at_defaults :
  exists r,
    run default_widgets = Done r /\
    Pdf.problem_nodes default_widgets (results (report_propagation r))
    = Done (List.concat (map (fun ks => problem_nodes (snd ks)) (report_links r))).
Proof.
  eexists. split; [ vm_compute; reflexivity | ].
  edestruct (pdf_warning_names_the_problem_nodes default_widgets) as (H & _);
    [ vm_compute; reflexivity | ].
  exact H.
Defined.

End PdfWarningExtras.

(** ** [src/main.py]: distribution and table *)

Section MainDistribution.
Import Py.

Variable w : Main.widgets.

Lemma channel_fold_slots (h : nat) (s : Z * Z) :
  fold_left (Main.channel_body w h) (seq 1 4) s
  = fold_left (fun s p => Main.anschluss_body w h (fst p) s (snd p)) anschluesse s.
Proof. reflexivity. Qed.

(** Connections are filled while anodes are left. *)
Lemma slots_fill (h : nat) (l : list (nat * nat)) :
  forall c acc,
    (c + Z.of_nat (List.length l) <= Main.anoden_total w + 1)%Z ->
    fold_left (fun s p => Main.anschluss_body w h (fst p) s (snd p)) l (c, acc)
    = ((c + Z.of_nat (List.length l))%Z,
       (acc + sum (map (fun p => Main.value w h (fst p) (snd p)) l))%Z).
Proof.
  induction l as [ | p l IH ]; intros c acc Hc; cbn [fold_left List.length map].
  - change (sum []) with 0%Z. f_equal; lia.
  - cbn [List.length] in Hc. unfold Main.anschluss_body at 2.
    replace (c <=? Main.anoden_total w)%Z with true by (symmetry; apply Z.leb_le; lia).
    rewrite IH by lia. rewrite sum_cons. f_equal; lia.
Qed.

Lemma slots_skip (h : nat) (l : list (nat * nat)) :
  forall c acc,
    (Main.anoden_total w < c)%Z ->
    fold_left (fun s p => Main.anschluss_body w h (fst p) s (snd p)) l (c, acc) = (c, acc).
Proof.
  induction l as [ | p l IH ]; intros c acc Hc; cbn [fold_left]; [ reflexivity | ].
  unfold Main.anschluss_body at 2.
  replace (c <=? Main.anoden_total w)%Z with false by (symmetry; apply Z.leb_gt; lia).
  apply IH, Hc.
Qed.

(** One pass of the loop over the hubs, started with [c - 1] anodes
    placed: the hub takes [a] anodes, 8 or what is left. *)
Lemma main_hub_body_spec (s : Main.verteilung) (h : nat) (a : nat) :
  (Main.anoden_counter s <= Main.anoden_total w + 1)%Z ->
  Z.of_nat a = Z.min 8 (Main.anoden_total w + 1 - Main.anoden_counter s) ->
  Main.hub_body w s h
  = {| Main.anoden_counter := (Main.anoden_counter s + Z.of_nat a)%Z;
       Main.hub_stroeme := Main.hub_stroeme s
         ++ [sum (map (fun p => Main.value w h (fst p) (snd p)) (firstn a anschluesse))];
       Main.hub_distanzen := Main.hub_distanzen s ++ [Main.distanz w h] |}.
Proof.
  intros Hc Ha. unfold Main.hub_body. rewrite channel_fold_slots.
  assert (Ha8 : (a <= 8)%nat) by lia.
  rewrite <- (firstn_skipn a anschluesse) at 1. rewrite fold_left_app.
  assert (Hl : List.length (firstn a anschluesse) = a).
  { rewrite length_firstn. change (List.length anschluesse) with 8%nat. lia. }
  rewrite slots_fill by (rewrite Hl; lia). rewrite Hl.
  destruct (Nat.eq_dec a 8) as [ -> | Hne ].
  - cbn [skipn anschluesse fold_left]. reflexivity.
  - rewrite slots_skip by lia. reflexivity.
Qed.

End MainDistribution.

Section MainDistribution2.
Import Py.

Variable w : Main.widgets.

Lemma main_anzahl_hubs_spec :
  (8 * (Main.anzahl_hubs w - 1) < Main.anoden_total w <= 8 * Main.anzahl_hubs w)%Z.
Proof. apply (ceil_div_spec (Main.anoden_total w) 8). reflexivity. Qed.

Lemma main_verteile_prefix (k : nat) :
  (1 <= Main.anoden_total w)%Z ->
  (k <= Z.to_nat (Main.anzahl_hubs w))%nat ->
  fold_left (Main.hub_body w) (seq 1 k)
    {| Main.anoden_counter := 1; Main.hub_stroeme := []; Main.hub_distanzen := [] |}
  = {| Main.anoden_counter := Z.min (8 * Z.of_nat k) (Main.anoden_total w) + 1;
       Main.hub_stroeme := map (hub_strom w) (seq 1 k);
       Main.hub_distanzen := map (Main.distanz w) (seq 1 k) |}.
Proof.
  intro Htotal. pose proof main_anzahl_hubs_spec as Hn.
  induction k as [ | k IH ]; intro Hk.
  - cbn [seq fold_left map]. f_equal. lia.
  - rewrite seq_S, fold_left_app, IH by lia. cbn [fold_left Nat.add].
    rewrite (main_hub_body_spec w _ (S k) (anoden_an_hub w (S k)));
      cbn [Main.anoden_counter Main.hub_stroeme Main.hub_distanzen].
    + rewrite !map_app. cbn [map]. f_equal. unfold anoden_an_hub.
      destruct (S k <? Z.to_nat (Main.anzahl_hubs w))%nat eqn:E.
      * apply Nat.ltb_lt in E. lia.
      * apply Nat.ltb_ge in E. lia.
    + lia.
    + unfold anoden_an_hub.
      destruct (S k <? Z.to_nat (Main.anzahl_hubs w))%nat eqn:E.
      * apply Nat.ltb_lt in E. lia.
      * apply Nat.ltb_ge in E. lia.
Qed.

Lemma main_verteile_spec :
  (1 <= Main.anoden_total w)%Z ->
  Main.verteile w
  = {| Main.anoden_counter := Main.anoden_total w + 1;
       Main.hub_stroeme := map (hub_strom w) (seq 1 (Z.to_nat (Main.anzahl_hubs w)));
       Main.hub_distanzen := map (Main.distanz w) (seq 1 (Z.to_nat (Main.anzahl_hubs w))) |}.
Proof.
  intro Htotal. pose proof main_anzahl_hubs_spec as Hn.
  unfold Main.verteile. rewrite main_verteile_prefix by lia. f_equal. lia.
Qed.

End MainDistribution2.

Section MainDistributionExtras.
Import Py.

Lemma sum_bounded (B : Z) (l : list Z) :
  Forall (fun x => 0 <= x <= B)%Z l -> (0 <= sum l <= B * Z.of_nat (List.length l))%Z.
Proof.
  induction 1 as [ | x l Hx _ IH ]; [ cbn; lia | ].
  rewrite sum_cons. cbn [List.length]. lia.
Qed.

Lemma anoden_an_hub_bounds (w : Main.widgets) (h : nat) :
  (1 <= Main.anoden_total w)%Z ->
  (1 <= anoden_an_hub w h <= 8)%nat.
Proof.
  intro Htotal. pose proof (main_anzahl_hubs_spec w) as Hn. unfold anoden_an_hub.
  destruct (h <? Z.to_nat (Main.anzahl_hubs w))%nat; lia.
Qed.

(** X18: in [src/main.py] every anode gets exactly one connection: the
    counter ends at [anoden_total + 1]; every hub but the last holds 8
    anodes and the last the 1 to 8 that remain; the current of a hub is
    the sum of the values entered for its occupied connections, taken in
    the order channel 1 to 4, connection 1 to 2; the distances are those
    entered per hub; with values within the bounds of the widgets a hub
    current lies between 0 and 625 mA times its anodes. *)
Theorem main_anode_distribution (w : Main.widgets) :
  (1 <= Main.anoden_total w)%Z ->
  Main.anoden_counter (Main.verteile w) = (Main.anoden_total w + 1)%Z /\
  Main.hub_stroeme (Main.verteile w)
  = map (hub_strom w) (seq 1 (Z.to_nat (Main.anzahl_hubs w))) /\
  Main.hub_distanzen (Main.verteile w)
  = map (Main.distanz w) (seq 1 (Z.to_nat (Main.anzahl_hubs w))) /\
  (forall h, (1 <= h < Z.to_nat (Main.anzahl_hubs w))%nat -> anoden_an_hub w h = 8%nat) /\
  (1 <= anoden_an_hub w (Z.to_nat (Main.anzahl_hubs w)) <= 8)%nat /\
  sum (map (fun h => Z.of_nat (anoden_an_hub w h)) (seq 1 (Z.to_nat (Main.anzahl_hubs w))))
  = Main.anoden_total w /\
  ((forall h ch a, 0 <= Main.value w h ch a <= 625)%Z ->
   forall h, (0 <= hub_strom w h <= 625 * Z.of_nat (anoden_an_hub w h))%Z).
Proof.
  intro Htotal. pose proof (main_anzahl_hubs_spec w) as Hn.
  rewrite (main_verteile_spec w Htotal).
  cbn [Main.anoden_counter Main.hub_stroeme Main.hub_distanzen].
  split; [ reflexivity | ]. split; [ reflexivity | ]. split; [ reflexivity | ].
  split; [ | split; [ apply anoden_an_hub_bounds, Htotal | split ] ].
  - intros h Hh. unfold anoden_an_hub.
    replace (h <? Z.to_nat (Main.anzahl_hubs w))%nat with true
      by (symmetry; apply Nat.ltb_lt; lia).
    reflexivity.
  - destruct (Z.to_nat (Main.anzahl_hubs w)) as [ | m ] eqn:Em; [ lia | ].
    rewrite seq_S, map_app, sum_app. cbn [map Nat.add].
    rewrite sum_cons. change (sum []) with 0%Z.
    rewrite (map_ext_in _ (fun _ => 8%Z)).
    + rewrite map_const, sum_repeat, length_seq. unfold anoden_an_hub. rewrite Em.
      rewrite Nat.ltb_irrefl. lia.
    + intros h Hh. apply in_seq in Hh. unfold anoden_an_hub. rewrite Em.
      replace (h <? S m)%nat with true by (symmetry; apply Nat.ltb_lt; lia).
      reflexivity.
  - intros Hv h. unfold hub_strom.
    pose proof (anoden_an_hub_bounds w h Htotal) as Ha.
    match goal with |- (0 <= sum ?l <= _)%Z =>
      assert (Hl : List.length l = anoden_an_hub w h);
      [ | pose proof (sum_bounded 625 l) as Hs; rewrite Hl in Hs; apply Hs ] end.
    + rewrite length_map, length_firstn. change (List.length anschluesse) with 8%nat. lia.
    + apply Forall_forall. intros x Hx. apply in_map_iff in Hx.
      destruct Hx as (p & <- & _). apply Hv.
Qed.

Lemma main_anode_distribution_at_full_load :
  (1 <= Main.anoden_total (full_load 20))%Z /\
  Main.anoden_counter (Main.verteile (full_load 20)) = 21%Z /\
  Main.hub_stroeme (Main.verteile (full_load 20))
  = map (hub_strom (full_load 20)) (seq 1 (Z.to_nat (Main.anzahl_hubs (full_load 20)))).
Proof.
  assert (H : (1 <= Main.anoden_total (full_load 20))%Z) by (vm_compute; discriminate).
  split; [ exact H | ].
  destruct (main_anode_distribution (full_load 20) H) as (H1 & H2 & _).
  split; [ exact H1 | exact H2 ].
Defined.

End MainDistributionExtras.

Section MainTable.
Import Py.
Open Scope Q_scope.

Variable w : Main.widgets.

Lemma last_cons_default {A : Type} (l : list A) :
  forall a d, last (a :: l) d = last l a.
Proof.
  induction l as [ | b l IH ]; intros a d; [ reflexivity | ].
  change (last (a :: b :: l) d) with (last (b :: l) d). rewrite !IH. reflexivity.
Qed.

Lemma running_snoc (ds : list Q) (d : Q) :
  forall acc, running acc (ds ++ [d]) = running acc ds ++ [last (running acc ds) acc + d].
Proof.
  induction ds as [ | d0 ds IH ]; intro acc; cbn [app running]; [ reflexivity | ].
  rewrite IH, last_cons_default. reflexivity.
Qed.

Lemma main_berechne_lists (hs : list Z) (ds : list Q) (n : nat) :
  (n <= List.length hs)%nat ->
  forall s,
    s = fold_left (Main.berechne_body w hs ds) (seq 0 n)
          {| Main.cumulative_current := 0;
             Main.cumulative_voltage := 0.0;
             Main.spannungsabfall_liste := [];
             Main.spannung_kumuliert_liste := [];
             Main.spannungsabfall_mV := [];
             Main.spannungsabfall_prozent := [];
             Main.leitungswiderstaende := [];
             Main.strom_A_log := [] |} ->
    Main.leitungswiderstaende s = map (leitungswiderstand w ds) (seq 0 n) /\
    Main.spannungsabfall_liste s = map (spannungsabfall w hs ds) (seq 0 n) /\
    Main.spannung_kumuliert_liste s = running 0.0 (Main.spannungsabfall_liste s) /\
    Main.cumulative_voltage s = last (Main.spannung_kumuliert_liste s) 0.0 /\
    Main.spannungsabfall_mV s = map (fun v => v * 1000) (Main.spannung_kumuliert_liste s) /\
    Main.spannungsabfall_prozent s
    = map (fun v => v / Main.max_erlaubter_spannungsabfall * 100)
        (Main.spannung_kumuliert_liste s).
Proof.
  induction n as [ | n IH ]; intros Hn s Hs.
  - subst s. cbn. repeat split.
  - rewrite seq_S, fold_left_app in Hs. cbn [fold_left Nat.add] in Hs.
    pose proof (main_berechne_prefix w hs ds n ltac:(lia)) as Hpre. cbv zeta in Hpre.
    destruct Hpre as (Hcur & _).
    set (s0 := fold_left (Main.berechne_body w hs ds) (seq 0 n) _) in *.
    destruct (IH ltac:(lia) s0 eq_refl) as (HR & HU & HK & HC & HM & HP).
    subst s. unfold Main.berechne_body.
    assert (EU : (if Nat.eqb n 0 then (0.0, 0.0)
                  else (2 * nth n ds 0 / (Main.leitfaehigkeit_kupfer * Main.leitung_querschnitt w),
                        2 * nth n ds 0 / (Main.leitfaehigkeit_kupfer * Main.leitung_querschnitt w)
                        * (inject_Z (Main.cumulative_current s0 + nth n hs 0%Z) / 1000)))
                 = (leitungswiderstand w ds n, spannungsabfall w hs ds n)).
    { unfold spannungsabfall, leitungswiderstand. rewrite Hcur, <- sum_firstn_S by lia.
      destruct (Nat.eqb n 0); reflexivity. }
    rewrite EU.
    cbn [Main.leitungswiderstaende Main.spannungsabfall_liste Main.spannung_kumuliert_liste
         Main.cumulative_voltage Main.spannungsabfall_mV Main.spannungsabfall_prozent].
    rewrite !seq_S, !map_app, HR, HU. cbn [map Nat.add].
    split; [ reflexivity | ]. split; [ reflexivity | ].
    rewrite <- HU, running_snoc, <- HK, <- HC, last_last, HM, HP.
    repeat split.
Qed.

End MainTable.

Section MainTableFacts.
Import Py.
Open Scope Q_scope.

Variable w : Main.widgets.

Lemma main_hub_loop_distanzen (l : list nat) :
  forall s,
    Main.hub_distanzen (fold_left (Main.hub_body w) l s)
    = Main.hub_distanzen s ++ map (Main.distanz w) l.
Proof.
  induction l as [ | h l IH ]; intro s; cbn [fold_left map].
  - rewrite app_nil_r. reflexivity.
  - rewrite IH. unfold Main.hub_body.
    destruct (fold_left (Main.channel_body w h) (seq 1 4) (Main.anoden_counter s, 0%Z)).
    cbn [Main.hub_distanzen]. rewrite <- app_assoc. reflexivity.
Qed.

Lemma main_hub_distanzen :
  Main.hub_distanzen (Main.verteile w)
  = map (Main.distanz w) (seq 1 (Z.to_nat (Main.anzahl_hubs w))).
Proof. unfold Main.verteile. rewrite main_hub_loop_distanzen. reflexivity. Qed.

(** The lists of the calculation, for the run of the script. *)
Lemma main_run_lists :
  Main.leitungswiderstaende (Main.report_berechnung (Main.run w))
  = map (leitungswiderstand w (Main.hub_distanzen (Main.verteile w)))
      (seq 0 (Z.to_nat (Main.anzahl_hubs w))) /\
  Main.spannungsabfall_liste (Main.report_berechnung (Main.run w))
  = map (spannungsabfall w (Main.hub_stroeme (Main.verteile w))
           (Main.hub_distanzen (Main.verteile w)))
      (seq 0 (Z.to_nat (Main.anzahl_hubs w))) /\
  Main.spannung_kumuliert_liste (Main.report_berechnung (Main.run w))
  = running 0.0 (Main.spannungsabfall_liste (Main.report_berechnung (Main.run w))) /\
  Main.cumulative_voltage (Main.report_berechnung (Main.run w))
  = last (Main.spannung_kumuliert_liste (Main.report_berechnung (Main.run w))) 0.0 /\
  Main.spannungsabfall_mV (Main.report_berechnung (Main.run w))
  = map (fun v => v * 1000)
      (Main.spannung_kumuliert_liste (Main.report_berechnung (Main.run w))) /\
  Main.spannungsabfall_prozent (Main.report_berechnung (Main.run w))
  = map (fun v => v / Main.max_erlaubter_spannungsabfall * 100)
      (Main.spannung_kumuliert_liste (Main.report_berechnung (Main.run w))).
Proof.
  unfold Main.run. cbn [Main.report_berechnung].
  apply (main_berechne_lists w (Main.hub_stroeme (Main.verteile w))
           (Main.hub_distanzen (Main.verteile w)) (Z.to_nat (Main.anzahl_hubs w))).
  - rewrite main_hub_stroeme_length. lia.
  - reflexivity.
Qed.

End MainTableFacts.

Section MainTableExtras.
Import Py.
Open Scope Q_scope.

(** X19: the table of [src/main.py] has one entry per hub in each of its
    columns (so the DataFrame can be built and no index is out of
    range); the cumulative voltage of a row is the running total of the
    drops up to it, the mV column is that voltage times 1000 and the
    percentage column that voltage over the 2.0 V limit times 100; the
    warning is shown exactly when the total drop exceeds the limit,
    which is when the percentage of the last row exceeds 100. *)
Theorem main_voltage_table (w : Main.widgets) :
  (List.length (Main.hub_stroeme (Main.report_verteilung (Main.run w)))
   = Z.to_nat (Main.anzahl_hubs w) /\
   List.length (Main.hub_distanzen (Main.report_verteilung (Main.run w)))
   = Z.to_nat (Main.anzahl_hubs w) /\
   List.length (Main.leitungswiderstaende (Main.report_berechnung (Main.run w)))
   = Z.to_nat (Main.anzahl_hubs w) /\
   List.length (Main.spannungsabfall_liste (Main.report_berechnung (Main.run w)))
   = Z.to_nat (Main.anzahl_hubs w) /\
   List.length (Main.spannung_kumuliert_liste (Main.report_berechnung (Main.run w)))
   = Z.to_nat (Main.anzahl_hubs w) /\
   List.length (Main.spannungsabfall_mV (Main.report_berechnung (Main.run w)))
   = Z.to_nat (Main.anzahl_hubs w) /\
   List.length (Main.spannungsabfall_prozent (Main.report_berechnung (Main.run w)))
   = Z.to_nat (Main.anzahl_hubs w)) /\
  Main.spannung_kumuliert_liste (Main.report_berechnung (Main.run w))
  = running 0.0 (Main.spannungsabfall_liste (Main.report_berechnung (Main.run w))) /\
  Main.spannungsabfall_mV (Main.report_berechnung (Main.run w))
  = map (fun v => v * 1000)
      (Main.spannung_kumuliert_liste (Main.report_berechnung (Main.run w))) /\
  Main.spannungsabfall_prozent (Main.report_berechnung (Main.run w))
  = map (fun v => v / 2.0 * 100)
      (Main.spannung_kumuliert_liste (Main.report_berechnung (Main.run w))) /\
  (Main.warnung (Main.run w) = true <->
   2.0 < Main.cumulative_voltage (Main.report_berechnung (Main.run w))) /\
  (Main.warnung (Main.run w) = true <->
   exists p,
     nth_error (Main.spannungsabfall_prozent (Main.report_berechnung (Main.run w)))
       (Z.to_nat (Main.anzahl_hubs w) - 1) = Some p /\ 100 < p).
Proof.
  destruct (main_run_lists w) as (HR & HU & HK & HC & HM & HP).
  assert (LU : List.length (Main.spannungsabfall_liste (Main.report_berechnung (Main.run w)))
               = Z.to_nat (Main.anzahl_hubs w)).
  { rewrite HU, length_map, length_seq. reflexivity. }
  assert (LK : List.length (Main.spannung_kumuliert_liste
                              (Main.report_berechnung (Main.run w)))
               = Z.to_nat (Main.anzahl_hubs w)).
  { rewrite HK, running_length. exact LU. }
  assert (Hwarn : Main.warnung (Main.run w) = true <->
                  2.0 < Main.cumulative_voltage (Main.report_berechnung (Main.run w))).
  { unfold Main.run at 1. cbn [Main.warnung]. apply ltb_lt. }
  split.
  { split; [ apply main_hub_stroeme_length | ].
    split; [ cbn [Main.run Main.report_verteilung]; rewrite main_hub_distanzen,
               length_map, length_seq; reflexivity | ].
    split; [ rewrite HR, length_map, length_seq; reflexivity | ].
    split; [ exact LU | ]. split; [ exact LK | ].
    split; [ rewrite HM, length_map; exact LK | rewrite HP, length_map; exact LK ]. }
  split; [ exact HK | ]. split; [ exact HM | ]. split; [ exact HP | ].
  split; [ exact Hwarn | ].
  rewrite Hwarn, HC, HP.
  set (ks := Main.spannung_kumuliert_liste (Main.report_berechnung (Main.run w))) in *.
  set (n := Z.to_nat (Main.anzahl_hubs w)) in *.
  assert (Hp : forall v, 100 < v / Main.max_erlaubter_spannungsabfall * 100 <-> 2.0 < v).
  { intro v. unfold Main.max_erlaubter_spannungsabfall.
    assert (E : v / 2.0 * 100 == v * 50) by field. rewrite E. split; intro; lra. }
  destruct (nth_error ks (n - 1)) as [ v | ] eqn:Ev.
  - assert (El : last ks 0.0 = v).
    { destruct (exists_last (l := ks)) as (ks' & v' & E).
      - intro E. rewrite E in Ev. destruct (n - 1)%nat; discriminate.
      - rewrite E, last_last. rewrite E, length_app in LK. cbn [List.length] in LK.
        rewrite E, nth_error_app2 in Ev by lia.
        replace (n - 1 - List.length ks')%nat with 0%nat in Ev by lia.
        cbn in Ev. congruence. }
    rewrite El, nth_error_map, Ev. cbn [option_map]. split.
    + intro H. eexists. split; [ reflexivity | ]. apply Hp, H.
    + intros (p & E & H). injection E as <-. apply Hp, H.
  - assert (E : ks = []).
    { apply nth_error_None in Ev. destruct ks; [ reflexivity | ].
      cbn [List.length] in *. lia. }
    rewrite E. cbn [last map]. split.
    + intro H. exfalso. lra.
    + intros (p & H & _). destruct (n - 1)%nat; discriminate H.
Qed.

End MainTableExtras.

Section MainBounds.
Import Py.
Open Scope Q_scope.

Lemma hub_strom_nonneg (w : Main.widgets) (h : nat) :
  (forall h ch a, 0 <= Main.value w h ch a)%Z -> (0 <= hub_strom w h)%Z.
Proof.
  intro Hv. unfold hub_strom. apply sum_nonneg. apply Forall_forall.
  intros x Hx. apply in_map_iff in Hx. destruct Hx as (p & <- & _). apply Hv.
Qed.

Lemma sum_firstn_nonneg (hs : list Z) (n : nat) :
  Forall (fun x => 0 <= x)%Z hs -> (0 <= sum (firstn n hs))%Z.
Proof.
  intro H. apply sum_nonneg. apply Forall_forall. intros x Hx.
  rewrite Forall_forall in H. apply H.
  rewrite <- (firstn_skipn n hs). apply in_or_app. left. exact Hx.
Qed.

Lemma spannungsabfall_nonneg (w : Main.widgets) (hs : list Z) (ds : list Q) (i : nat) :
  0 < Main.leitung_querschnitt w ->
  Forall (fun x => 0 <= x)%Z hs -> Forall (fun d => 0 <= d) ds ->
  0 <= spannungsabfall w hs ds i.
Proof.
  intros HA Hhs Hds. unfold spannungsabfall, leitungswiderstand.
  destruct (Nat.eqb i 0); [ lra | ].
  apply Qmult_le_0_compat.
  - apply Qle_shift_div_l.
    + unfold Main.leitfaehigkeit_kupfer. lra.
    + assert (0 <= nth i ds 0); [ | lra ].
      destruct (nth_in_or_default i ds 0) as [ Hin | -> ]; [ | lra ].
      rewrite Forall_forall in Hds. apply Hds, Hin.
  - apply Qle_shift_div_l; [ reflexivity | ]. rewrite Qmult_0_l.
    change 0 with (inject_Z 0). rewrite <- Zle_Qle. apply sum_firstn_nonneg, Hhs.
Qed.

Lemma sorted_last (xs : list Q) (d v : Q) :
  StronglySorted Qle xs -> In v xs -> v <= last xs d.
Proof.
  intros Hs Hin. destruct (exists_last (l := xs)) as (xs' & z & E).
  - intro E. rewrite E in Hin. destruct Hin.
  - subst xs. rewrite last_last. apply in_app_or in Hin.
    destruct Hin as [ Hin | [ <- | [] ] ]; [ | apply Qle_refl ].
    clear d. induction xs' as [ | a xs' IH ]; [ destruct Hin | ].
    cbn [app] in Hs. inversion Hs as [ | ? ? Hs' Ha ]; subst.
    destruct Hin as [ <- | Hin ].
    + rewrite Forall_forall in Ha. apply Ha, in_or_app. right. left. reflexivity.
    + apply IH; assumption.
Qed.

End MainBounds.

Section MainBoundsExtras.
Import Py.
Open Scope Q_scope.

(** X20: in [src/main.py], with inputs within the bounds of the widgets,
    no hub current, resistance or drop is negative, the cumulative
    voltage never decreases from one hub to the next, and the warning
    is shown exactly when the percentage of some hub exceeds 100. *)
Theorem main_voltage_grows (w : Main.widgets) :
  main_in_bounds w ->
  Forall (fun c => 0 <= c)%Z (Main.hub_stroeme (Main.report_verteilung (Main.run w))) /\
  Forall (fun R => 0 <= R) (Main.leitungswiderstaende (Main.report_berechnung (Main.run w))) /\
  Forall (fun U => 0 <= U) (Main.spannungsabfall_liste (Main.report_berechnung (Main.run w))) /\
  non_decreasing (Main.spannung_kumuliert_liste (Main.report_berechnung (Main.run w))) /\
  (Main.warnung (Main.run w) = true <->
   Exists (fun p => 100 < p)
     (Main.spannungsabfall_prozent (Main.report_berechnung (Main.run w)))).
Proof.
  intros [Htotal HA Hv Hd].
  destruct (main_run_lists w) as (HR & HU & HK & HC & _ & HP).
  assert (HA' : 0 < Main.leitung_querschnitt w) by lra.
  assert (Hhs : Forall (fun c => 0 <= c)%Z (Main.hub_stroeme (Main.verteile w))).
  { rewrite (main_verteile_spec w Htotal). cbn [Main.hub_stroeme].
    apply Forall_map, Forall_forall. intros h _. apply hub_strom_nonneg.
    intros h' ch a. apply Hv. }
  assert (Hds : Forall (fun d => 0 <= d) (Main.hub_distanzen (Main.verteile w))).
  { rewrite main_hub_distanzen. apply Forall_map, Forall_forall. intros h _.
    specialize (Hd h). lra. }
  assert (HUpos : Forall (fun U => 0 <= U)
                    (Main.spannungsabfall_liste (Main.report_berechnung (Main.run w)))).
  { rewrite HU. apply Forall_map, Forall_forall. intros i _.
    apply spannungsabfall_nonneg; assumption. }
  assert (Hsort : StronglySorted Qle
                    (Main.spannung_kumuliert_liste (Main.report_berechnung (Main.run w)))).
  { rewrite HK. apply running_sorted, HUpos. }
  split; [ exact Hhs | ]. split.
  { rewrite HR. apply Forall_map, Forall_forall. intros i _. unfold leitungswiderstand.
    destruct (Nat.eqb i 0); [ lra | ].
    apply Qle_shift_div_l; [ unfold Main.leitfaehigkeit_kupfer; lra | ].
    assert (0 <= nth i (Main.hub_distanzen (Main.verteile w)) 0); [ | lra ].
    destruct (nth_in_or_default i (Main.hub_distanzen (Main.verteile w)) 0)
      as [ Hin | -> ]; [ | lra ].
    rewrite Forall_forall in Hds. apply Hds, Hin. }
  split; [ exact HUpos | ]. split; [ apply sorted_non_decreasing, Hsort | ].
  assert (Hp : forall v, 100 < v / Main.max_erlaubter_spannungsabfall * 100 <-> 2.0 < v).
  { intro v. unfold Main.max_erlaubter_spannungsabfall.
    assert (E : v / 2.0 * 100 == v * 50) by field. rewrite E. split; intro; lra. }
  assert (Hwarn : Main.warnung (Main.run w) = true <->
                  2.0 < Main.cumulative_voltage (Main.report_berechnung (Main.run w))).
  { unfold Main.run at 1. cbn [Main.warnung]. apply ltb_lt. }
  rewrite Hwarn, HC, HP, Exists_exists.
  set (ks := Main.spannung_kumuliert_liste (Main.report_berechnung (Main.run w))) in *.
  split.
  - intro H. exists (last ks 0.0 / Main.max_erlaubter_spannungsabfall * 100).
    split; [ | apply Hp, H ].
    apply in_map_iff. exists (last ks 0.0). split; [ reflexivity | ].
    destruct (exists_last (l := ks)) as (ks' & z & E).
    + intro E. rewrite E in H. cbn [last] in H. lra.
    + rewrite E, last_last. apply in_or_app. right. left. reflexivity.
  - intros (p & Hin & Hlt). apply in_map_iff in Hin. destruct Hin as (v & <- & Hin).
    apply Hp in Hlt. apply Qlt_le_trans with v; [ exact Hlt | ].
    apply sorted_last; assumption.
Qed.

Lemma main_voltage_grows_at_full_load :
  main_in_bounds (full_load 24) /\
  non_decreasing
    (Main.spannung_kumuliert_liste (Main.report_berechnung (Main.run (full_load 24)))).
Proof.
  assert (Hb : main_in_bounds (full_load 24)).
  { constructor; intros; try split; vm_compute; discriminate. }
  split; [ exact Hb | ].
  apply (main_voltage_grows (full_load 24) Hb).
Defined.

(** X21: the two scripts do not compute the same resistance for the
    same cable: for every hub after the first, the resistance of
    [src/main.py], [2 * l / (56 * A)], is 100/49 (about 2.04) times
    [calculate_resistance(l, A)] of [src/main2.py] for the distance [l]
    entered for that hub and the cross-section [A]; it is the larger of
    the two for every distance of a millimetre or more, and both are 0
    for a hub at 0 m. *)
Theorem main_resistance_is_not_main2_resistance (w : Main.widgets) (i : nat) (R : Q) :
  (1 <= i)%nat ->
  0.1 <= Main.leitung_querschnitt w <= 1000000 ->
  nth_error (Main.leitungswiderstaende (Main.report_berechnung (Main.run w))) i = Some R ->
  nth_error (Main.hub_distanzen (Main.report_verteilung (Main.run w))) i
  = Some (Main.distanz w (S i)) /\
  R = 2 * Main.distanz w (S i) / (56 * Main.leitung_querschnitt w) /\
  R == (100 # 49)
       * Main2.calculate_resistance (Main.distanz w (S i)) (Main.leitung_querschnitt w) /\
  (0.001 <= Main.distanz w (S i) <= 1000000 ->
   Main2.calculate_resistance (Main.distanz w (S i)) (Main.leitung_querschnitt w) < R) /\
  (Main.distanz w (S i) == 0 ->
   R == 0 /\
   Main2.calculate_resistance (Main.distanz w (S i)) (Main.leitung_querschnitt w) == 0).
Proof.
  intros Hi [HA _] HR.
  destruct (main_run_lists w) as (HRs & _).
  rewrite HRs in HR. apply nth_error_map_Some in HR. destruct HR as (j & Hj & <-).
  assert (Hlt : (i < Z.to_nat (Main.anzahl_hubs w))%nat).
  { assert (Hn : nth_error (seq 0 (Z.to_nat (Main.anzahl_hubs w))) i <> None) by congruence.
    apply nth_error_Some in Hn. rewrite length_seq in Hn. exact Hn. }
  rewrite nth_error_seq in Hj. apply Nat.ltb_lt in Hlt as Hb. rewrite Hb in Hj.
  injection Hj as <-. cbn [Nat.add].
  assert (Hd : nth_error (Main.hub_distanzen (Main.verteile w)) i
               = Some (Main.distanz w (S i))).
  { rewrite main_hub_distanzen, nth_error_map, nth_error_seq, Hb. reflexivity. }
  split; [ exact Hd | ].
  unfold leitungswiderstand. replace (Nat.eqb i 0) with false
    by (symmetry; apply Nat.eqb_neq; lia).
  rewrite (nth_error_nth _ _ 0 Hd).
  split; [ reflexivity | ].
  unfold Main2.calculate_resistance, Main2.COPPER_RESISTIVITY, Main.leitfaehigkeit_kupfer.
  set (l := Main.distanz w (S i)) in *. set (A := Main.leitung_querschnitt w) in *.
  assert (HA0 : 0 < A) by lra.
  assert (Eratio : 2 * l / (56 * A) == (100 # 49) * (0.0175 * l / A)) by (field; lra).
  split; [ exact Eratio | ].
  split.
  - intros [Hl _]. rewrite Eratio.
    assert (Hpos : 0 < 0.0175 * l / A).
    { apply Qlt_shift_div_l; lra. }
    set (x := 0.0175 * l / A) in *. lra.
  - intro El. split; rewrite El; field; lra.
Qed.

Lemma main_resistance_at_full_load :
  exists R,
    nth_error (Main.leitungswiderstaende (Main.report_berechnung (Main.run (full_load 16)))) 1
    = Some R /\
    R == (100 # 49) * Main2.calculate_resistance 10 4 /\
    Main2.calculate_resistance 10 4 < R.
Proof.
  eexists. split; [ reflexivity | ].
  edestruct (main_resistance_is_not_main2_resistance (full_load 16) 1%nat)
    as (_ & _ & H & Hlt & _);
    [ lia | split; vm_compute; discriminate | reflexivity | ].
  split; [ exact H | ]. apply Hlt. split; vm_compute; discriminate.
Defined.

End MainBoundsExtras.
